(** * RCA: radiology workflow tracker

    A shallow embedding of the parts of [src/js/app.js] (role table, router,
    patient login, visit creation, study workflow) and of [src/gas/Code.gs]
    (the sheet row store and its request dispatcher), followed by the
    properties proved about them.

    Conventions.  A JavaScript object used as a dictionary is a [gmap] over
    its own string keys, read through the members that every object
    inherits where the code reads it under a computed key; an array is a
    [list]; [undefined] is [None].  Functions that touch the DOM, show an
    alert or issue a request return the list of those effects next to the
    new state; an uncaught exception ends that list. *)

From Stdlib Require Import Ascii.
From stdpp Require Import gmap strings list pretty.

Local Open Scope string_scope.
Local Open Scope list_scope.

(** ** Strings *)

Module Str.

(** A JavaScript string is a sequence of 16-bit code units.  It is held
    here as the bytes of its units, each unit written the way UTF-8
    writes the code point of that number: one byte for a unit below 128,
    two for a unit below 2048, three from there on.  Two strings are
    equal, one is a prefix of the other, or one is the concatenation of
    two others, exactly when their bytes are. *)

(** The bytes 128..191 continue a code unit, every other byte starts one. *)
Definition is_continuation (c : Ascii.ascii) : bool :=
  let n := Ascii.nat_of_ascii c in bool_decide (128 ≤ n < 192)%nat.

(** [s.length]: the number of code units. *)
Fixpoint length (s : string) : nat :=
  match s with
  | String.EmptyString => O
  | String.String c r => if is_continuation c then length r else S (length r)
  end.

(** [s.substring(0, n)]: the first [n] code units. *)
Fixpoint substring0 (n : nat) (s : string) : string :=
  match s with
  | String.EmptyString => String.EmptyString
  | String.String c r =>
      if is_continuation c then String.String c (substring0 n r)
      else match n with
           | O => String.EmptyString
           | S n' => String.String c (substring0 n' r)
           end
  end.

(** Every code unit is below 128. *)
Fixpoint is_ascii (s : string) : bool :=
  match s with
  | String.EmptyString => true
  | String.String c r => bool_decide (Ascii.nat_of_ascii c < 128)%nat && is_ascii r
  end.

(** [String.prototype.toUpperCase] on the code units below 128: the
    letters a..z are mapped to A..Z, every other unit is kept. *)
Definition upper_ascii (c : Ascii.ascii) : Ascii.ascii :=
  let n := Ascii.nat_of_ascii c in
  if bool_decide (97 ≤ n ≤ 122)%nat then Ascii.ascii_of_nat (n - 32)%nat else c.

Fixpoint asciiUpper (s : string) : string :=
  match s with
  | String.EmptyString => String.EmptyString
  | String.String c r => String.String (upper_ascii c) (asciiUpper r)
  end.

(** [s.toUpperCase()].  On a string with a code unit from 128 on the
    result is read from the case tables of the runtime, [unicodeUpper]. *)
Definition toUpperCase (unicodeUpper : string → string) (s : string) : string :=
  if is_ascii s then asciiUpper s else unicodeUpper s.

Definition bytes (l : list nat) : string :=
  foldr (λ n s, String.String (Ascii.ascii_of_nat n) s) String.EmptyString l.

(** The white space and the line terminators that [String.prototype.trim]
    removes, each as the bytes of its code unit. *)
Definition whiteSpace : list string :=
  bytes <$>
    [ [9]; [10]; [11]; [12]; [13]; [32];          (* U+0009..U+000D, U+0020 *)
      [194; 160];                                   (* U+00A0 *)
      [225; 154; 128];                              (* U+1680 *)
      [226; 128; 128]; [226; 128; 129]; [226; 128; 130]; [226; 128; 131];
      [226; 128; 132]; [226; 128; 133]; [226; 128; 134]; [226; 128; 135];
      [226; 128; 136]; [226; 128; 137]; [226; 128; 138]; (* U+2000..U+200A *)
      [226; 128; 168]; [226; 128; 169];             (* U+2028, U+2029 *)
      [226; 128; 175];                              (* U+202F *)
      [226; 129; 159];                              (* U+205F *)
      [227; 128; 128];                              (* U+3000 *)
      [239; 187; 191] ]%nat.                        (* U+FEFF *)

(** [s] without the prefix [p], when it starts with it. *)
Fixpoint dropPrefix (p s : string) : option string :=
  match p, s with
  | String.EmptyString, _ => Some s
  | String.String a p', String.String b s' =>
      if bool_decide (a = b) then dropPrefix p' s' else None
  | String.String _ _, String.EmptyString => None
  end.

(** [s] without its first unit, when that is one of [units]. *)
Definition dropOne (units : list string) (s : string) : option string :=
  foldr (λ w rest, match dropPrefix w s with Some r => Some r | None => rest end)
        None units.

Fixpoint dropAll (fuel : nat) (units : list string) (s : string) : string :=
  match fuel with
  | O => s
  | S fuel' =>
      match dropOne units s with
      | Some r => dropAll fuel' units r
      | None => s
      end
  end.

Definition trimStart (s : string) : string :=
  dropAll (String.length s) whiteSpace s.

Definition trimEnd (s : string) : string :=
  String.rev (dropAll (String.length s) (String.rev <$> whiteSpace) (String.rev s)).

(** [s.trim()]. *)
Definition trim (s : string) : string := trimEnd (trimStart s).

(** Whether a dash occurs in [s]. *)
Fixpoint has_dash (s : string) : bool :=
  match s with
  | String.EmptyString => false
  | String.String c r => bool_decide (c = "-"%char) || has_dash r
  end.

(** [s.startsWith(p)]. *)
Definition startsWith (p s : string) : bool := String.prefix p s.

End Str.

(** ** Objects *)

Module Js.

(** The names of the members that every object literal and every parsed
    JSON object inherits from [Object.prototype]: eleven functions and,
    under [__proto__], the prototype itself.  Each of them is truthy,
    none is an array and none has a member [0]. *)
Definition objectPrototype : list string :=
  ["constructor"; "hasOwnProperty"; "isPrototypeOf"; "propertyIsEnumerable";
   "toLocaleString"; "toString"; "valueOf"; "__proto__";
   "__defineGetter__"; "__defineSetter__"; "__lookupGetter__";
   "__lookupSetter__"].

(** The message of the TypeError for a call of something that is no
    function. *)
Definition not_a_function (what : string) : string :=
  "TypeError: " +:+ what +:+ " is not a function".

(** [String(v)] for the member [name]: the prototype is a plain object,
    the others are built-in functions ([constructor] is [Object]). *)
Definition nativeToString (name : string) : string :=
  if bool_decide (name = "__proto__") then "[object Object]"
  else
    "function "
      +:+ (if bool_decide (name = "constructor") then "Object" else name)
      +:+ "() { [native code] }".

End Js.

(** ** Application state ([App.state] and the controller fields the
       modelled actions read) *)

Record User := mkUser {
  user_id : string;
  user_email : string;
  user_full_name : string;
  user_role : string;
  user_pin : string
}.

Record Patient := mkPatient {
  patient_id : string;
  patient_full_name : string;
  patient_phone : string
}.

Record Visit := mkVisit {
  visit_id : string;
  visit_patient_id : string;
  visit_referrer_doctor : string;
  visit_check_in_time : string;
  visit_assigned_doctor_id : string;
  visit_status : string;
  visit_created_at : string
}.

Record Study := mkStudy {
  study_id : string;
  study_visit_id : string;
  study_modality : string;
  study_region : string;
  study_name : string;
  study_assigned_doctor_id : string;
  study_price : Z;
  study_status : string;
  study_created_at : string;
  study_completed_at : option string
}.

(** An entry of [tempQueue]: [{ modality, region, study_name }]. *)
Record QueuedStudy := mkQueued {
  q_modality : string;
  q_region : string;
  q_study_name : string
}.

(** [App.state.user] is either a record of [App.state.users] or the object
    [{ id, full_name, role: 'Patient', phone }] built by the patient login. *)
Inductive Session :=
| StaffSession (u : User)
| PatientSession (id full_name phone : string).

Definition session_role (s : Session) : string :=
  match s with
  | StaffSession u => user_role u
  | PatientSession _ _ _ => "Patient"
  end.

Record AppState := mkApp {
  st_user : option Session;
  st_users : list User;
  st_patients : list Patient;
  st_visits : list Visit;
  st_studies : list Study;
  st_currentView : string;
  st_tempQueue : list QueuedStudy;
  st_currentStudy : option string
}.

Definition set_user (st : AppState) (u : option Session) : AppState :=
  mkApp u (st_users st) (st_patients st) (st_visits st) (st_studies st)
        (st_currentView st) (st_tempQueue st) (st_currentStudy st).

Definition set_currentView (st : AppState) (p : string) : AppState :=
  mkApp (st_user st) (st_users st) (st_patients st) (st_visits st)
        (st_studies st) p (st_tempQueue st) (st_currentStudy st).

Definition set_visits (st : AppState) (vs : list Visit) : AppState :=
  mkApp (st_user st) (st_users st) (st_patients st) vs (st_studies st)
        (st_currentView st) (st_tempQueue st) (st_currentStudy st).

Definition set_studies (st : AppState) (ss : list Study) : AppState :=
  mkApp (st_user st) (st_users st) (st_patients st) (st_visits st) ss
        (st_currentView st) (st_tempQueue st) (st_currentStudy st).

Definition set_tempQueue (st : AppState) (q : list QueuedStudy) : AppState :=
  mkApp (st_user st) (st_users st) (st_patients st) (st_visits st)
        (st_studies st) (st_currentView st) q (st_currentStudy st).

(** What an action does besides changing [AppState]. *)
Inductive Effect :=
| ShowLogin                                   (* auth.showLogin() *)
| Alert (msg : string)                        (* alert(msg) *)
| Warn (msg : string)                         (* console.warn(msg) *)
| Render (page : string)                      (* controllers.<page>.render() *)
| NavHidden (hidden : bool)                   (* nav .hidden class *)
| StoreSession (s : Session)                  (* localStorage.setItem('rad_user', ..) *)
| UpdateUserDisplay                           (* ui.updateUserDisplay() *)
| ClearInputs                                 (* form fields reset *)
| CloseModal
| Toast (msg : string)
| Request (action : string) (target : string) (* API.request(action, {.. id ..}) *)
| Throw (msg : string)                        (* an uncaught exception ends the call *).

(** Whether the call that left these effects ended in an exception. *)
Definition thrown (es : list Effect) : bool :=
  existsb (λ e, match e with Throw _ => true | _ => false end) es.

(** ** Role table ([App.rbac]) *)

Module Rbac.

Definition permissions : gmap string (list string) :=
  list_to_map
    [ ("Reception", ["reception"]);
      ("Technician", ["technician"]);
      ("Radiologist", ["reception"; "technician"; "radiologist"]);
      ("Admin", ["reception"; "technician"; "radiologist"; "admin"]);
      ("Patient", ["patient-portal"]) ].

(** [permissions[role] || fallback]: the array of the role; the
    fallback when the table has no member of that name; [None] when the
    member is one that the table inherits, which is truthy and so kept,
    and which is no array. *)
Definition pagesOr (fallback : list string) (role : string)
  : option (list string) :=
  match permissions !! role with
  | Some pages => Some pages
  | None =>
      if bool_decide (role ∈ Js.objectPrototype) then None else Some fallback
  end.

(** [allowed.includes(page)]; [page] is [None] when the caller passes
    [undefined]. *)
Definition includes (allowed : list string) (page : option string) : bool :=
  match page with
  | Some p => bool_decide (p ∈ allowed)
  | None => false
  end.

(** [None]: [allowed.includes] is no function and the call throws a
    TypeError. *)
Definition canAccess (role : string) (page : option string) : option bool :=
  (λ allowed, includes allowed page) <$> pagesOr [] role.

(** [pages[0]]; [None] is [undefined]. *)
Definition getDefaultPage (role : string) : option string :=
  pagesOr ["reception"] role ≫= head.

(** [None]: what is returned is the inherited member, no array. *)
Definition getAllowedPages (role : string) : option (list string) :=
  pagesOr [] role.

Definition actionPermissions : gmap string (list string) :=
  list_to_map
    [ ("createVisit", ["Reception"; "Admin"]);
      ("createPatient", ["Reception"; "Admin"]);
      ("startScan", ["Technician"; "Admin"]);
      ("completeScan", ["Technician"; "Admin"]);
      ("writeReport", ["Radiologist"; "Admin"]);
      ("markComplete", ["Radiologist"; "Admin"]);
      ("manageUsers", ["Admin"]);
      ("viewAllPatients", ["Radiologist"; "Admin"]) ].

(** The controllers call [hasPermission] with the names of this table
    only. *)
Definition hasPermission (st : AppState) (action : string) : bool :=
  match st_user st with
  | None => false
  | Some user =>
      let allowed := default [] (actionPermissions !! action) in
      bool_decide (session_role user ∈ allowed)
  end.

(** The roles of the permission table. *)
Inductive Role := Reception | Technician | Radiologist | Admin | PatientRole.

Definition role_name (r : Role) : string :=
  match r with
  | Reception => "Reception"
  | Technician => "Technician"
  | Radiologist => "Radiologist"
  | Admin => "Admin"
  | PatientRole => "Patient"
  end.

End Rbac.

(** ** Router ([App.router.navigate]) *)

Module Router.
Import Rbac.

(** The [switch (page)] of [navigate]. *)
Definition render_page (page : string) : list Effect :=
  if bool_decide (page ∈ ["reception"; "technician"; "radiologist"; "admin";
                          "patient-portal"])
  then [Render page] else [].

Definition access_denied (role page : string) : string :=
  "Access denied: " +:+ role +:+ " cannot access " +:+ page.

(** The page as the template literal of the warning prints it. *)
Definition page_text (page : option string) : string := default "undefined" page.

(** [navigate] calls itself; [fuel] bounds the depth of the calls and
    [None] means the bound was hit.  [page] is [None] when the caller
    passes [undefined]. *)
Fixpoint navigate_fuel (fuel : nat) (st : AppState) (page : option string)
  : option (AppState * list Effect) :=
  match fuel with
  | O => None
  | S fuel' =>
      match st_user st with
      | None => Some (st, [ShowLogin])
      | Some user =>
          let role := session_role user in
          match canAccess role page with
          | None => Some (st, [Throw (Js.not_a_function "allowed.includes")])
          | Some false =>
              let denied := Warn (access_denied role (page_text page)) in
              let defaultPage := getDefaultPage role in
              if bool_decide (page ≠ defaultPage) then
                match navigate_fuel fuel' st defaultPage with
                | Some (st', es) => Some (st', denied :: es)
                | None => None
                end
              else Some (st, [denied])
          | Some true =>
              match page with
              | Some p =>
                  Some (set_currentView st p,
                        render_page p
                          ++ [NavHidden (bool_decide (role = "Patient"))])
              | None => Some (st, [])  (* not reached: no array holds [undefined] *)
              end
          end
      end
  end.

(** Two levels of calls are always enough (proved below), so this is the
    function the other controllers call. *)
Definition navigateTo (st : AppState) (page : option string)
  : AppState * list Effect :=
  default (st, []) (navigate_fuel 2 st page).

Definition navigate (st : AppState) (page : string) : AppState * list Effect :=
  navigateTo st (Some page).

End Router.

(** ** User display ([App.ui.updateUserDisplay], [renderNavigation]) *)

Module Ui.

(** [renderNavigation] calls [allowedPages.includes] once for every
    navigation button of the page.  [navButtons] tells whether the
    document holds such a button; with one, a role whose allowed pages
    are no array ends the call in a TypeError. *)
Definition renderNavigation (navButtons : bool) (st : AppState) : list Effect :=
  match st_user st with
  | None => []
  | Some user =>
      match Rbac.getAllowedPages (session_role user) with
      | Some _ => []
      | None =>
          if navButtons then [Throw (Js.not_a_function "allowedPages.includes")]
          else []
      end
  end.

Definition updateUserDisplay (navButtons : bool) (st : AppState) : list Effect :=
  UpdateUserDisplay :: renderNavigation navButtons st.

End Ui.

(** ** Login ([App.controllers.auth.login]) *)

Module Auth.

(** The values of the four input fields that [login] reads. *)
Record LoginForm := mkForm {
  login_user : string;
  login_pin : string;
  login_patient_phone : string;
  login_patient_pin : string
}.

Definition invalid_passcode : string :=
  "Invalid Passcode. Format: First 3 letters of Name + Phone (e.g. AHM0123...)".

(** [{ id: patient.id, full_name: patient.full_name, role: 'Patient',
      phone: patient.phone }]. *)
Definition sessionOf (patient : Patient) : Session :=
  PatientSession (patient_id patient) (patient_full_name patient)
                 (patient_phone patient).

Section Runtime.

(** The case tables of the runtime for strings that are not all below
    code unit 128, and whether the document holds a navigation button. *)
Variable unicodeUpper : string → string.
Variable navButtons : bool.

(** The passcode the patient branch compares with. *)
Definition expectedPass (patient : Patient) (phone : string) : string :=
  let namePart :=
    Str.toUpperCase unicodeUpper (Str.substring0 3 (patient_full_name patient)) in
  namePart +:+ phone.

(** What follows [App.state.user = user] in both branches: the session
    is stored, the display updated, the inputs cleared and [target]
    asked for; an exception of the display ends the call there. *)
Definition enter (st1 : AppState) (user : Session) (target : string)
  : AppState * list Effect :=
  let shown := Ui.updateUserDisplay navButtons st1 in
  if thrown shown then (st1, StoreSession user :: shown)
  else
    let '(st2, es) := Router.navigate st1 target in
    (st2, StoreSession user :: shown ++ [ClearInputs] ++ es).

Definition login (st : AppState) (type : string) (form : LoginForm)
  : AppState * list Effect :=
  if bool_decide (type = "staff") then
    let userId := login_user form in
    let pin := login_pin form in
    if bool_decide (userId = "") then (st, [Alert "Select a user"])
    else
      match find (λ u, bool_decide (user_id u = userId)) (st_users st) with
      | Some user =>
          if bool_decide (user_pin user = pin) then
            let st1 := set_user st (Some (StaffSession user)) in
            let target :=
              if bool_decide (user_role user = "Technician") then "technician"
              else if bool_decide (user_role user = "Reception") then "reception"
              else if bool_decide (user_role user = "Radiologist") then "radiologist"
              else "admin" in
            enter st1 (StaffSession user) target
          else (st, [Warn "Login failed."; Alert "Invalid PIN. Please try again."])
      | None => (st, [Warn "Login failed."; Alert "Invalid PIN. Please try again."])
      end
  else if bool_decide (type = "patient") then
    let phone := Str.trim (login_patient_phone form) in
    let pass := Str.trim (login_patient_pin form) in
    if bool_decide (phone = "") || bool_decide (pass = "") then
      (st, [Alert "Enter Phone and Passcode"])
    else
      match find (λ p, bool_decide (patient_phone p = phone)) (st_patients st) with
      | None => (st, [Alert "Patient not found with this phone number."])
      | Some patient =>
          if bool_decide (Str.toUpperCase unicodeUpper pass
                          = expectedPass patient phone) then
            let sessionUser := sessionOf patient in
            let st1 := set_user st (Some sessionUser) in
            enter st1 sessionUser "patient-portal"
          else (st, [Alert invalid_passcode])
      end
  else (st, []).

(** The patient branch, with the two fields it reads. *)
Definition patientLogin (st : AppState) (phone pass : string)
  : AppState * list Effect :=
  login st "patient" (mkForm "" "" phone pass).

End Runtime.

End Auth.

(** ** Clock and random source

    [Date.now()], [Math.floor(Math.random() * 1000)] and
    [new Date().toISOString()] as read at the [k]-th generated id. *)

Record Env := mkEnv {
  env_now : nat → N;
  env_random : nat → N;
  env_iso : nat → string
}.

Module Helpers.

(** [prefix + '-' + Date.now() + '-' + Math.floor(Math.random() * 1000)]. *)
Definition generateId (prefix : string) (now rnd : N) : string :=
  prefix +:+ "-" +:+ pretty now +:+ "-" +:+ pretty rnd.

Definition generateIdAt (env : Env) (prefix : string) (k : nat) : string :=
  generateId prefix (env_now env k) (env_random env k).

End Helpers.

(** ** Visit creation ([App.controllers.reception.saveVisit]) *)

Module Reception.

Record VisitForm := mkVisitForm {
  visit_patient_select : string;
  visit_assigned_doctor : string;
  visit_date : string
}.

Definition newStudy (env : Env) (visitId assignedDoctorId : string)
           (i : nat) (s : QueuedStudy) : Study :=
  {| study_id := Helpers.generateIdAt env "ST" (S i);
     study_visit_id := visitId;
     study_modality := q_modality s;
     study_region := q_region s;
     study_name := q_study_name s;
     study_assigned_doctor_id := assignedDoctorId;
     study_price := 0;
     study_status := "Waiting";
     study_created_at := env_iso env (S i);
     study_completed_at := None |}.

(** The state and the effects at the point where [saveVisit] returns to
    the event loop: the visit request has been issued, no response has
    arrived, the study requests are chained behind it. *)
Definition saveVisit (env : Env) (st : AppState) (form : VisitForm)
  : AppState * list Effect :=
  if negb (Rbac.hasPermission st "createVisit") then
    (st, [Alert "Access Denied: You don't have permission to create visits."])
  else
    let patientId := visit_patient_select form in
    let assignedDoctorId := visit_assigned_doctor form in
    if bool_decide (patientId = "") then (st, [Alert "Select a patient"])
    else if bool_decide (assignedDoctorId = "") then (st, [Alert "Select a doctor"])
    else if bool_decide (length (st_tempQueue st) = 0%nat) then
      (st, [Alert "Add at least one study"])
    else
      let visitId := Helpers.generateIdAt env "VS" 0 in
      let visitData :=
        {| visit_id := visitId;
           visit_patient_id := patientId;
           visit_referrer_doctor := "";
           visit_check_in_time := visit_date form;
           visit_assigned_doctor_id := assignedDoctorId;
           visit_status := "In Progress";
           visit_created_at := env_iso env 0 |} in
      let st1 := set_visits st (st_visits st ++ [visitData]) in
      let newStudies := imap (newStudy env visitId assignedDoctorId) (st_tempQueue st) in
      let st2 := set_studies st1 (st_studies st1 ++ newStudies) in
      let '(st3, es) := Router.navigate st2 "reception" in
      (set_tempQueue st3 [],
       [CloseModal] ++ es
         ++ [Toast "Saving in background..."; Request "createVisit" visitId]).

End Reception.

(** ** Study workflow (technician and radiologist controllers) *)

Module Workflow.

Definition set_status (status : string) (s : Study) : Study :=
  {| study_id := study_id s;
     study_visit_id := study_visit_id s;
     study_modality := study_modality s;
     study_region := study_region s;
     study_name := study_name s;
     study_assigned_doctor_id := study_assigned_doctor_id s;
     study_price := study_price s;
     study_status := status;
     study_created_at := study_created_at s;
     study_completed_at := study_completed_at s |}.

Definition set_completed (at_ : string) (s : Study) : Study :=
  {| study_id := study_id s;
     study_visit_id := study_visit_id s;
     study_modality := study_modality s;
     study_region := study_region s;
     study_name := study_name s;
     study_assigned_doctor_id := study_assigned_doctor_id s;
     study_price := study_price s;
     study_status := "Completed";
     study_created_at := study_created_at s;
     study_completed_at := Some at_ |}.

(** [const s = studies.find(x => x.id === id); if (s) s.<field> = ..]:
    the first study with that id is changed in place. *)
Fixpoint update_found (id : string) (f : Study → Study) (l : list Study)
  : list Study :=
  match l with
  | [] => []
  | s :: r =>
      if bool_decide (study_id s = id) then f s :: r
      else s :: update_found id f r
  end.

Definition findStudy (st : AppState) (id : string) : option Study :=
  find (λ s, bool_decide (study_id s = id)) (st_studies st).

Definition startScan (st : AppState) (id : string) (confirm : bool)
  : AppState * list Effect :=
  if negb (Rbac.hasPermission st "startScan") then
    (st, [Alert "Access Denied: You don't have permission to start scans."])
  else if negb confirm then (st, [])
  else
    (set_studies st (update_found id (set_status "Scanning") (st_studies st)),
     [Render "technician"; Request "updateStudyStatus" id]).

Definition completeScan (st : AppState) (id : string) (confirm : bool)
  : AppState * list Effect :=
  if negb (Rbac.hasPermission st "completeScan") then
    (st, [Alert "Access Denied: You don't have permission to complete scans."])
  else if negb confirm then (st, [])
  else
    (set_studies st (update_found id (set_status "Reporting") (st_studies st)),
     [Render "technician"; Request "updateStudyStatus" id]).

(** [nowIso] is [new Date().toISOString()].  The two requests and the
    final render are listed in the order in which they happen when the
    requests are answered. *)
Definition markComplete (st : AppState) (studyId : string) (confirm : bool)
           (nowIso : string) : AppState * list Effect :=
  if negb (Rbac.hasPermission st "markComplete") then
    (st, [Alert "Access Denied: You don't have permission to mark cases as complete."])
  else if negb confirm then (st, [])
  else
    (set_studies st (update_found studyId (set_completed nowIso) (st_studies st)),
     [Request "saveReport" studyId; Request "markComplete" studyId;
      Render "radiologist"]).

(** [printReport] saves the report of [App.state.currentStudy] through
    the API and prints; [App.state] is not written.  [st_currentStudy]
    holds the id of that study; without a current study the first
    property access throws and nothing is sent. *)
Definition printReport (st : AppState) : AppState * list Effect :=
  match st_currentStudy st with
  | Some id => (st, [Request "saveReport" id])
  | None => (st, [])
  end.

(** The controller calls that write or send a study status. *)
Inductive Action :=
| StartScan (id : string) (confirm : bool)
| CompleteScan (id : string) (confirm : bool)
| MarkComplete (id : string) (confirm : bool) (nowIso : string)
| PrintReport.

Definition step (st : AppState) (a : Action) : AppState :=
  match a with
  | StartScan id c => fst (startScan st id c)
  | CompleteScan id c => fst (completeScan st id c)
  | MarkComplete id c t => fst (markComplete st id c t)
  | PrintReport => fst (printReport st)
  end.

Definition run (st : AppState) (l : list Action) : AppState := foldl step st l.

(** The status a call writes or sends, and the id it is called with. *)
Definition target (a : Action) : string :=
  match a with
  | StartScan _ _ => "Scanning"
  | CompleteScan _ _ => "Reporting"
  | MarkComplete _ _ _ => "Completed"
  | PrintReport => "Reported"
  end.

Definition action_id (a : Action) : string :=
  match a with
  | StartScan id _ | CompleteScan id _ | MarkComplete id _ _ => id
  | PrintReport => ""
  end.

(** The status of the [i]-th study of [App.state.studies]. *)
Definition status_at (st : AppState) (i : nat) : option string :=
  study_status <$> st_studies st !! i.

(** The edges of the workflow. *)
Inductive edge : string → string → Prop :=
| edge_start : edge "Waiting" "Scanning"
| edge_scanned : edge "Scanning" "Reporting"
| edge_reported : edge "Reporting" "Reported"
| edge_completed : edge "Reporting" "Completed"
| edge_signed_off : edge "Reported" "Completed".

(** *** What the pages offer *)

(** The button [studyCard] puts on a card ([actions]). *)
Inductive Button := StartButton | CompleteButton.

Definition studyCard (study : Study) (isTech : bool) : option Button :=
  let actions := None in
  if isTech then
    let actions :=
      if bool_decide (study_status study = "Waiting") then Some StartButton
      else actions in
    if bool_decide (study_status study = "Scanning") then Some CompleteButton
    else actions
  else actions.

(** [isTech] of [technician.render]. *)
Definition isTech (st : AppState) : bool :=
  match st_user st with
  | Some u => bool_decide (session_role u ∈ ["Technician"; "Admin"; "Radiologist"])
  | None => false
  end.

(** The studies that [technician.render] lists for [selectedDate]. *)
Definition todo (st : AppState) (selectedDate : string) : list Study :=
  List.filter (λ s,
    bool_decide (study_status s ∈ ["Waiting"; "Scanning"]) &&
    match find (λ v, bool_decide (visit_id v = study_visit_id s)) (st_visits st) with
    | Some visit => Str.startsWith selectedDate (visit_check_in_time visit)
    | None => false
    end) (st_studies st).

(** The studies that [radiologist.renderListView] lists in a tab; a row
    of that list opens the editor of its study. *)
Definition displayStatuses (activeTab : string) : list string :=
  if bool_decide (activeTab = "reporting") then ["Reporting"; "Reported"]
  else ["Completed"].

Definition session_id (s : Session) : string :=
  match s with
  | StaffSession u => user_id u
  | PatientSession id _ _ => id
  end.

(** [openEditor] shows the Mark Complete button to the assigned doctor
    while the study is not Completed. *)
Definition editorOffersMarkComplete (st : AppState) (studyId : string) : bool :=
  match findStudy st studyId, st_user st with
  | Some study, Some currentUser =>
      bool_decide (study_assigned_doctor_id study = session_id currentUser)
      && negb (bool_decide (study_status study = "Completed"))
  | _, _ => false
  end.

(** An action is offered when the page rendered from [st] carries the
    control that calls it. *)
Definition offered (st : AppState) (a : Action) : Prop :=
  match a with
  | StartScan id _ =>
      ∃ date s, s ∈ todo st date ∧ study_id s = id
                ∧ studyCard s (isTech st) = Some StartButton
  | CompleteScan id _ =>
      ∃ date s, s ∈ todo st date ∧ study_id s = id
                ∧ studyCard s (isTech st) = Some CompleteButton
  | MarkComplete id _ _ =>
      ∃ tab s, s ∈ st_studies st ∧ study_status s ∈ displayStatuses tab
               ∧ study_id s = id
               ∧ editorOffersMarkComplete st id = true
  | PrintReport => True
  end.

(** A run in which every action is offered by the state it is taken in. *)
Inductive offered_run : AppState → list Action → AppState → Prop :=
| offered_nil st : offered_run st [] st
| offered_cons st a l st' :
    offered st a → offered_run (step st a) l st' → offered_run st (a :: l) st'.

End Workflow.

(** ** Row store and dispatcher ([src/gas/Code.gs]) *)

Module RowStore.

(** A cell of a sheet or a field of a parsed JSON payload. *)
Inductive value :=
| VNull
| VBool (b : bool)
| VNum (n : Z)
| VStr (s : string)
| VDate (t : Z)                 (* a Date, milliseconds since the epoch *)
| VArray (l : list string)      (* an array of strings (image links) *)
| VNative (name : string).      (* the member [name] of [Object.prototype] *)

Global Instance value_eq_dec : EqDecision value.
Proof. solve_decision. Defined.

(** A JavaScript object with string keys. *)
Abbreviation obj := (gmap string value).

(** A sheet is the rectangle of its data range: a list of rows of equal
    length, row 0 being the header row; the empty list is a sheet
    without content. *)
Abbreviation sheet := (list (list value)).

Abbreviation spreadsheet := (gmap string sheet).

Inductive response :=
| Success                                        (* { status: 'success' } *)
| Created (id : option value)                    (* { status: 'success', data: { id } } *)
| AllData (patients visits studies templates users : list obj)
| Error (message : string).                      (* { status: 'error', message } *)

(** What a request reads from its environment: [new Date()],
    [new Date().toISOString()], [Math.floor(Math.random() * 100000)]. *)
Record Runtime := mkRuntime {
  rt_now : Z;
  rt_iso : string;
  rt_random : N
}.

(** Truthiness: [!v] is [negb (truthy v)]. *)
Definition truthy (v : option value) : bool :=
  match v with
  | None | Some VNull => false
  | Some (VBool b) => b
  | Some (VNum n) => negb (bool_decide (n = 0%Z))
  | Some (VStr s) => negb (bool_decide (s = ""))
  | Some (VDate _) | Some (VArray _) | Some (VNative _) => true
  end.

Section Runtime.

(** [String(d)] for a Date and [JSON.stringify] are library functions
    of the runtime. *)
Variable dateToString : Z → string.
Variable stringify : value → string.

(** [String(v)]. *)
Definition toString (v : option value) : string :=
  match v with
  | None => "undefined"
  | Some VNull => "null"
  | Some (VBool true) => "true"
  | Some (VBool false) => "false"
  | Some (VNum n) => pretty n
  | Some (VStr s) => s
  | Some (VDate t) => dateToString t
  | Some (VArray l) => String.concat "," l
  | Some (VNative name) => Js.nativeToString name
  end.

(** The property key [h] stands for in [data[h]] and [obj[h]]. *)
Definition key (h : value) : string := toString (Some h).

Definition headersOf (sh : sheet) : list value := default [] (head sh).

(** [headers.indexOf(key)]: the first header that is the string [k]. *)
Definition indexOf (k : string) (headers : list value) : option nat :=
  fst <$> list_find (λ h, h = VStr k) headers.

(** [sheet.getRange(r + 1, c + 1).setValue(v)] inside the data range. *)
Definition setValue (sh : sheet) (r c : nat) (v : value) : sheet :=
  alter (λ row, <[c := v]> row) r sh.

(** Column A of [row] is string-equal to [id]. *)
Definition hasId (id : option value) (row : list value) : Prop :=
  toString (row !! 0%nat) = toString id.

(** The loop that looks for the row of [id]: the index, among all
    rows, of the first data row whose column A is string-equal to it. *)
Definition findRow (sh : sheet) (id : option value) : option nat :=
  (λ p, S (fst p)) <$>
    list_find (λ row : list value, toString (row !! 0%nat) = toString id) (tail sh).

(** Some data row (any row below the header row) carries [id]. *)
Definition hasRow (sh : sheet) (id : option value) : Prop :=
  ∃ j row, (1 ≤ j)%nat ∧ sh !! j = Some row ∧ hasId id row.

(** [getSheetData]: one object per data row, keyed by the headers; the
    map holds the own properties of the object.  A cell missing from a
    row would be [undefined] and is left out, as in the serialised
    answer.  The assignment [obj[h] = v] under the key [__proto__] goes
    to the accessor of [Object.prototype] and creates no own property:
    the accessor ignores a string, a number and a boolean, and makes a
    Date the prototype of the object.  The prototype is not part of the
    map, and how the runtime serialises an object whose prototype is a
    Date is left out. *)
Definition readCell (row : list value) (o : obj) (ch : nat * value) : obj :=
  if bool_decide (key ch.2 = "__proto__") then o
  else
    match row !! ch.1 with
    | Some v => <[key ch.2 := v]> o
    | None => delete (key ch.2) o
    end.

Definition rowObject (headers row : list value) : obj :=
  foldl (readCell row) ∅ (imap (λ c h, (c, h)) headers).

Definition sheetObjects (sh : sheet) : list obj :=
  match sh with
  | [] => []
  | headers :: rows => rowObject headers <$> rows
  end.

Definition getSheetData (ss : spreadsheet) (sheetName : string) : list obj :=
  match ss !! sheetName with
  | None => []
  | Some sh => sheetObjects sh
  end.

Definition getAllData (ss : spreadsheet) : response :=
  AllData (getSheetData ss "Patients") (getSheetData ss "Visits")
          (getSheetData ss "Studies") (getSheetData ss "Templates")
          (getSheetData ss "Users").

(** [if (!data.id) data.id = prefix + "-" + Math.floor(Math.random() * 100000)]. *)
Definition withId (data : obj) (prefix : string) (rnd : N) : obj :=
  if negb (truthy (data !! "id"))
  then <["id" := VStr (prefix +:+ "-" +:+ pretty rnd)]> data
  else data.

(** [if (!data.created_at) data.created_at = new Date()]. *)
Definition withCreatedAt (data : obj) (now : Z) : obj :=
  if negb (truthy (data !! "created_at"))
  then <["created_at" := VDate now]> data
  else data.

(** [data[k]] on a parsed payload: an own property, else the member of
    [Object.prototype] of that name, else [undefined]. *)
Definition getProp (data : obj) (k : string) : option value :=
  match data !! k with
  | Some v => Some v
  | None => if bool_decide (k ∈ Js.objectPrototype) then Some (VNative k) else None
  end.

(** [data[h] || '']. *)
Definition cellFor (data : obj) (h : value) : value :=
  if truthy (getProp data (key h)) then default (VStr "") (getProp data (key h))
  else VStr "".

(** [createRow] on a sheet that has a header row.  The row is kept as
    it is handed to [appendRow]; what the sheet service makes of a cell
    that is an inherited member is not in this code. *)
Definition createRowIn (sh : sheet) (data : obj) (prefix : string)
           (rt : Runtime) : response * sheet :=
  let headers := headersOf sh in
  let data1 := withId data prefix (rt_random rt) in
  let data2 := withCreatedAt data1 (rt_now rt) in
  let row := cellFor data2 <$> headers in
  (Created (data2 !! "id"), sh ++ [row]).

(** [updateRow] on the sheet itself. *)
Definition writeColumn (headers : list value) (rowIndex : nat)
           (sh : sheet) (kv : string * value) : sheet :=
  match indexOf kv.1 headers with
  | Some colIndex => setValue sh rowIndex colIndex kv.2
  | None => sh
  end.

Definition updateRowIn (sh : sheet) (id : option value) (updates : obj)
  : response * sheet :=
  match findRow sh id with
  | None => (Error "ID not found", sh)
  | Some rowIndex =>
      let headers := headersOf sh in
      (Success, foldl (writeColumn headers rowIndex) sh (map_to_list updates))
  end.

(** [deleteRow] on the sheet itself. *)
Definition deleteRowIn (sh : sheet) (id : option value) : response * sheet :=
  match findRow sh id with
  | None => (Error "ID not found", sh)
  | Some rowIndex => (Success, delete rowIndex sh)
  end.

(** The functions as the dispatcher calls them, on the sheet of that
    name.  [inl] is a thrown exception with its message: a missing sheet
    is [null], a sheet without columns has no range to read the headers
    from, a request without a body has [null] as payload. *)
Definition nullSheet (method : string) : string :=
  "TypeError: Cannot read properties of null (reading '" +:+ method +:+ "')".

Definition createRow (ss : spreadsheet) (sheetName : string) (data : option obj)
           (prefix : string) (rt : Runtime) : string + response * spreadsheet :=
  match ss !! sheetName with
  | None => inl (nullSheet "getRange")
  | Some sh =>
      if bool_decide (length (headersOf sh) = 0%nat) then
        inl "Exception: The number of columns in the range must be at least 1."
      else
        match data with
        | None => inl (nullSheet "id")
        | Some data =>
            let '(r, sh') := createRowIn sh data prefix rt in
            inr (r, <[sheetName := sh']> ss)
        end
  end.

Definition updateRow (ss : spreadsheet) (sheetName : string) (id : option value)
           (updates : obj) : string + response * spreadsheet :=
  match ss !! sheetName with
  | None => inl (nullSheet "getDataRange")
  | Some sh =>
      let '(r, sh') := updateRowIn sh id updates in
      inr (r, <[sheetName := sh']> ss)
  end.

Definition deleteRow (ss : spreadsheet) (sheetName : string) (id : option value)
  : string + response * spreadsheet :=
  match ss !! sheetName with
  | None => inl (nullSheet "getDataRange")
  | Some sh =>
      let '(r, sh') := deleteRowIn sh id in
      inr (r, <[sheetName := sh']> ss)
  end.

(** *** [setup] *)

Definition studiesHeaders : list string :=
  ["id"; "visit_id"; "modality"; "region"; "study_name"; "price"; "status";
   "technician"; "radiologist"; "assigned_doctor_id"; "report_content";
   "completed_at"; "image_links"; "created_at"].

Definition schema : list (string * list string) :=
  [ ("Patients", ["id"; "full_name"; "dob"; "age"; "gender"; "phone";
                  "diagnosis"; "complaint"; "medical_history"; "allergies";
                  "created_at"]);
    ("Visits", ["id"; "patient_id"; "status"; "check_in_time";
                "referrer_doctor"; "assigned_doctor_id"; "created_at"]);
    ("Studies", studiesHeaders);
    ("Templates", ["id"; "modality"; "region"; "title"; "content";
                   "fields_json"; "is_active"; "created_at"]);
    ("Users", ["id"; "email"; "full_name"; "role"; "pin"; "created_at"]) ].

Definition adminRow (now : Z) : list value :=
  [VStr "USR-ADMIN"; VStr "admin@center.com"; VStr "System Admin";
   VStr "Admin"; VStr "1234"; VDate now].

(** The headers of [desired] that the sheet lacks, in order. *)
Definition missingHeaders (currentHeaders : list value) (desired : list string)
  : list string :=
  List.filter (λ h, negb (bool_decide (VStr h ∈ currentHeaders))) desired.

(** Writing headers to the right of the last column widens the data
    range; the new cells of the other rows are empty. *)
Definition migrate (sh : sheet) (desired : list string) : sheet :=
  let new := missingHeaders (headersOf sh) desired in
  match sh with
  | [] => []
  | headers :: rows =>
      (headers ++ (VStr <$> new))
        :: ((λ row, row ++ replicate (length new) (VStr "")) <$> rows)
  end.

Definition setupSheet (now : Z) (ss : spreadsheet) (entry : string * list string)
  : spreadsheet :=
  let '(sheetName, desired) := entry in
  let sh := default [] (ss !! sheetName) in
  let outdated :=
    bool_decide (sheetName = "Users")
    && bool_decide (headersOf sh !! 0%nat = Some (VStr "email")) in
  let shouldInit := bool_decide (length sh = 0%nat) || outdated in
  if shouldInit then
    let init := [VStr <$> desired] in
    <[sheetName :=
        if bool_decide (sheetName = "Users") then init ++ [adminRow now]
        else init]> ss
  else <[sheetName := migrate sh desired]> ss.

Definition setup (now : Z) (ss : spreadsheet) : spreadsheet :=
  foldl (setupSheet now) ss schema.

(** *** [handleRequest] *)

Definition nullPayload (field : string) : string :=
  "TypeError: Cannot read properties of null (reading '" +:+ field +:+ "')".

(** The object literal [{ k: v }] where [v] may be [undefined]; the
    cell is then given no value, written [VNull] here. *)
Definition field (k : string) (v : option value) : obj :=
  match v with
  | Some v => {[ k := v ]}
  | None => {[ k := VNull ]}
  end.

Definition dispatch (ss : spreadsheet) (rt : Runtime) (action : string)
           (payload : option obj) : string + response * spreadsheet :=
  if bool_decide (action = "getAllData") then
    let ss' := setup (rt_now rt) ss in inr (getAllData ss', ss')
  else if bool_decide (action = "createPatient") then
    createRow ss "Patients" payload "PT" rt
  else if bool_decide (action = "createVisit") then
    createRow ss "Visits" payload "VS" rt
  else if bool_decide (action = "createStudy") then
    createRow ss "Studies" payload "ST" rt
  else if bool_decide (action = "createUser") then
    createRow ss "Users" payload "USR" rt
  else if bool_decide (action = "updateStudyStatus") then
    match payload with
    | None => inl (nullPayload "id")
    | Some p => updateRow ss "Studies" (p !! "id") (field "status" (p !! "status"))
    end
  else if bool_decide (action = "saveReport") then
    match payload with
    | None => inl (nullPayload "study_id")
    | Some p =>
        updateRow ss "Studies" (p !! "study_id")
          (field "report_content" (p !! "content_html")
             ∪ {[ "status" := VStr "Reported" ]})
    end
  else if bool_decide (action = "markComplete") then
    match payload with
    | None => inl (nullPayload "study_id")
    | Some p =>
        updateRow ss "Studies" (p !! "study_id")
          ({[ "status" := VStr "Completed" ]}
             ∪ {[ "completed_at" := VStr (rt_iso rt) ]})
    end
  else if bool_decide (action = "updateImageLinks") then
    match payload with
    | None => inl (nullPayload "study_id")
    | Some p =>
        let links :=
          if truthy (p !! "image_links")
          then default (VArray []) (p !! "image_links") else VArray [] in
        updateRow ss "Studies" (p !! "study_id")
          {[ "image_links" := VStr (stringify links) ]}
    end
  else if bool_decide (action = "saveTemplate") then
    match payload with
    | None => inl (nullPayload "id")
    | Some p =>
        if truthy (p !! "id") then updateRow ss "Templates" (p !! "id") p
        else createRow ss "Templates" payload "TPL" rt
    end
  else if bool_decide (action = "deleteTemplate") then
    match payload with
    | None => inl (nullPayload "id")
    | Some p => deleteRow ss "Templates" (p !! "id")
    end
  else inr (Error "Unknown Action", ss).

(** The [try]/[catch] around the dispatch: an exception becomes an
    error answer.  The script lock taken around it does not change what
    a single request does.  The answer is the object that is handed to
    [JSON.stringify]. *)
Definition handleRequest (ss : spreadsheet) (rt : Runtime) (action : string)
           (payload : option obj) : response * spreadsheet :=
  match dispatch ss rt action payload with
  | inr res => res
  | inl e => (Error e, ss)
  end.

(** The [studies] of an answer of [getAllData]. *)
Definition studiesOf (r : response) : list obj :=
  match r with
  | AllData _ _ studies _ _ => studies
  | _ => []
  end.

End Runtime.

End RowStore.

(** ** Sample data

    The mock data set of [src/js/api.js] and a few states and sheets built
    on it, used by the examples below. *)

Module Examples.
Import RowStore.

Definition patients : list Patient :=
  [ mkPatient "PT-101" "Ahmed Khaled" "0599123456";
    mkPatient "PT-102" "Sara Nour" "0599654321" ].

Definition visits : list Visit :=
  [ mkVisit "VS-501" "PT-101" "Dr. House" "2023-10-27T09:00:00" ""
            "In Progress" "" ].

Definition studies : list Study :=
  [ mkStudy "ST-901" "VS-501" "US" "Abdomen" "US Abdomen Complete" "USR-RAD" 0
            "Reporting" "2023-10-27T09:15:00" None;
    mkStudy "ST-902" "VS-501" "XR" "Chest" "Chest X-Ray PA" "USR-RAD" 0
            "Waiting" "2023-10-27T09:20:00" None ].

Definition staff (role : string) : User :=
  mkUser "USR-1" "staff@center.com" "Staff Member" role "1234".

(** Nobody is logged in. *)
Definition loggedOut : AppState :=
  mkApp None [] patients visits studies "reception" [] None.

(** A staff member of the given role is logged in. *)
Definition loggedIn (role : string) : AppState :=
  mkApp (Some (StaffSession (staff role))) [staff role] patients visits studies
        "reception" [] None.

(** A technician looking at a study that is already Completed. *)
Definition completedStudy : Study :=
  mkStudy "ST-900" "VS-501" "CT" "Chest" "CT Chest" "USR-RAD" 0
          "Completed" "2023-10-27T08:00:00" (Some "2023-10-27T08:45:00").

Definition afterCompletion : AppState :=
  mkApp (Some (StaffSession (staff "Technician"))) [staff "Technician"]
        patients visits [completedStudy] "technician" [] None.

(** A receptionist with two studies queued for a new visit. *)
Definition twoQueued : AppState :=
  mkApp (Some (StaffSession (staff "Reception"))) [staff "Reception"]
        patients visits studies "reception"
        [mkQueued "US" "Abdomen" "US Abdomen"; mkQueued "XR" "Chest" "Chest PA"]
        None.

Definition visitForm : Reception.VisitForm :=
  Reception.mkVisitForm "PT-101" "USR-RAD" "2023-10-28T10:00".

(** All ids are generated within one millisecond and the random source
    repeats itself. *)
Definition sameTick : Env :=
  mkEnv (λ _, 1700000000000%N) (λ _, 7%N) (λ _, "2023-11-14T22:13:20.000Z").

(** The clock advances between two ids. *)
Definition ticking : Env :=
  mkEnv (λ k, (1700000000000 + N.of_nat k)%N) (λ _, 7%N)
        (λ _, "2023-11-14T22:13:20.000Z").

Definition runtime : Runtime := mkRuntime 1700000000000 "2023-11-14T22:13:20.000Z" 4711.

Definition showDate (t : Z) : string := "Date(" +:+ pretty t +:+ ")".

(** The case tables of the runtime are consulted for strings outside
    ASCII only, which the examples do not contain. *)
Definition caseTables (s : string) : string := Str.asciiUpper s.


Definition showJson (v : value) : string := "[]".

(** A Studies sheet with the first columns of the schema. *)
Definition studiesSheet : sheet :=
  [ [VStr "id"; VStr "visit_id"; VStr "status"];
    [VStr "ST-901"; VStr "VS-501"; VStr "Reporting"];
    [VStr "ST-902"; VStr "VS-501"; VStr "Waiting"] ].

Definition book : spreadsheet := {[ "Studies" := studiesSheet ]}.

(** A Studies sheet in which two columns are headed status. *)
Definition twoStatusColumns : sheet :=
  [ [VStr "id"; VStr "status"; VStr "status"];
    [VStr "ST-1"; VStr "Waiting"; VStr "Waiting"] ].

Definition twoStatusBook : spreadsheet := {[ "Studies" := twoStatusColumns ]}.

(** A Studies sheet whose only study is Completed, and the request that
    [printReport] sends for it. *)
Definition completedSheet : sheet :=
  [ [VStr "id"; VStr "status"; VStr "report_content"];
    [VStr "ST-900"; VStr "Completed"; VStr "<p>Normal study.</p>"] ].

Definition completedBook : spreadsheet := {[ "Studies" := completedSheet ]}.

Definition savedReport : obj :=
  <["study_id" := VStr "ST-900"]> {[ "content_html" := VStr "<p>Normal study.</p>" ]}.

Definition scanning (id : string) : obj :=
  <["id" := VStr id]> {[ "status" := VStr "Scanning" ]}.

(** The answer to updateStudyStatus(id, "Scanning") and the statuses
    that a following getAllData reports, study by study. *)
Definition scanThenRead (ss : spreadsheet) (id : string)
  : response * list (option value) :=
  let r1 := handleRequest showDate showJson ss runtime "updateStudyStatus"
                          (Some (scanning id)) in
  let r2 := handleRequest showDate showJson (snd r1) runtime "getAllData" None in
  (fst r1, (λ o : obj, o !! "status") <$> studiesOf (fst r2)).

End Examples.

(** ** Further controllers of [src/js/app.js] *)

Definition set_patients (st : AppState) (ps : list Patient) : AppState :=
  mkApp (st_user st) (st_users st) ps (st_visits st) (st_studies st)
        (st_currentView st) (st_tempQueue st) (st_currentStudy st).

Definition set_users (st : AppState) (us : list User) : AppState :=
  mkApp (st_user st) us (st_patients st) (st_visits st) (st_studies st)
        (st_currentView st) (st_tempQueue st) (st_currentStudy st).

(** [App.router.init]: the landing page of a session that is already
    in [App.state]. *)
Module RouterInit.

Definition init (st : AppState) : AppState * list Effect :=
  match st_user st with
  | None => (st, [])
  | Some user => Router.navigateTo st (Rbac.getDefaultPage (session_role user))
  end.

End RouterInit.

(** The queue of the new-visit dialog
    ([reception.addStudyToQueue], [renderStudyQueue], [removeStudy]). *)
Module Queue.

(** [modality], [region] and [name] are the values of the three inputs. *)
Definition addStudyToQueue (st : AppState) (modality region name : string)
  : AppState * list Effect :=
  if bool_decide (region = "") || bool_decide (name = "") then
    (st, [Alert "Please enter region and study name"])
  else
    (set_tempQueue st (st_tempQueue st ++ [mkQueued modality region name]),
     [ClearInputs]).

(** A line of the preview: what it shows and the index its remove
    button passes to [removeStudy]. *)
Record QueueLine := mkLine {
  line_modality : string;
  line_study_name : string;
  line_remove : nat
}.

Definition renderStudyQueue (st : AppState) : list QueueLine :=
  imap (λ i s, mkLine (q_modality s) (q_study_name s) i) (st_tempQueue st).

(** [tempQueue.splice(index, 1)]. *)
Definition removeStudy (st : AppState) (index : nat) : AppState :=
  set_tempQueue st (delete index (st_tempQueue st)).

End Queue.

(** Patients: [reception.savePatient], [helpers.getPatient] and
    [helpers.getPatientName]. *)
Module Patients.

(** The inputs of the new-patient dialog that the modelled code reads;
    the other inputs are copied into fields of the new record that
    [Patient] does not carry. *)
Record PatientForm := mkPatientForm {
  pat_name : string;
  pat_dob : string;
  pat_phone : string
}.

Definition newPatient (env : Env) (form : PatientForm) : Patient :=
  {| patient_id := Helpers.generateIdAt env "PT" 0;
     patient_full_name := pat_name form;
     patient_phone := pat_phone form |}.

(** The state and the effects at the point where [savePatient] returns
    to the event loop. *)
Definition savePatient (env : Env) (st : AppState) (form : PatientForm)
  : AppState * list Effect :=
  if negb (Rbac.hasPermission st "createPatient") then
    (st, [Alert "Access Denied: You don't have permission to create patients."])
  else if bool_decide (pat_name form = "") || bool_decide (pat_dob form = "") then
    (st, [Alert "Fill required fields"])
  else
    let new := newPatient env form in
    (set_patients st (st_patients st ++ [new]),
     [CloseModal; Request "createPatient" (patient_id new)]).

(** [id] is a patient id when it starts with "PT", else a visit id. *)
Definition getPatient (st : AppState) (id : string) : option Patient :=
  if bool_decide (id = "") then None
  else if Str.startsWith "PT" id then
    find (λ p, bool_decide (patient_id p = id)) (st_patients st)
  else
    match find (λ v, bool_decide (visit_id v = id)) (st_visits st) with
    | None => None
    | Some visit =>
        find (λ p, bool_decide (patient_id p = visit_patient_id visit))
             (st_patients st)
    end.

Definition getPatientName (st : AppState) (id : string) : string :=
  match getPatient st id with
  | Some p => patient_full_name p
  | None => "Unknown"
  end.

End Patients.

(** [admin.createUser]: the state and the effects at the point where it
    returns to the event loop. *)
Module Admin.

Record UserForm := mkUserForm {
  new_user_name : string;
  new_user_email : string;
  new_user_role : string;
  new_user_pin : string
}.

Definition newUser (env : Env) (form : UserForm) : User :=
  {| user_id := Helpers.generateIdAt env "USR" 0;
     user_email := new_user_email form;
     user_full_name := new_user_name form;
     user_role := new_user_role form;
     user_pin := new_user_pin form |}.

Definition createUser (env : Env) (st : AppState) (form : UserForm)
  : AppState * list Effect :=
  if bool_decide (new_user_name form = "")
     || bool_decide (new_user_email form = "")
     || bool_decide (new_user_pin form = "")
     || bool_decide (Str.length (new_user_pin form) < 4)%nat
  then (st, [Alert "Please fill all fields (PIN must be 4 digits)"])
  else
    let new := newUser env form in
    (set_users st (st_users st ++ [new]),
     [Render "admin"; Request "createUser" (user_id new)]).

End Admin.

(** The list of [radiologist.renderListView]. *)
Module Worklist.




End Worklist.

(** [patientPortal.render]: its guard and the button of a study. *)
Module Portal.


(** [s.report_content && s.status === 'Ready' || s.status === 'Reported']:
    the study gets the View Report button.  [report_content] is the
    field of the study as loaded, [None] when it has none. *)
Definition viewReportOffered (report_content : option string) (status : string)
  : bool :=
  (match report_content with
   | Some c => negb (bool_decide (c = ""))
   | None => false
   end && bool_decide (status = "Ready"))
  || bool_decide (status = "Reported").

End Portal.

(** ** More sample data *)

Module MoreExamples.
Import RowStore Examples.

(** The login page with one staff member of the given role on record. *)
Definition atLogin (role : string) : AppState :=
  mkApp None [staff role] patients visits studies "reception" [] None.

(** An administrator looking at a study whose report is saved. *)
Definition reportedStudy : Study :=
  mkStudy "ST-903" "VS-501" "MR" "Knee" "MRI Knee" "USR-RAD" 0
          "Reported" "2023-10-27T09:30:00" None.

Definition withReported : AppState :=
  mkApp (Some (StaffSession (staff "Admin"))) [staff "Admin"] patients visits
        (reportedStudy :: studies) "radiologist" [] None.

Definition linaForm : Patients.PatientForm :=
  Patients.mkPatientForm "Lina Omar" "1990-01-01" "0599000111".

(** A second patient with the phone number of PT-101. *)
Definition samePhoneForm : Patients.PatientForm :=
  Patients.mkPatientForm "Ahmad Zaid" "2000-01-01" "0599123456".

Definition techForm : Admin.UserForm :=
  Admin.mkUserForm "New Tech" "tech@center.com" "Technician" "4321".

(** A Studies sheet with the columns that the report requests write. *)
Definition reportingSheet : sheet :=
  [ [VStr "id"; VStr "status"; VStr "report_content"; VStr "completed_at"];
    [VStr "ST-901"; VStr "Reporting"; VStr ""; VStr ""] ].

Definition reportingBook : spreadsheet := {[ "Studies" := reportingSheet ]}.

Definition reportOf (id content : string) : obj :=
  <["study_id" := VStr id]> {[ "content_html" := VStr content ]}.

Definition caseOf (id : string) : obj := {[ "study_id" := VStr id ]}.

End MoreExamples.

(** * Properties *)

(** ** Role table and router *)

Arguments Rbac.permissions : simpl never.
Arguments Rbac.actionPermissions : simpl never.
Arguments Rbac.canAccess : simpl never.
Arguments Rbac.getDefaultPage : simpl never.

Section RbacFacts.
Import Rbac Router.

Lemma permissions_lookup role :
  permissions !! role =
    if decide (role = "Reception") then Some ["reception"]
    else if decide (role = "Technician") then Some ["technician"]
    else if decide (role = "Radiologist")
         then Some ["reception"; "technician"; "radiologist"]
    else if decide (role = "Admin")
         then Some ["reception"; "technician"; "radiologist"; "admin"]
    else if decide (role = "Patient") then Some ["patient-portal"]
    else None.
Proof.
  unfold permissions. cbn [list_to_map foldr fst snd uncurry].
  repeat (rewrite lookup_insert; case_decide; [subst; try done|]).
  repeat (case_decide; [congruence|]).
  apply lookup_empty.
Qed.

(** Every array of the table has a first page, and holds pages of the
    [switch] only. *)
Lemma permissions_pages role pages :
  permissions !! role = Some pages →
  (∃ d, head pages = Some d)
  ∧ ∀ p, p ∈ pages →
         p ∈ ["reception"; "technician"; "radiologist"; "admin"; "patient-portal"].
Proof.
  rewrite (permissions_lookup role).
  repeat (destruct (decide (role = _)) as [->|?];
          [intros [= <-]; (split; [by eexists|]); intros p;
           rewrite !elem_of_cons, !elem_of_nil; tauto|]).
  done.
Qed.

(** No role of the table is named like an inherited member. *)
Lemma table_not_inherited role pages :
  permissions !! role = Some pages → role ∉ Js.objectPrototype.
Proof.
  rewrite (permissions_lookup role).
  repeat (destruct (decide (role = _)) as [->|?];
          [intros _; by apply (bool_decide_unpack _)|]).
  done.
Qed.

(** The three cases of [permissions[role] || fallback]. *)
Lemma pagesOr_table fallback role pages :
  permissions !! role = Some pages → pagesOr fallback role = Some pages.
Proof. intros H. unfold pagesOr. by rewrite H. Qed.

Lemma pagesOr_unknown fallback role :
  permissions !! role = None → role ∉ Js.objectPrototype →
  pagesOr fallback role = Some fallback.
Proof.
  intros H Hno. unfold pagesOr. by rewrite H, bool_decide_eq_false_2.
Qed.

Lemma pagesOr_inherited fallback role :
  role ∈ Js.objectPrototype → pagesOr fallback role = None.
Proof.
  intros Hin. unfold pagesOr.
  destruct (permissions !! role) as [pages|] eqn:H.
  - by destruct (table_not_inherited role pages H).
  - by rewrite bool_decide_eq_true_2.
Qed.

Lemma pagesOr_None fallback role :
  pagesOr fallback role = None ↔ role ∈ Js.objectPrototype.
Proof.
  split; [|apply pagesOr_inherited].
  unfold pagesOr. destruct (permissions !! role); [done|].
  case_bool_decide; done.
Qed.

(** The call of [includes] throws exactly for the roles named like an
    inherited member, and [getDefaultPage] has no page exactly for them. *)
Lemma canAccess_None role page :
  canAccess role page = None ↔ role ∈ Js.objectPrototype.
Proof.
  unfold canAccess. rewrite fmap_None. apply pagesOr_None.
Qed.

Lemma getDefaultPage_None role :
  getDefaultPage role = None ↔ role ∈ Js.objectPrototype.
Proof.
  split.
  - unfold getDefaultPage, pagesOr.
    destruct (permissions !! role) as [pages|] eqn:H.
    + destruct (permissions_pages role pages H) as [[d Hd] _].
      cbn. by rewrite Hd.
    + case_bool_decide; done.
  - intros Hin. unfold getDefaultPage. by rewrite pagesOr_inherited.
Qed.

Lemma unknown_role_default role :
  permissions !! role = None → role ∉ Js.objectPrototype →
  getDefaultPage role = Some "reception".
Proof.
  intros H Hno. unfold getDefaultPage. by rewrite pagesOr_unknown.
Qed.

Lemma unknown_role_denied role page :
  permissions !! role = None → role ∉ Js.objectPrototype →
  canAccess role page = Some false.
Proof.
  intros H Hno. unfold canAccess. rewrite pagesOr_unknown by done.
  by destruct page.
Qed.

(** The five roles are exactly the keys of the table. *)
Lemma role_name_table role :
  is_Some (permissions !! role) ↔ ∃ r, role = role_name r.
Proof.
  split.
  - rewrite (permissions_lookup role).
    repeat (destruct (decide (role = _)) as [->|?]).
    + by exists Reception.
    + by exists Technician.
    + by exists Radiologist.
    + by exists Admin.
    + by exists PatientRole.
    + by intros [? [=]].
  - intros [r ->]. destruct r; vm_compute; by eexists.
Qed.

(** A role of the table may open its default page. *)
Lemma known_role_default role pages :
  permissions !! role = Some pages →
  ∃ d, getDefaultPage role = Some d ∧ head pages = Some d
       ∧ canAccess role (Some d) = Some true.
Proof.
  intros H. destruct (permissions_pages role pages H) as [[d Hd] _].
  exists d. unfold getDefaultPage, canAccess.
  rewrite !(pagesOr_table _ _ _ H). cbn. rewrite Hd. split_and!; [done..|].
  f_equal. apply bool_decide_eq_true. destruct pages; [done|].
  injection Hd as ->. apply list_elem_of_here.
Qed.

(** Whoever is denied a page has a default page. *)
Lemma denied_has_default role page :
  canAccess role page = Some false → ∃ d, getDefaultPage role = Some d.
Proof.
  intros Hacc. destruct (getDefaultPage role) as [d|] eqn:Hd; [by eexists|].
  apply getDefaultPage_None in Hd. apply (canAccess_None role page) in Hd.
  congruence.
Qed.

(** Only a page of the [switch] is ever permitted. *)
Lemma canAccess_render role page :
  canAccess role page = Some true →
  ∃ p, page = Some p ∧ render_page p = [Render p].
Proof.
  unfold canAccess, pagesOr.
  destruct (permissions !! role) as [pages|] eqn:H.
  - destruct page as [p|]; [|done]. cbn. intros [= Hin%bool_decide_eq_true].
    exists p. split; [done|]. unfold render_page.
    rewrite bool_decide_eq_true_2; [done|].
    by apply (permissions_pages role pages H).
  - case_bool_decide; [done|]. by destruct page.
Qed.

(** One unfolding of the body of [navigate]. *)
Lemma navigateTo_no_session st page :
  st_user st = None → navigateTo st page = (st, [ShowLogin]).
Proof. intros H. unfold navigateTo. cbn [navigate_fuel]. by rewrite H. Qed.

Lemma navigate_no_session st page :
  st_user st = None → navigate st page = (st, [ShowLogin]).
Proof. apply navigateTo_no_session. Qed.

Lemma navigateTo_throws st user page :
  st_user st = Some user →
  canAccess (session_role user) page = None →
  navigateTo st page = (st, [Throw (Js.not_a_function "allowed.includes")]).
Proof.
  intros Hu Hacc. unfold navigateTo. cbn [navigate_fuel]. by rewrite Hu, Hacc.
Qed.

Lemma navigate_throws st user page :
  st_user st = Some user →
  canAccess (session_role user) (Some page) = None →
  navigate st page = (st, [Throw (Js.not_a_function "allowed.includes")]).
Proof. apply navigateTo_throws. Qed.

Lemma navigate_allowed st user page :
  st_user st = Some user →
  canAccess (session_role user) (Some page) = Some true →
  navigate st page =
    (set_currentView st page,
     [Render page; NavHidden (bool_decide (session_role user = "Patient"))]).
Proof.
  intros Hu Hacc. unfold navigate, navigateTo. cbn [navigate_fuel].
  rewrite Hu, Hacc. cbn [default].
  destruct (canAccess_render _ _ Hacc) as (p & [= <-] & ->). done.
Qed.

Lemma navigate_denied_default st user page :
  st_user st = Some user →
  canAccess (session_role user) (Some page) = Some false →
  getDefaultPage (session_role user) = Some page →
  navigate st page = (st, [Warn (access_denied (session_role user) page)]).
Proof.
  intros Hu Hacc Hd. unfold navigate, navigateTo. cbn [navigate_fuel].
  rewrite Hu, Hacc, Hd.
  rewrite bool_decide_eq_false_2; [done|]. by intros [].
Qed.

Lemma navigate_denied_redirect st user page d :
  st_user st = Some user →
  canAccess (session_role user) (Some page) = Some false →
  getDefaultPage (session_role user) = Some d →
  page ≠ d →
  navigate st page =
    (fst (navigate st d),
     Warn (access_denied (session_role user) page) :: snd (navigate st d)).
Proof.
  intros Hu Hacc Hd Hne. unfold navigate, navigateTo. cbn [navigate_fuel].
  rewrite Hu, Hacc, Hd.
  rewrite bool_decide_eq_true_2 by congruence.
  destruct (canAccess (session_role user) (Some d)) as [[|]|]; [done| |done].
  by rewrite bool_decide_eq_false_2 by (by intros []).
Qed.

(** A denied page that is not the default page of a role whose default
    page is denied as well: two warnings and nothing else. *)
Lemma navigate_denied_twice st user page d :
  st_user st = Some user →
  canAccess (session_role user) (Some page) = Some false →
  getDefaultPage (session_role user) = Some d →
  page ≠ d →
  canAccess (session_role user) (Some d) = Some false →
  navigate st page =
    (st, [Warn (access_denied (session_role user) page);
          Warn (access_denied (session_role user) d)]).
Proof.
  intros Hu Hacc Hd Hne Hacc'.
  rewrite (navigate_denied_redirect _ _ _ _ Hu Hacc Hd Hne).
  by rewrite (navigate_denied_default _ _ _ Hu Hacc' Hd).
Qed.

(** The outcomes of [navigate], case by case. *)
Lemma navigate_cases st page :
  (st_user st = None ∧ navigate st page = (st, [ShowLogin]))
  ∨ ∃ user, st_user st = Some user ∧
      let role := session_role user in
      (canAccess role (Some page) = None
       ∧ navigate st page = (st, [Throw (Js.not_a_function "allowed.includes")]))
      ∨ (canAccess role (Some page) = Some true
         ∧ navigate st page
             = (set_currentView st page,
                [Render page; NavHidden (bool_decide (role = "Patient"))]))
      ∨ (canAccess role (Some page) = Some false ∧
         ∃ d, getDefaultPage role = Some d ∧
           ((page = d ∧ navigate st page = (st, [Warn (access_denied role page)]))
            ∨ (page ≠ d ∧ canAccess role (Some d) = Some true
               ∧ navigate st page
                   = (set_currentView st d,
                      [Warn (access_denied role page); Render d;
                       NavHidden (bool_decide (role = "Patient"))]))
            ∨ (page ≠ d ∧ canAccess role (Some d) = Some false
               ∧ navigate st page
                   = (st, [Warn (access_denied role page);
                           Warn (access_denied role d)])))).
Proof.
  destruct (st_user st) as [user|] eqn:Hu;
    [right; exists user; split; [done|]|left; by rewrite navigate_no_session].
  cbv zeta.
  destruct (canAccess (session_role user) (Some page)) as [[|]|] eqn:Hacc.
  - right. left. split; [done|]. by apply navigate_allowed.
  - right. right. split; [done|].
    destruct (denied_has_default _ _ Hacc) as [d Hd]. exists d. split; [done|].
    destruct (decide (page = d)) as [->|Hne].
    + left. split; [done|]. by apply navigate_denied_default.
    + right.
      destruct (canAccess (session_role user) (Some d)) as [[|]|] eqn:Hacc'.
      * left. split_and!; [done..|].
        rewrite (navigate_denied_redirect _ _ _ _ Hu Hacc Hd Hne).
        by rewrite (navigate_allowed _ _ _ Hu Hacc').
      * right. split_and!; [done..|]. by apply navigate_denied_twice.
      * apply canAccess_None in Hacc'.
        apply (canAccess_None _ (Some page)) in Hacc'. congruence.
  - left. split; [done|]. by apply (navigate_throws _ user).
Qed.

(** [navigate] sends no request. *)
Lemma navigate_no_request st page action id :
  Request action id ∉ snd (navigate st page).
Proof.
  destruct (navigate_cases st page)
    as [[_ ->]|(user & _ & [[_ ->]|[[_ ->]|(_ & d & _ & [[_ ->]|[(_ & _ & ->)|(_ & _ & ->)]])]])];
    cbn [snd]; rewrite ?elem_of_cons, elem_of_nil; intros H;
    repeat (destruct H as [H|H]; [done|]); done.
Qed.

(** [navigate] writes nothing but [currentView]. *)
Lemma navigate_frame st page :
  ∃ view, fst (navigate st page) = set_currentView st view.
Proof.
  assert (Hid : st = set_currentView st (st_currentView st)) by by destruct st.
  destruct (navigate_cases st page)
    as [[_ ->]|(user & _ & [[_ ->]|[[_ ->]|(_ & d & _ & [[_ ->]|[(_ & _ & ->)|(_ & _ & ->)]])]])];
    cbn [fst]; by eexists.
Qed.

End RbacFacts.

(** C2.  Every role of the permission table may open its own default
    page, and that page is one of the pages the table allows the role. *)
Theorem default_page_is_allowed (r : Rbac.Role) :
  Rbac.canAccess (Rbac.role_name r) (Rbac.getDefaultPage (Rbac.role_name r))
    = Some true
  ∧ ∃ d pages, Rbac.getDefaultPage (Rbac.role_name r) = Some d
               ∧ Rbac.getAllowedPages (Rbac.role_name r) = Some pages
               ∧ d ∈ pages.
Proof.
  destruct r; (split; [by vm_compute|]); eexists _, _;
    (split; [by vm_compute|]); (split; [by vm_compute|]);
    apply list_elem_of_here.
Qed.



(** ** Patient login *)

Section AuthFacts.
Import Rbac Router Auth.
Context (unicodeUpper : string → string) (navButtons : bool).

Local Abbreviation toUpperCase := (Str.toUpperCase unicodeUpper).
Local Abbreviation expectedPass := (Auth.expectedPass unicodeUpper).
Local Abbreviation enter := (Auth.enter navButtons).
Local Abbreviation login := (Auth.login unicodeUpper navButtons).
Local Abbreviation patientLogin := (Auth.patientLogin unicodeUpper navButtons).

Lemma append_empty_r (s t : string) : s +:+ t = "" → t = "".
Proof. destruct s; [done|discriminate]. Qed.

(** The display is updated without an exception for every role whose
    allowed pages are an array. *)
Lemma updateUserDisplay_array st user pages :
  st_user st = Some user →
  getAllowedPages (session_role user) = Some pages →
  Ui.updateUserDisplay navButtons st = [UpdateUserDisplay].
Proof.
  intros Hu Hp. unfold Ui.updateUserDisplay, Ui.renderNavigation.
  by rewrite Hu, Hp.
Qed.

Lemma enter_array st user pages target :
  st_user st = Some user →
  getAllowedPages (session_role user) = Some pages →
  enter st user target
    = (fst (navigate st target),
       [StoreSession user; UpdateUserDisplay; ClearInputs]
         ++ snd (navigate st target)).
Proof.
  intros Hu Hp. unfold Auth.enter.
  rewrite (updateUserDisplay_array st user pages Hu Hp). cbn [thrown existsb].
  by destruct (navigate st target).
Qed.

(** Whatever the display does, [enter] keeps the session and writes
    nothing but [currentView]. *)
Lemma enter_frame st user target :
  StoreSession user ∈ snd (enter st user target)
  ∧ ∃ view, fst (enter st user target) = set_currentView st view.
Proof.
  unfold Auth.enter. destruct (thrown _).
  - split; [apply list_elem_of_here|]. exists (st_currentView st). by destruct st.
  - destruct (navigate_frame st target) as [view Hview].
    destruct (navigate st target) as [st2 es]. cbn [fst snd] in *.
    split; [apply list_elem_of_here|]. by exists view.
Qed.

Lemma patientLogin_eq st phoneIn passIn :
  patientLogin st phoneIn passIn =
    let phone := Str.trim phoneIn in
    let pass := Str.trim passIn in
    if bool_decide (phone = "") || bool_decide (pass = "") then
      (st, [Alert "Enter Phone and Passcode"])
    else
      match find (λ p, bool_decide (patient_phone p = phone)) (st_patients st) with
      | None => (st, [Alert "Patient not found with this phone number."])
      | Some patient =>
          if bool_decide (toUpperCase pass = expectedPass patient phone) then
            (set_currentView (set_user st (Some (sessionOf patient))) "patient-portal",
             [StoreSession (sessionOf patient); UpdateUserDisplay; ClearInputs;
              Render "patient-portal"; NavHidden true])
          else (st, [Alert invalid_passcode])
      end.
Proof.
  unfold Auth.patientLogin, Auth.login. simpl.
  destruct (_ || _); [done|].
  destruct (find _ _) as [patient|]; [|done].
  case_bool_decide; [|done].
  rewrite (enter_array _ (sessionOf patient) ["patient-portal"]) by done.
  by rewrite (navigate_allowed _ (sessionOf patient) "patient-portal").
Qed.

(** C4, amended.  For the patient that the phone lookup finds, the login
    creates the session exactly when the entered passcode, trimmed and
    upper-cased, is the upper-cased first three letters of the full name
    followed by the phone number.  Otherwise the state is untouched and
    one alert is shown: the request to enter both fields for a blank
    passcode, the Invalid Passcode message for any other.  With phone
    "0599123456" and a name starting with "Ahm" the expected passcode is
    "AHM0599123456", and both "AHM0599123456" and "ahm0599123456" open
    the session. *)
Theorem patient_login_iff (st : AppState) (p : Patient) (phoneIn passIn : string) :
  let phone := Str.trim phoneIn in
  let pass := Str.trim passIn in
  let r := patientLogin st phoneIn passIn in
  phone ≠ "" →
  find (λ q, bool_decide (patient_phone q = phone)) (st_patients st) = Some p →
  (st_user (fst r) = Some (sessionOf p) ∧ StoreSession (sessionOf p) ∈ snd r
     ↔ toUpperCase pass = expectedPass p phone)
  ∧ (toUpperCase pass ≠ expectedPass p phone →
       r = (st, [Alert (if bool_decide (pass = "")
                        then "Enter Phone and Passcode"
                        else invalid_passcode)]))
  ∧ (phone = "0599123456" → Str.substring0 3 (patient_full_name p) = "Ahm" →
       expectedPass p phone = "AHM0599123456"
       ∧ (pass = "AHM0599123456" ∨ pass = "ahm0599123456" →
          st_user (fst r) = Some (sessionOf p))).
Proof.
  intros phone pass r Hphone Hfind.
  assert (Hr : r = patientLogin st phoneIn passIn) by done.
  rewrite patientLogin_eq in Hr. fold phone pass in Hr. cbv zeta in Hr.
  rewrite (bool_decide_eq_false_2 _ Hphone), Hfind in Hr. cbn [orb] in Hr.
  assert (Hexp : expectedPass p phone ≠ "").
  { unfold Auth.expectedPass. by intros ?%append_empty_r. }
  assert (Hiff : st_user (fst r) = Some (sessionOf p)
                 ∧ StoreSession (sessionOf p) ∈ snd r
                 ↔ toUpperCase pass = expectedPass p phone).
  { clearbody r. case_bool_decide as Hpass.
    - subst r. cbn [fst snd]. split.
      + rewrite list_elem_of_singleton. by intros [_ [=]].
      + intros Heq. rewrite Hpass in Heq. by rewrite <- Heq in Hexp.
    - case_bool_decide as Hcode; subst r; cbn [fst snd]; split; try done.
      + intros _. split; [done|]. apply list_elem_of_here.
      + rewrite list_elem_of_singleton. by intros [_ [=]]. }
  split; [done|]. split.
  - clearbody r. intros Hne. case_bool_decide; [done|].
    by rewrite (bool_decide_eq_false_2 _ Hne) in Hr.
  - intros Hp Hname.
    assert (Hcode : expectedPass p phone = "AHM0599123456").
    { unfold Auth.expectedPass. by rewrite Hp, Hname. }
    split; [done|]. intros Hpass. apply Hiff. rewrite Hcode.
    by destruct Hpass as [-> | ->].
Qed.

End AuthFacts.

(** ** Visit creation *)

Section IdFacts.
Import Helpers Str.

Lemma pretty_N_go_no_dash (x : N) (s : string) :
  has_dash s = false → has_dash (pretty_N_go x s) = false.
Proof.
  revert s. induction (N.lt_wf_0 x) as [x _ IH]; intros s Hs.
  assert (x = 0 ∨ 0 < x)%N as [->|Hpos] by lia.
  - by rewrite pretty_N_go_0.
  - rewrite pretty_N_go_step by done. apply IH.
    + by apply N.div_lt.
    + simpl. rewrite Hs, orb_false_r. apply bool_decide_eq_false.
      unfold pretty_N_char. by repeat case_match.
Qed.

(** A decimal numeral has no dash in it. *)
Lemma pretty_N_no_dash (x : N) : has_dash (pretty x) = false.
Proof.
  unfold pretty, pretty_N. case_decide; [done|].
  by apply pretty_N_go_no_dash.
Qed.

(** The first dash separates two fields unambiguously. *)
Lemma dash_split (a a' b b' : string) :
  has_dash a = false → has_dash a' = false →
  a +:+ "-" +:+ b = a' +:+ "-" +:+ b' → a = a' ∧ b = b'.
Proof.
  revert a'. induction a as [|c a IH]; intros [|c' a']; simpl.
  - intros _ _ Heq. by simplify_eq.
  - intros _ [Hc _]%orb_false_elim Heq. apply bool_decide_eq_false in Hc.
    by simplify_eq.
  - intros [Hc _]%orb_false_elim _ Heq. apply bool_decide_eq_false in Hc.
    by simplify_eq.
  - intros [_ Ha]%orb_false_elim [_ Ha']%orb_false_elim Heq.
    injection Heq as -> Heq.
    destruct (IH a' Ha Ha' Heq) as [-> ->]. done.
Qed.

(** Two generated ids with one prefix are equal only if both the
    timestamp and the random number are. *)
Lemma generateId_inj prefix now rnd now' rnd' :
  generateId prefix now rnd = generateId prefix now' rnd' →
  now = now' ∧ rnd = rnd'.
Proof.
  unfold generateId. intros Heq%(inj (String.append prefix)).
  injection Heq as Heq.
  apply dash_split in Heq as [Hnow Hrnd]; [|apply pretty_N_no_dash..].
  split; by apply (inj pretty).
Qed.

End IdFacts.

Section ReceptionFacts.
Import Reception Helpers.

Lemma createVisit_roles st user :
  st_user st = Some user → Rbac.hasPermission st "createVisit" = true →
  session_role user = "Reception" ∨ session_role user = "Admin".
Proof.
  unfold Rbac.hasPermission. intros -> Hperm%bool_decide_eq_true.
  replace (Rbac.actionPermissions !! "createVisit")
    with (Some ["Reception"; "Admin"]) in Hperm by (by vm_compute).
  simpl in Hperm. rewrite !elem_of_cons, elem_of_nil in Hperm. tauto.
Qed.

Lemma newStudies_lookup env visitId doctor (queue : list QueuedStudy) i s :
  imap (newStudy env visitId doctor) queue !! i = Some s →
  ∃ q, queue !! i = Some q ∧ s = newStudy env visitId doctor i q.
Proof.
  rewrite list_lookup_imap. destruct (queue !! i) as [q|]; [|done].
  intros [= <-]. by exists q.
Qed.

(** The ids of the new studies do not repeat when the readings of the
    clock and of the random source do not. *)
Lemma newStudies_NoDup env visitId doctor (queue : list QueuedStudy) :
  (∀ i j, (i < j < length queue)%nat →
     (env_now env (S i), env_random env (S i))
       ≠ (env_now env (S j), env_random env (S j))) →
  NoDup (study_id <$> imap (newStudy env visitId doctor) queue).
Proof.
  intros Hfresh. apply NoDup_alt. intros i j id.
  rewrite !list_lookup_fmap, !list_lookup_imap.
  destruct (queue !! i) as [qi|] eqn:Hi; [|done].
  destruct (queue !! j) as [qj|] eqn:Hj; [|done].
  intros H1 H2.
  change (Some (generateIdAt env "ST" (S i)) = Some id) in H1.
  change (Some (generateIdAt env "ST" (S j)) = Some id) in H2.
  assert (Heq : generateIdAt env "ST" (S i) = generateIdAt env "ST" (S j))
    by congruence.
  apply lookup_lt_Some in Hi, Hj.
  unfold generateIdAt in Heq. apply generateId_inj in Heq as [Hnow Hrnd].
  destruct (decide (i = j)) as [|Hne]; [done|]. exfalso.
  assert (i < j ∨ j < i)%nat as [?|?] by lia.
  - apply (Hfresh i j); [lia|]. by rewrite Hnow, Hrnd.
  - apply (Hfresh j i); [lia|]. by rewrite Hnow, Hrnd.
Qed.

End ReceptionFacts.

(** C5, amended.  When a user with the createVisit permission saves a
    visit with a patient, a doctor and [N > 0] queued studies, then at the
    point where only the visit request has been sent: the visits grew by
    exactly one visit for that patient and doctor, the studies grew by
    exactly [N] studies, each Waiting, attached to the new visit and
    carrying the id generated for it, and these ids are pairwise distinct
    whenever the clock and random readings behind them are. *)
Theorem saveVisit_optimistic (env : Env) (st : AppState) (form : Reception.VisitForm) :
  let r := Reception.saveVisit env st form in
  let vid := Helpers.generateIdAt env "VS" 0 in
  Rbac.hasPermission st "createVisit" = true →
  Reception.visit_patient_select form ≠ "" →
  Reception.visit_assigned_doctor form ≠ "" →
  st_tempQueue st ≠ [] →
  ∃ visit news,
    st_visits (fst r) = st_visits st ++ [visit]
    ∧ visit_id visit = vid
    ∧ visit_patient_id visit = Reception.visit_patient_select form
    ∧ visit_assigned_doctor_id visit = Reception.visit_assigned_doctor form
    ∧ st_studies (fst r) = st_studies st ++ news
    ∧ length news = length (st_tempQueue st)
    ∧ (∀ i s, news !! i = Some s →
         study_status s = "Waiting" ∧ study_visit_id s = vid
         ∧ study_id s = Helpers.generateIdAt env "ST" (S i))
    ∧ ((∀ i j, (i < j < length (st_tempQueue st))%nat →
          (env_now env (S i), env_random env (S i))
            ≠ (env_now env (S j), env_random env (S j))) →
       NoDup (study_id <$> news))
    ∧ Request "createVisit" vid ∈ snd r
    ∧ (∀ id, Request "createStudy" id ∉ snd r).
Proof.
  intros r vid Hperm Hpatient Hdoctor Hqueue. subst r.
  unfold Reception.saveVisit. rewrite Hperm. simpl.
  rewrite (bool_decide_eq_false_2 _ Hpatient), (bool_decide_eq_false_2 _ Hdoctor).
  rewrite bool_decide_eq_false_2 by (by destruct (st_tempQueue st)).
  set (visit := mkVisit _ _ _ _ _ _ _).
  set (news := imap _ (st_tempQueue st)).
  set (st2 := set_studies _ _).
  destruct (navigate_frame st2 "reception") as [view Hview].
  destruct (Router.navigate st2 "reception") as [st3 es] eqn:Hnav.
  simpl in Hview. subst st3. simpl.
  exists visit, news. split_and!; try done.
  - subst news. by rewrite length_imap.
  - intros i s (q & _ & ->)%newStudies_lookup. done.
  - apply newStudies_NoDup.
  - rewrite elem_of_cons, !elem_of_app. right. right.
    apply list_elem_of_further, list_elem_of_here.
  - intros id. rewrite elem_of_cons, !elem_of_app, !elem_of_cons, elem_of_nil.
    intros [|[Hes|[|[|[]]]]]; try done.
    apply (navigate_no_request st2 "reception" "createStudy" id).
    by rewrite Hnav.
Qed.

(** ** Study workflow *)

Section WorkflowFacts.
Import Workflow.

Lemma update_found_ids id f (l : list Study) :
  (∀ s, study_id (f s) = study_id s) →
  study_id <$> update_found id f l = study_id <$> l.
Proof.
  intros Hf. induction l as [|s l IH]; [done|]. cbn [update_found].
  case_bool_decide; rewrite !fmap_cons; [by rewrite Hf|by rewrite IH].
Qed.

(** Every study is either left alone or is a study with the given id to
    which [f] was applied. *)
Lemma update_found_lookup id f (l : list Study) i y :
  l !! i = Some y →
  ∃ x, update_found id f l !! i = Some x
       ∧ (x = y ∨ (x = f y ∧ study_id y = id)).
Proof.
  revert i. induction l as [|s l IH]; intros i; [done|]. simpl.
  case_bool_decide as Hid.
  - destruct i as [|i]; simpl.
    + intros [= <-]. eauto.
    + intros ->. eauto.
  - destruct i as [|i]; simpl.
    + intros [= <-]. eauto.
    + apply IH.
Qed.

Lemma NoDup_ids_eq (l : list Study) s s' :
  NoDup (study_id <$> l) → s ∈ l → s' ∈ l → study_id s = study_id s' → s = s'.
Proof.
  intros Hnd [i Hi]%list_elem_of_lookup [j Hj]%list_elem_of_lookup Heq.
  assert (i = j); [|congruence].
  eapply (NoDup_lookup _ i j (study_id s) Hnd);
    rewrite list_lookup_fmap; [by rewrite Hi|by rewrite Hj, Heq].
Qed.

Lemma findStudy_Some st id s :
  findStudy st id = Some s → s ∈ st_studies st ∧ study_id s = id.
Proof.
  unfold findStudy. generalize (st_studies st). intros l.
  induction l as [|x l IH]; [done|]. simpl. case_bool_decide.
  - intros [= <-]. split; [apply list_elem_of_here|done].
  - intros [??]%IH. split; [by apply list_elem_of_further|done].
Qed.

(** One step touches no id, and a study it touches has the id passed
    to the action and gets the status of that action. *)
Lemma step_lookup st a i y :
  st_studies st !! i = Some y →
  ∃ x, st_studies (step st a) !! i = Some x
       ∧ study_id x = study_id y
       ∧ (x = y ∨ (study_status x = target a ∧ study_id y = action_id a
                   ∧ a ≠ PrintReport)).
Proof.
  intros Hy. destruct a as [id c|id c|id c t|]; simpl.
  - unfold startScan. destruct (negb _); [by eauto|].
    destruct (negb c); [by eauto|]. simpl.
    destruct (update_found_lookup id (set_status "Scanning") _ _ _ Hy)
      as (x & Hx & [->|[-> Hid]]); eauto 10.
  - unfold completeScan. destruct (negb _); [by eauto|].
    destruct (negb c); [by eauto|]. simpl.
    destruct (update_found_lookup id (set_status "Reporting") _ _ _ Hy)
      as (x & Hx & [->|[-> Hid]]); eauto 10.
  - unfold markComplete. destruct (negb _); [by eauto|].
    destruct (negb c); [by eauto|]. simpl.
    destruct (update_found_lookup id (set_completed t) _ _ _ Hy)
      as (x & Hx & [->|[-> Hid]]); eauto 10.
  - unfold printReport. destruct (st_currentStudy st); eauto.
Qed.

Lemma step_ids st a :
  study_id <$> st_studies (step st a) = study_id <$> st_studies st.
Proof.
  destruct a as [id c|id c|id c t|]; simpl.
  - unfold startScan. destruct (negb _); [done|]. destruct (negb c); [done|].
    by apply update_found_ids.
  - unfold completeScan. destruct (negb _); [done|]. destruct (negb c); [done|].
    by apply update_found_ids.
  - unfold markComplete. destruct (negb _); [done|]. destruct (negb c); [done|].
    by apply update_found_ids.
  - unfold printReport. by destruct (st_currentStudy st).
Qed.

Lemma step_user st a : st_user (step st a) = st_user st.
Proof.
  destruct a as [id c|id c|id c t|]; simpl.
  - unfold startScan. by repeat destruct (negb _).
  - unfold completeScan. by repeat destruct (negb _).
  - unfold markComplete. by repeat destruct (negb _).
  - unfold printReport. by destruct (st_currentStudy st).
Qed.

Lemma todo_elem st date s : s ∈ todo st date → s ∈ st_studies st.
Proof.
  unfold todo. rewrite !list_elem_of_In, filter_In. tauto.
Qed.

Lemma studyCard_Start s b :
  studyCard s b = Some StartButton → study_status s = "Waiting".
Proof.
  unfold studyCard. destruct b; [|done].
  repeat case_bool_decide; naive_solver.
Qed.

Lemma studyCard_Complete s b :
  studyCard s b = Some CompleteButton → study_status s = "Scanning".
Proof.
  unfold studyCard. destruct b; [|done].
  repeat case_bool_decide; naive_solver.
Qed.

(** With distinct ids, an offered action moves every status along an
    edge or not at all. *)
Lemma offered_step_edge st a i y :
  NoDup (study_id <$> st_studies st) →
  offered st a →
  st_studies st !! i = Some y →
  ∃ x, st_studies (step st a) !! i = Some x
       ∧ (study_status x = study_status y
          ∨ edge (study_status y) (study_status x)).
Proof.
  intros Hnd Hoff Hy.
  destruct (step_lookup st a i y Hy) as (x & Hx & _ & [->|(Hst & Hid & Hpr)]);
    [by eauto|].
  exists x. split; [done|]. right. rewrite Hst.
  assert (Hyin : y ∈ st_studies st) by (apply list_elem_of_lookup; eauto).
  destruct a as [id c|id c|id c t|]; simpl in *; [| | |done].
  - destruct Hoff as (date & s & Hs%todo_elem & Hsid & Hcard%studyCard_Start).
    assert (y = s) as -> by (eapply NoDup_ids_eq; eauto; congruence).
    rewrite Hcard. constructor.
  - destruct Hoff as (date & s & Hs%todo_elem & Hsid & Hcard%studyCard_Complete).
    assert (y = s) as -> by (eapply NoDup_ids_eq; eauto; congruence).
    rewrite Hcard. constructor.
  - destruct Hoff as (tab & s & Hs & Htab & Hsid & Hed).
    assert (y = s) as -> by (eapply NoDup_ids_eq; eauto; congruence).
    unfold editorOffersMarkComplete in Hed.
    destruct (findStudy st id) as [s'|] eqn:Hfind; [|done].
    apply findStudy_Some in Hfind as [Hs' Hid'].
    assert (s' = s) as -> by (eapply NoDup_ids_eq; eauto; congruence).
    destruct (st_user st); [|done].
    apply andb_true_iff in Hed as [_ Hnc%negb_true_iff%bool_decide_eq_false].
    revert Htab. unfold displayStatuses. case_bool_decide;
      rewrite !elem_of_cons, elem_of_nil; intros [Heq|[Heq|[]]] || intros [Heq|[]];
      rewrite Heq in *; try done; constructor.
Qed.

Lemma step_never_waiting st a i :
  status_at (step st a) i = Some "Waiting" → status_at st i = Some "Waiting".
Proof.
  unfold status_at. destruct (st_studies st !! i) as [y|] eqn:Hy.
  - destruct (step_lookup st a i y Hy) as (x & -> & _ & [->|(Hst & _ & _)]);
      [done|].
    simpl. intros [= Hw]. rewrite Hw in Hst. by destruct a.
  - assert (Hlen : length (st_studies (step st a)) = length (st_studies st)).
    { by rewrite <- (length_fmap study_id), step_ids, length_fmap. }
    apply lookup_ge_None in Hy. rewrite <- Hlen in Hy.
    apply lookup_ge_None in Hy. by rewrite Hy.
Qed.

End WorkflowFacts.

(** C1, amended.  No sequence of controller calls puts a study into
    Waiting: a study that is Waiting afterwards was Waiting before, so
    nothing leads from Completed back to Waiting.  When the study ids are
    pairwise distinct and every call is one that the page rendered from
    the current state offers (Start on a Waiting card, Complete on a
    Scanning card, Mark Complete in the editor of a listed study that is
    not Completed, Sign and Print), every single call of the sequence
    leaves the status of a study in [App.state] as it is or moves it
    along exactly one of the edges Waiting -> Scanning,
    Scanning -> Reporting, Reporting -> Reported, Reporting -> Completed,
    Reported -> Completed; so the status at the end is reached from the
    status at the start along these edges. *)
Theorem workflow_follows_edges (st : AppState) (l : list Workflow.Action) :
  (∀ i, Workflow.status_at (Workflow.run st l) i = Some "Waiting" →
        Workflow.status_at st i = Some "Waiting")
  ∧ (∀ st',
       NoDup (study_id <$> st_studies st) →
       Workflow.offered_run st l st' →
       st' = Workflow.run st l
       ∧ (∀ k a i s,
            l !! k = Some a →
            Workflow.status_at (Workflow.run st (take k l)) i = Some s →
            ∃ s', Workflow.status_at (Workflow.run st (take (S k) l)) i = Some s'
                  ∧ (s' = s ∨ Workflow.edge s s'))
       ∧ (∀ i s,
            Workflow.status_at st i = Some s →
            ∃ s', Workflow.status_at st' i = Some s' ∧ rtc Workflow.edge s s')).
Proof.
  split.
  - revert st. induction l as [|a l IH]; intros st i; [done|].
    simpl. intros H%IH. by apply step_never_waiting in H.
  - intros st' Hnd Hrun.
    induction Hrun as [st|st a l st' Hoff Hrun IH].
    + split; [done|]. split; [done|]. intros i s Hs. by exists s.
    + assert (Hstep : ∀ i s, Workflow.status_at st i = Some s →
                ∃ s', Workflow.status_at (Workflow.step st a) i = Some s'
                      ∧ (s' = s ∨ Workflow.edge s s')).
      { intros i s Hs. unfold Workflow.status_at in Hs |- *.
        destruct (st_studies st !! i) as [y|] eqn:Hy; [|done].
        injection Hs as <-.
        destruct (offered_step_edge st a i y Hnd Hoff Hy) as (x & Hx & Hedge).
        exists (study_status x). rewrite Hx. split; [done|].
        destruct Hedge as [->|Hedge]; [by left|by right]. }
      destruct IH as (-> & Hsteps & Hall); [by rewrite step_ids|].
      split; [done|]. split.
      * intros [|k] b i s Hb Hs.
        -- injection Hb as <-. by apply Hstep.
        -- by apply (Hsteps k b i s).
      * intros i s Hs. destruct (Hstep i s Hs) as (s1 & Hs1 & Hedge).
        destruct (Hall i s1 Hs1) as (s' & Hs' & Hrtc).
        exists s'. split; [done|].
        destruct Hedge as [->|Hedge]; [done|]. by eapply rtc_l.
Qed.

(** ** Row store *)

Section RowStoreFacts.
Import RowStore.
Context (dateToString : Z → string) (stringify : value → string).

Local Abbreviation toString := (RowStore.toString dateToString).
Local Abbreviation key := (RowStore.key dateToString).
Local Abbreviation hasId := (RowStore.hasId dateToString).
Local Abbreviation hasRow := (RowStore.hasRow dateToString).
Local Abbreviation findRow := (RowStore.findRow dateToString).
Local Abbreviation updateRowIn := (RowStore.updateRowIn dateToString).
Local Abbreviation deleteRowIn := (RowStore.deleteRowIn dateToString).
Local Abbreviation updateRow := (RowStore.updateRow dateToString).
Local Abbreviation deleteRow := (RowStore.deleteRow dateToString).
Local Abbreviation createRow := (RowStore.createRow dateToString).
Local Abbreviation createRowIn := (RowStore.createRowIn dateToString).
Local Abbreviation cellFor := (RowStore.cellFor dateToString).
Local Abbreviation rowObject := (RowStore.rowObject dateToString).
Local Abbreviation sheetObjects := (RowStore.sheetObjects dateToString).

(** *** The row scan *)

Lemma findRow_Some (sh : sheet) id i :
  findRow sh id = Some i ↔
    ∃ row, (1 ≤ i)%nat ∧ sh !! i = Some row ∧ hasId id row
           ∧ ∀ j row', (1 ≤ j < i)%nat → sh !! j = Some row' → ¬ hasId id row'.
Proof.
  unfold RowStore.findRow. split.
  - destruct (list_find _ _) as [[k row]|] eqn:Hfind; [|done].
    simpl. intros [= <-]. apply list_find_Some in Hfind as (Hk & Hrow & Hfirst).
    rewrite lookup_tail in Hk. exists row. split_and!; [lia|done|done|].
    intros [|j] row' Hj Hrow'; [lia|].
    apply (Hfirst j row'); [by rewrite lookup_tail|lia].
  - intros (row & Hi & Hrow & Hid & Hfirst).
    destruct i as [|k]; [lia|].
    assert (Hfind : list_find (λ row : list value,
               toString (row !! 0%nat) = toString id) (tail sh) = Some (k, row)).
    { apply list_find_Some. rewrite lookup_tail. split_and!; [done..|].
      intros j row' Hj Hlt. apply (Hfirst (S j) row'); [lia|].
      by rewrite <- lookup_tail. }
    by rewrite Hfind.
Qed.

Lemma findRow_None (sh : sheet) id : findRow sh id = None ↔ ¬ hasRow sh id.
Proof.
  unfold RowStore.findRow, RowStore.hasRow. rewrite fmap_None, list_find_None.
  rewrite Forall_lookup. split.
  - intros Hall ([|j] & row & Hj & Hrow & Hid); [lia|].
    apply (Hall j row); [by rewrite lookup_tail|done].
  - intros Hno j row Hrow Hid. apply Hno. exists (S j), row.
    split_and!; [lia| |done]. by rewrite <- lookup_tail.
Qed.

Lemma hasRow_findRow (sh : sheet) id : hasRow sh id → ∃ i, findRow sh id = Some i.
Proof.
  intros Hrow. destruct (findRow sh id) as [i|] eqn:Hfind; [by eauto|].
  by apply findRow_None in Hfind.
Qed.

(** *** Writing the named columns of one row *)

Lemma indexOf_Some k (headers : list value) c :
  indexOf k headers = Some c →
  headers !! c = Some (VStr k) ∧ ∀ c', (c' < c)%nat → headers !! c' ≠ Some (VStr k).
Proof.
  unfold indexOf. destruct (list_find _ _) as [[c0 h]|] eqn:Hfind; [|done].
  simpl. intros [= <-]. apply list_find_Some in Hfind as (Hc & -> & Hfirst).
  split; [done|]. intros c' Hlt Hc'. by apply (Hfirst c' _ Hc' Hlt).
Qed.

Lemma setValue_length (sh : sheet) r c v : length (setValue sh r c v) = length sh.
Proof. unfold setValue. apply length_alter. Qed.

Lemma setValue_other_row (sh : sheet) r c v j :
  j ≠ r → setValue sh r c v !! j = sh !! j.
Proof. intros Hne. unfold setValue. by apply list_lookup_alter_ne. Qed.

Lemma setValue_row (sh : sheet) r c v :
  setValue sh r c v !! r = (λ row, <[c := v]> row) <$> sh !! r.
Proof. unfold setValue. rewrite list_lookup_alter. by case_decide. Qed.

(** The loop over [Object.keys(updates)] keeps the shape of the sheet,
    every row but [r], and in row [r] every column whose header is not
    one of the keys. *)
Lemma writeColumns_frame headers r (kvs : list (string * value)) (sh : sheet) :
  let sh' := foldl (writeColumn headers r) sh kvs in
  length sh' = length sh
  ∧ (∀ j, j ≠ r → sh' !! j = sh !! j)
  ∧ (∀ row, sh !! r = Some row →
       ∃ row', sh' !! r = Some row' ∧ length row' = length row
               ∧ ∀ c, (∀ k v, (k, v) ∈ kvs → headers !! c ≠ Some (VStr k)) →
                      row' !! c = row !! c).
Proof.
  revert sh. induction kvs as [|[k v] kvs IH]; intros sh; simpl.
  { split_and!; [done..|]. intros row Hrow. exists row. done. }
  set (sh1 := writeColumn headers r sh (k, v)).
  destruct (IH sh1) as (Hlen & Hrows & Hrow).
  assert (Hstep : length sh1 = length sh
                  ∧ (∀ j, j ≠ r → sh1 !! j = sh !! j)
                  ∧ (∀ row, sh !! r = Some row →
                       ∃ row1, sh1 !! r = Some row1 ∧ length row1 = length row
                               ∧ ∀ c, headers !! c ≠ Some (VStr k) →
                                      row1 !! c = row !! c)).
  { subst sh1. unfold writeColumn. simpl.
    destruct (indexOf k headers) as [c0|] eqn:Hidx.
    - apply indexOf_Some in Hidx as [Hc0 _]. split_and!.
      + apply setValue_length.
      + intros j Hj. by apply setValue_other_row.
      + intros row Hr. exists (<[c0 := v]> row). rewrite setValue_row, Hr.
        split_and!; [done|apply length_insert|].
        intros c Hc. apply list_lookup_insert_ne. congruence.
    - split_and!; [done..|]. intros row Hr. by exists row. }
  destruct Hstep as (Hlen1 & Hrows1 & Hrow1). split_and!.
  - by rewrite Hlen, Hlen1.
  - intros j Hj. by rewrite Hrows, Hrows1.
  - intros row Hr. destruct (Hrow1 row Hr) as (row1 & Hr1 & Hl1 & Hc1).
    destruct (Hrow row1 Hr1) as (row' & Hr' & Hl' & Hc').
    exists row'. split_and!; [done|by rewrite Hl', Hl1|].
    intros c Hc. rewrite Hc', Hc1; [done|..].
    + apply (Hc k v), list_elem_of_here.
    + intros k' v' Hin. apply (Hc k' v'). by apply list_elem_of_further.
Qed.

(** The loop over the keys stores, under every key that heads a column,
    the value of that key, whatever the order of the keys. *)
Lemma writeColumns_written headers r (kvs : list (string * value)) :
  NoDup kvs.*1 →
  ∀ (sh : sheet) row k v c,
    (k, v) ∈ kvs → indexOf k headers = Some c →
    sh !! r = Some row → (c < length row)%nat →
    ∃ row', foldl (writeColumn headers r) sh kvs !! r = Some row'
            ∧ row' !! c = Some v.
Proof.
  induction kvs as [|[k0 v0] kvs IH]; intros Hnd sh row k v c Hin Hidx Hrow Hc.
  { by apply elem_of_nil in Hin. }
  apply NoDup_cons in Hnd as [Hk0 Hnd]. cbn [foldl].
  apply elem_of_cons in Hin as [[= -> ->]|Hin].
  - unfold writeColumn at 2. cbn [fst snd]. rewrite Hidx.
    destruct (writeColumns_frame headers r kvs (setValue sh r c v0))
      as (_ & _ & Hframe).
    destruct (Hframe (<[c := v0]> row)) as (row' & Hrow' & _ & Hcols).
    { by rewrite setValue_row, Hrow. }
    exists row'. split; [done|]. rewrite Hcols.
    + apply list_lookup_insert_eq. done.
    + intros k' v' Hin' Hh. apply Hk0.
      apply indexOf_Some in Hidx as [Hc0 _].
      assert (k' = k0) as -> by congruence.
      apply list_elem_of_fmap. by exists (k0, v').
  - destruct (writeColumns_frame headers r [(k0, v0)] sh) as (_ & _ & Hframe).
    destruct (Hframe row Hrow) as (row1 & Hrow1 & Hlen1 & _).
    cbn [foldl] in Hrow1.
    apply (IH Hnd _ row1 k v c Hin Hidx Hrow1). by rewrite Hlen1.
Qed.

(** *** [createRow] *)

Lemma withId_lookup (data : obj) prefix rnd k :
  k ≠ "id" → withId data prefix rnd !! k = data !! k.
Proof.
  intros Hk. unfold withId. destruct (negb _); [|done].
  by rewrite lookup_insert_ne.
Qed.

Lemma withCreatedAt_lookup (data : obj) now k :
  k ≠ "created_at" → withCreatedAt data now !! k = data !! k.
Proof.
  intros Hk. unfold withCreatedAt. destruct (negb _); [|done].
  by rewrite lookup_insert_ne.
Qed.

Lemma withId_id (data : obj) prefix rnd :
  ∃ id, withId data prefix rnd !! "id" = Some id ∧ truthy (Some id) = true
        ∧ (truthy (data !! "id") = false →
           id = VStr (prefix +:+ "-" +:+ pretty rnd))
        ∧ (truthy (data !! "id") = true → data !! "id" = Some id).
Proof.
  unfold withId. destruct (truthy (data !! "id")) eqn:Hid; simpl.
  - destruct (data !! "id") as [id|] eqn:Hd; [|done]. by exists id.
  - eexists. rewrite lookup_insert_eq. split_and!; [done| |done..].
    simpl. apply negb_true_iff, bool_decide_eq_false.
    by destruct prefix.
Qed.

Lemma cellFor_truthy (data : obj) h v :
  data !! key h = Some v → truthy (Some v) = true → cellFor data h = v.
Proof.
  intros Hv Ht. unfold RowStore.cellFor, getProp. by rewrite Hv, Ht.
Qed.






(** *** [updateRow] and [deleteRow] *)

(** C7.  When some data row carries the id, [updateRow] succeeds and
    changes nothing but the first such row: the sheet keeps its rows and
    their lengths, every other row is as before, and in that row every
    column whose header is not a key of [updates] is as before, while
    every key of [updates] that heads a column has its value written
    into the first column so headed. *)
Theorem updateRow_frame (ss : spreadsheet) sheetName (sh : sheet) id (updates : obj) :
  ss !! sheetName = Some sh →
  hasRow sh id →
  ∃ i row sh' row',
    updateRow ss sheetName id updates = inr (Success, <[sheetName := sh']> ss)
    ∧ (1 ≤ i)%nat ∧ sh !! i = Some row ∧ hasId id row
    ∧ (∀ j row0, (1 ≤ j < i)%nat → sh !! j = Some row0 → ¬ hasId id row0)
    ∧ sh' !! i = Some row'
    ∧ length sh' = length sh ∧ length row' = length row
    ∧ (∀ j, j ≠ i → sh' !! j = sh !! j)
    ∧ (∀ c, (∀ k, headersOf sh !! c = Some (VStr k) → updates !! k = None) →
            row' !! c = row !! c)
    ∧ (∀ k v c, updates !! k = Some v → indexOf k (headersOf sh) = Some c →
                (c < length row)%nat → row' !! c = Some v).
Proof.
  intros Hsh [i Hfind]%hasRow_findRow.
  unfold RowStore.updateRow, RowStore.updateRowIn. rewrite Hsh, Hfind.
  apply findRow_Some in Hfind as (row & Hi & Hrow & Hid & Hfirst).
  destruct (writeColumns_frame (headersOf sh) i (map_to_list updates) sh)
    as (Hlen & Hrows & Hframe).
  destruct (Hframe row Hrow) as (row' & Hrow' & Hlen' & Hcols).
  exists i, row,
    (foldl (writeColumn (headersOf sh) i) sh (map_to_list updates)), row'.
  split_and!; try done.
  - intros c Hc. apply Hcols. intros k v Hkv%elem_of_map_to_list Hh.
    apply Hc in Hh. congruence.
  - intros k v c Hk Hidx Hc.
    destruct (writeColumns_written (headersOf sh) i (map_to_list updates)
                (NoDup_fst_map_to_list updates) sh row k v c)
      as (row'' & Hrow'' & Hcell); [by apply elem_of_map_to_list|done..|].
    rewrite Hrow' in Hrow''. by injection Hrow'' as <-.
Qed.

(** C8.  [updateRow] and [deleteRow] answer with the error
    "ID not found" exactly when no data row carries the id, and then
    the spreadsheet is as it was; they answer with success exactly when
    such a row exists. *)
Theorem not_found_iff (ss : spreadsheet) sheetName (sh : sheet) id (updates : obj) :
  ss !! sheetName = Some sh →
  (∃ r ss', updateRow ss sheetName id updates = inr (r, ss')
            ∧ (r = Error "ID not found" ↔ ¬ hasRow sh id)
            ∧ (r = Success ↔ hasRow sh id)
            ∧ (¬ hasRow sh id → ss' = ss))
  ∧ (∃ r ss', deleteRow ss sheetName id = inr (r, ss')
              ∧ (r = Error "ID not found" ↔ ¬ hasRow sh id)
              ∧ (r = Success ↔ hasRow sh id)
              ∧ (¬ hasRow sh id → ss' = ss)).
Proof.
  intros Hsh.
  unfold RowStore.updateRow, RowStore.updateRowIn,
    RowStore.deleteRow, RowStore.deleteRowIn. rewrite Hsh.
  destruct (findRow sh id) as [i|] eqn:Hfind.
  - assert (Hrow : hasRow sh id).
    { apply findRow_Some in Hfind as (row & ? & ? & ? & _). by exists i, row. }
    split; eexists _, _; (split; [done|]); split_and!; try done; naive_solver.
  - apply findRow_None in Hfind.
    split; eexists _, _; (split; [done|]); split_and!; try done;
      try naive_solver; intros _; by apply insert_id.
Qed.

(** *** Reading the rows back *)

Local Abbreviation handleRequest := (RowStore.handleRequest dateToString stringify).
Local Abbreviation getSheetData := (RowStore.getSheetData dateToString).

Local Abbreviation readCell := (RowStore.readCell dateToString).

Lemma readCells_other (row : list value) k (l : list (nat * value)) (acc : obj) :
  (∀ ch, ch ∈ l → key ch.2 ≠ k) →
  foldl (readCell row) acc l !! k = acc !! k.
Proof.
  revert acc. induction l as [|ch l IH]; intros acc Hk; [done|].
  cbn [foldl]. rewrite IH.
  - assert (key ch.2 ≠ k) by apply Hk, list_elem_of_here.
    unfold RowStore.readCell. case_bool_decide; [done|].
    destruct (row !! ch.1); [by rewrite lookup_insert_ne|by rewrite lookup_delete_ne].
  - intros ch' Hin. by apply Hk, list_elem_of_further.
Qed.

Lemma readCells_last (row : list value) (l1 l2 : list (nat * value)) ch (acc : obj) :
  key ch.2 ≠ "__proto__" →
  (∀ ch', ch' ∈ l2 → key ch'.2 ≠ key ch.2) →
  foldl (readCell row) acc (l1 ++ ch :: l2) !! key ch.2 = row !! ch.1.
Proof.
  intros Hown Hk. rewrite foldl_app. cbn [foldl]. rewrite readCells_other by done.
  unfold RowStore.readCell. rewrite bool_decide_eq_false_2 by done.
  destruct (row !! ch.1); [by rewrite lookup_insert_eq|by rewrite lookup_delete_eq].
Qed.

(** Under a header whose name no other header has, the object of a row
    holds the cell of that column, unless the name is [__proto__]: no
    own property has that name. *)
Lemma rowObject_proto (headers row : list value) :
  rowObject headers row !! "__proto__" = None.
Proof.
  unfold RowStore.rowObject.
  generalize (imap (λ c h, (c, h)) headers). intros l.
  assert (H : ∀ acc : obj, acc !! "__proto__" = None →
                foldl (readCell row) acc l !! "__proto__" = None).
  { induction l as [|ch l IH]; intros acc Hacc; [done|].
    cbn [foldl]. apply IH. unfold RowStore.readCell.
    case_bool_decide as Hk; [done|].
    destruct (row !! ch.1); [by rewrite lookup_insert_ne|by rewrite lookup_delete_ne]. }
  by apply H.
Qed.

Lemma rowObject_lookup (headers row : list value) c h :
  headers !! c = Some h →
  key h ≠ "__proto__" →
  (∀ c' h', headers !! c' = Some h' → key h' = key h → c' = c) →
  rowObject headers row !! key h = row !! c.
Proof.
  intros Hc Hown Huniq. unfold RowStore.rowObject.
  rewrite <- (take_drop_middle headers c h Hc), imap_app, imap_cons.
  pose proof (lookup_lt_Some _ _ _ Hc) as Hlt.
  etrans; [apply (readCells_last row _ _ (_, h)); [done|]|].
  - intros ch' (j & h' & -> & Hj)%elem_of_lookup_imap Hk. simpl in *.
    rewrite lookup_drop in Hj. apply Huniq in Hj; [lia|done].
  - simpl. f_equal. rewrite length_take. lia.
Qed.

(** *** [setup] leaves the Studies rows in place *)

Lemma setupSheet_lookup_ne now (ss : spreadsheet) name desired name' :
  name ≠ name' → setupSheet now ss (name, desired) !! name' = ss !! name'.
Proof.
  intros Hne. unfold setupSheet. destruct (_ || _); by apply lookup_insert_ne.
Qed.

Lemma setupSheet_lookup_migrate now (ss : spreadsheet) name desired (sh : sheet) :
  name ≠ "Users" → ss !! name = Some sh → sh ≠ [] →
  setupSheet now ss (name, desired) !! name = Some (migrate sh desired).
Proof.
  intros Hname Hsh Hne. unfold setupSheet. rewrite Hsh. simpl.
  rewrite (bool_decide_eq_false_2 (name = "Users")) by done.
  rewrite bool_decide_eq_false_2 by (by destruct sh).
  simpl. by rewrite lookup_insert_eq.
Qed.

Lemma setup_Studies now (ss : spreadsheet) (sh : sheet) :
  ss !! "Studies" = Some sh → sh ≠ [] →
  setup now ss !! "Studies" = Some (migrate sh studiesHeaders).
Proof.
  intros Hsh Hne. unfold setup, schema. cbn [foldl].
  rewrite !(setupSheet_lookup_ne _ _ _ _ "Studies") by done.
  apply setupSheet_lookup_migrate; [done| |done].
  by rewrite !(setupSheet_lookup_ne _ _ _ _ "Studies") by done.
Qed.

Lemma missingHeaders_new (headers : list value) desired h :
  h ∈ missingHeaders headers desired → VStr h ∉ headers.
Proof.
  unfold missingHeaders. rewrite list_elem_of_In, filter_In.
  intros [_ Hh%negb_true_iff%bool_decide_eq_false]. done.
Qed.

(** *** The round trip *)

Lemma dispatch_updateStudyStatus (ss : spreadsheet) rt (p : obj) :
  dispatch dateToString stringify ss rt "updateStudyStatus" (Some p)
    = updateRow ss "Studies" (p !! "id") (field "status" (p !! "status")).
Proof. done. Qed.

Lemma dispatch_getAllData (ss : spreadsheet) rt payload :
  dispatch dateToString stringify ss rt "getAllData" payload
    = inr (getAllData dateToString (setup (rt_now rt) ss), setup (rt_now rt) ss).
Proof. done. Qed.

Lemma indexOf_unique k (headers : list value) c :
  headers !! c = Some (VStr k) →
  (∀ c' h, headers !! c' = Some h → key h = k → c' = c) →
  indexOf k headers = Some c.
Proof.
  intros Hc Huniq. unfold indexOf.
  assert (Hfind : list_find (λ h, h = VStr k) headers = Some (c, VStr k)).
  { apply list_find_Some. split_and!; [done..|].
    intros c' h Hc' Hlt ->. specialize (Huniq c' _ Hc' eq_refl). lia. }
  by rewrite Hfind.
Qed.

Lemma studiesOf_getAllData (ss : spreadsheet) :
  studiesOf (getAllData dateToString ss) = getSheetData ss "Studies".
Proof. done. Qed.

Lemma sheetObjects_migrate (headers : list value) (rows : list (list value)) desired :
  sheetObjects (migrate (headers :: rows) desired)
    = rowObject (headers ++ (VStr <$> missingHeaders headers desired))
        <$> ((λ r, r ++ replicate (length (missingHeaders headers desired)) (VStr ""))
               <$> rows).
Proof. done. Qed.

(** C9, amended.  Let the Studies sheet be a rectangle whose header row
    has the string "status" in exactly one column, no other header
    being named status, and let exactly one data row carry the id.
    After the request updateStudyStatus with that id and "Scanning",
    the request getAllData answers with one study per data row, and
    the study of that row has status "Scanning". *)
Theorem status_round_trip (ss : spreadsheet) (headers : list value)
        (rows : list (list value)) (c i : nat) (row : list value)
        (idv : value) (rt1 rt2 : Runtime) :
  let payload : obj := <["id" := idv]> {[ "status" := VStr "Scanning" ]} in
  ss !! "Studies" = Some (headers :: rows) →
  (∀ r, r ∈ rows → length r = length headers) →
  headers !! c = Some (VStr "status") →
  (∀ c' h, headers !! c' = Some h → key h = "status" → c' = c) →
  rows !! i = Some row →
  hasId (Some idv) row →
  (∀ j row', rows !! j = Some row' → hasId (Some idv) row' → j = i) →
  ∃ ss1 r2 ss2 o,
    handleRequest ss rt1 "updateStudyStatus" (Some payload) = (Success, ss1)
    ∧ handleRequest ss1 rt2 "getAllData" None = (r2, ss2)
    ∧ length (studiesOf r2) = length rows
    ∧ studiesOf r2 !! i = Some o
    ∧ o !! "status" = Some (VStr "Scanning").
Proof.
  intros payload Hsh Hrect Hc Huniq Hrow Hid Hone.
  pose proof (lookup_lt_Some _ _ _ Hc) as Hclt.
  assert (Hfind : findRow (headers :: rows) (Some idv) = Some (S i)).
  { apply findRow_Some. exists row. split_and!; [lia|done|done|].
    intros [|j] row' Hj Hrow' Hid'; [lia|].
    specialize (Hone j row' Hrow' Hid'). lia. }
  assert (Hidx : indexOf "status" headers = Some c) by by apply indexOf_unique.
  set (sh1 := headers :: alter (λ r, <[c := VStr "Scanning"]> r) i rows).
  assert (Hupd : updateRow ss "Studies" (payload !! "id")
                   (field "status" (payload !! "status"))
                 = inr (Success, <["Studies" := sh1]> ss)).
  { unfold RowStore.updateRow, RowStore.updateRowIn. rewrite Hsh.
    subst payload. rewrite lookup_insert_eq, lookup_insert_ne by done.
    rewrite lookup_singleton_eq. unfold field. rewrite Hfind.
    rewrite map_to_list_singleton. cbn [foldl]. unfold writeColumn.
    change (headersOf (headers :: rows)) with headers. cbn [fst snd].
    by rewrite Hidx. }
  set (ss1 := <["Studies" := sh1]> ss).
  assert (Hss2 : setup (rt_now rt2) ss1 !! "Studies"
                 = Some (migrate sh1 studiesHeaders)).
  { apply setup_Studies; [|done]. subst ss1. by rewrite lookup_insert_eq. }
  assert (Hread : studiesOf (getAllData dateToString (setup (rt_now rt2) ss1))
                  = sheetObjects (migrate sh1 studiesHeaders)).
  { rewrite studiesOf_getAllData. unfold RowStore.getSheetData. by rewrite Hss2. }
  clear Hss2. revert Hread. generalize studiesHeaders. intros desired Hread.
  subst sh1. rewrite sheetObjects_migrate in Hread.
  set (new := missingHeaders headers desired) in Hread.
  set (headers2 := headers ++ (VStr <$> new)) in Hread.
  set (pad := λ r : list value, r ++ replicate (length new) (VStr "")) in Hread.
  set (row1 := <[c := VStr "Scanning"]> row).
  assert (Hrow1 : alter (λ r, <[c := VStr "Scanning"]> r) i rows !! i = Some row1).
  { rewrite list_lookup_alter. case_decide; [|done]. by rewrite Hrow. }
  exists ss1, (getAllData dateToString (setup (rt_now rt2) ss1)),
    (setup (rt_now rt2) ss1), (rowObject headers2 (pad row1)).
  split_and!.
  - unfold RowStore.handleRequest. by rewrite dispatch_updateStudyStatus, Hupd.
  - unfold RowStore.handleRequest. by rewrite dispatch_getAllData.
  - by rewrite Hread, !length_fmap, length_alter.
  - by rewrite Hread, !list_lookup_fmap, Hrow1.
  - assert (Hc2 : headers2 !! c = Some (VStr "status")).
    { subst headers2. by rewrite lookup_app_l. }
    change "status" with (key (VStr "status")).
    rewrite (rowObject_lookup headers2 (pad row1) c (VStr "status") Hc2).
    + assert (Hlen : length row = length headers).
      { apply Hrect, list_elem_of_lookup. eauto. }
      subst pad row1. cbv beta.
      rewrite lookup_app_l by (rewrite length_insert; lia).
      apply list_lookup_insert_eq. lia.
    + done.
    + intros c' h' Hc' Hk. subst headers2.
      destruct (decide (c' < length headers)%nat) as [Hlt|Hge].
      * rewrite lookup_app_l in Hc' by done. by apply (Huniq c' h').
      * exfalso. rewrite lookup_app_r in Hc' by lia.
        rewrite list_lookup_fmap in Hc'.
        destruct (new !! (c' - length headers)%nat) as [h|] eqn:Hnew; [|done].
        injection Hc' as <-. change (h = "status") in Hk. subst h.
        eapply missingHeaders_new; [apply list_elem_of_lookup; eauto|].
        apply list_elem_of_lookup. eauto.
Qed.

End RowStoreFacts.

(** ** The properties on the sample data *)

Section Samples.
Import Examples.





(** C1: a technician's call of startScan on a Completed study makes it
    Scanning, which is no edge of the workflow. *)
Lemma startScan_reopens_completed :
  Workflow.status_at afterCompletion 0 = Some "Completed"
  ∧ Workflow.status_at
      (Workflow.step afterCompletion (Workflow.StartScan "ST-900" true)) 0
    = Some "Scanning"
  ∧ "Completed" ≠ "Scanning"
  ∧ ¬ Workflow.edge "Completed" "Scanning".
Proof.
  split; [by vm_compute|]. split; [by vm_compute|]. split; [done|].
  inversion 1.
Qed.

(** C1 on the mock studies: Start and then Complete, each taken from
    the technician page of 2023-10-27, move ST-902 from Waiting along
    the edges. *)
Lemma workflow_follows_edges_witness :
  (∃ s1, Workflow.status_at
           (Workflow.run (loggedIn "Technician") [Workflow.StartScan "ST-902" true])
           1 = Some s1
         ∧ (s1 = "Waiting" ∨ Workflow.edge "Waiting" s1))
  ∧ ∃ s', Workflow.status_at
            (Workflow.run (loggedIn "Technician")
               [Workflow.StartScan "ST-902" true; Workflow.CompleteScan "ST-902" true])
            1 = Some s'
          ∧ rtc Workflow.edge "Waiting" s'.
Proof.
  set (l := [Workflow.StartScan "ST-902" true; Workflow.CompleteScan "ST-902" true]).
  destruct (proj2 (workflow_follows_edges (loggedIn "Technician") l)
              (Workflow.run (loggedIn "Technician") l))
    as (_ & Hsteps & Hall).
  - apply (bool_decide_unpack _). by vm_compute.
  - apply Workflow.offered_cons.
    { exists "2023-10-27", (mkStudy "ST-902" "VS-501" "XR" "Chest" "Chest X-Ray PA"
                              "USR-RAD" 0 "Waiting" "2023-10-27T09:20:00" None).
      split; [|by vm_compute]. vm_compute. apply list_elem_of_here. }
    apply Workflow.offered_cons; [|apply Workflow.offered_nil].
    exists "2023-10-27", (mkStudy "ST-902" "VS-501" "XR" "Chest" "Chest X-Ray PA"
                            "USR-RAD" 0 "Scanning" "2023-10-27T09:20:00" None).
    split; [|by vm_compute]. vm_compute. apply list_elem_of_here.
  - split.
    + apply (Hsteps 0%nat (Workflow.StartScan "ST-902" true) 1%nat "Waiting");
        by vm_compute.
    + apply (Hall 1%nat "Waiting"). by vm_compute.
Defined.

(** C4: the passcode in lower case differs from "AHM0599123456" and
    still logs the patient in. *)
Lemma lowercase_passcode_accepted :
  "ahm0599123456" ≠ "AHM0599123456"
  ∧ st_user loggedOut = None
  ∧ st_user (fst (Auth.patientLogin caseTables true loggedOut
                    "0599123456" "ahm0599123456"))
    = Some (PatientSession "PT-101" "Ahmed Khaled" "0599123456").
Proof. split; [done|]. split; by vm_compute. Qed.

(** A passcode of blanks is refused before the lookup, with another
    message. *)
Example blank_passcode :
  Auth.patientLogin caseTables true loggedOut "0599123456" "   "
    = (loggedOut, [Alert "Enter Phone and Passcode"]).
Proof. by vm_compute. Qed.

(** C4 on the mock patients: the documented passcode logs in. *)
Lemma patient_login_iff_witness :
  st_user (fst (Auth.patientLogin caseTables true loggedOut
                  "0599123456" "AHM0599123456"))
    = Some (PatientSession "PT-101" "Ahmed Khaled" "0599123456")
  ∧ Auth.patientLogin caseTables true loggedOut "0599123456" "AHM059912345"
    = (loggedOut, [Alert Auth.invalid_passcode]).
Proof.
  pose (p := mkPatient "PT-101" "Ahmed Khaled" "0599123456").
  split.
  - assert (Hphone : Str.trim "0599123456" ≠ "") by (by vm_compute).
    assert (Hfind : find (λ q, bool_decide (patient_phone q = Str.trim "0599123456"))
                      (st_patients loggedOut) = Some p) by (by vm_compute).
    destruct (patient_login_iff caseTables true loggedOut p
                "0599123456" "AHM0599123456" Hphone Hfind) as ([_ Hin] & _ & _).
    refine (proj1 (Hin _)). by vm_compute.
  - assert (Hphone : Str.trim "0599123456" ≠ "") by (by vm_compute).
    assert (Hfind : find (λ q, bool_decide (patient_phone q = Str.trim "0599123456"))
                      (st_patients loggedOut) = Some p) by (by vm_compute).
    destruct (patient_login_iff caseTables true loggedOut p
                "0599123456" "AHM059912345" Hphone Hfind) as (_ & Hout & _).
    apply Hout. by vm_compute.
Defined.

(** C5: two studies queued by a receptionist get one and the same id
    when the clock and the random source repeat. *)
Lemma saveVisit_ids_collide :
  Rbac.hasPermission twoQueued "createVisit" = true
  ∧ length (st_tempQueue twoQueued) = 2%nat
  ∧ study_id <$> st_studies (fst (Reception.saveVisit sameTick twoQueued visitForm))
    = ["ST-901"; "ST-902"; "ST-1700000000000-7"; "ST-1700000000000-7"].
Proof. split; [by vm_compute|]. split; by vm_compute. Qed.

(** Without the createVisit permission nothing is created. *)
Example saveVisit_denied :
  Reception.saveVisit sameTick (loggedIn "Technician") visitForm
    = (loggedIn "Technician",
       [Alert "Access Denied: You don't have permission to create visits."]).
Proof. by vm_compute. Qed.

(** C5 with a clock that advances. *)
Lemma saveVisit_optimistic_witness :
  ∃ visit news,
    st_visits (fst (Reception.saveVisit ticking twoQueued visitForm))
      = st_visits twoQueued ++ [visit]
    ∧ st_studies (fst (Reception.saveVisit ticking twoQueued visitForm))
      = st_studies twoQueued ++ news
    ∧ length news = 2%nat
    ∧ NoDup (study_id <$> news).
Proof.
  assert (Hperm : Rbac.hasPermission twoQueued "createVisit" = true)
    by (by vm_compute).
  assert (Hpatient : Reception.visit_patient_select visitForm ≠ "") by done.
  assert (Hdoctor : Reception.visit_assigned_doctor visitForm ≠ "") by done.
  assert (Hqueue : st_tempQueue twoQueued ≠ []) by done.
  destruct (saveVisit_optimistic ticking twoQueued visitForm
              Hperm Hpatient Hdoctor Hqueue)
    as (visit & news & Hv & _ & _ & _ & Hs & Hl & _ & Hnd & _).
  exists visit, news. split_and!; [done..|].
  apply Hnd. intros i j Hij. cbn [ticking env_now env_random].
  intros Heq. apply (f_equal fst) in Heq. cbn [fst] in Heq. lia.
Defined.

End Samples.

Section SheetSamples.
Import Examples RowStore.

(** The request that [printReport] sends sets a Completed row back to
    Reported in the sheet. *)
Example saveReport_reopens_row :
  snd (handleRequest showDate showJson completedBook runtime "saveReport"
                     (Some savedReport)) !! "Studies"
    = Some [ [VStr "id"; VStr "status"; VStr "report_content"];
             [VStr "ST-900"; VStr "Reported"; VStr "<p>Normal study.</p>"] ].
Proof. by vm_compute. Qed.

(** A falsy field such as the price 0 that [saveVisit] sends is stored
    as the empty string. *)
Example createRow_falsy_field :
  ∃ ss', createRow showDate book "Studies"
           (Some (<["id" := VStr "ST-5"]> {[ "status" := VNum 0 ]})) "ST" runtime
         = inr (Created (Some (VStr "ST-5")), ss')
       ∧ ss' !! "Studies" = Some (studiesSheet ++ [[VStr "ST-5"; VStr ""; VStr ""]]).
Proof. eexists. split; [reflexivity|]. by vm_compute. Qed.



Lemma sample_hasRow :
  hasRow showDate studiesSheet (Some (VStr "ST-902")).
Proof.
  exists 2%nat, [VStr "ST-902"; VStr "VS-501"; VStr "Waiting"].
  split; [lia|]. split; reflexivity.
Defined.

(** C7 on the sample sheet: only the status cell of ST-902 changes,
    and it holds the new status. *)
Lemma updateRow_frame_witness :
  ∃ sh' row',
    updateRow showDate book "Studies" (Some (VStr "ST-902"))
              {[ "status" := VStr "Scanning" ]}
      = inr (Success, <["Studies" := sh']> book)
    ∧ sh' !! 0%nat = studiesSheet !! 0%nat
    ∧ sh' !! 1%nat = studiesSheet !! 1%nat
    ∧ length sh' = 3%nat
    ∧ sh' !! 2%nat = Some row'
    ∧ row' !! 0%nat = Some (VStr "ST-902")
    ∧ row' !! 2%nat = Some (VStr "Scanning").
Proof.
  assert (Hbook : book !! "Studies" = Some studiesSheet) by (by vm_compute).
  destruct (updateRow_frame showDate book "Studies" studiesSheet
              (Some (VStr "ST-902")) {[ "status" := VStr "Scanning" ]}
              Hbook sample_hasRow)
    as (i & row & sh' & row' & Hres & Hi & Hrow & Hid & _ & Hrow' & Hlen & _
        & Hrows & Hkeep & Hput).
  exists sh', row'. split; [done|].
  assert (i = 2%nat) as ->.
  { destruct i as [|[|[|i]]]; [lia| |done|done].
    injection Hrow as <-. by vm_compute in Hid. }
  injection Hrow as <-.
  split_and!; [by apply Hrows..|done|done| |].
  - rewrite Hkeep; [done|]. intros k [= <-]. by vm_compute.
  - apply (Hput "status" (VStr "Scanning") 2%nat); [by vm_compute|by vm_compute|].
    simpl. lia.
Defined.

(** C8 on the sample sheet: ST-902 is found, ST-999 is not. *)
Lemma not_found_iff_witness :
  (∃ ss', updateRow showDate book "Studies" (Some (VStr "ST-902")) ∅
            = inr (Success, ss'))
  ∧ (∃ ss', deleteRow showDate book "Studies" (Some (VStr "ST-902"))
              = inr (Success, ss')).
Proof.
  assert (Hbook : book !! "Studies" = Some studiesSheet) by (by vm_compute).
  destruct (not_found_iff showDate book "Studies" studiesSheet
              (Some (VStr "ST-902")) ∅ Hbook)
    as [(r & ss' & Hres & _ & Hok & _) (r' & ss'' & Hres' & _ & Hok' & _)].
  split.
  - exists ss'. by rewrite Hres, (proj2 Hok sample_hasRow).
  - exists ss''. by rewrite Hres', (proj2 Hok' sample_hasRow).
Defined.

(** C9: with two columns headed status the update writes the first one
    and the read reports the second one, so the study still reads
    Waiting. *)
Lemma duplicate_status_column_reads_stale :
  VStr "status" ∈ headersOf twoStatusColumns
  ∧ tail twoStatusColumns = [[VStr "ST-1"; VStr "Waiting"; VStr "Waiting"]]
  ∧ scanThenRead twoStatusBook "ST-1" = (Success, [Some (VStr "Waiting")]).
Proof.
  split; [apply list_elem_of_further, list_elem_of_here|].
  split; by vm_compute.
Qed.

(** C9 on the sample sheet. *)
Lemma status_round_trip_witness :
  ∃ ss1 r2 ss2 o,
    handleRequest showDate showJson book runtime "updateStudyStatus"
                  (Some (scanning "ST-902")) = (Success, ss1)
    ∧ handleRequest showDate showJson ss1 runtime "getAllData" None = (r2, ss2)
    ∧ length (studiesOf r2) = 2%nat
    ∧ studiesOf r2 !! 1%nat = Some o
    ∧ o !! "status" = Some (VStr "Scanning").
Proof.
  apply (status_round_trip showDate showJson book
           [VStr "id"; VStr "visit_id"; VStr "status"]
           [[VStr "ST-901"; VStr "VS-501"; VStr "Reporting"];
            [VStr "ST-902"; VStr "VS-501"; VStr "Waiting"]]
           2 1 [VStr "ST-902"; VStr "VS-501"; VStr "Waiting"]
           (VStr "ST-902") runtime runtime).
  - by vm_compute.
  - intros r Hr. repeat (apply elem_of_cons in Hr as [->|Hr]; [done|]).
    by apply elem_of_nil in Hr.
  - reflexivity.
  - intros [|[|[|c']]] h Hc Hk; cbn in Hc; simplify_eq; try done;
      by vm_compute in Hk.
  - reflexivity.
  - reflexivity.
  - intros [|[|j]] row' Hj Hid; cbn in Hj; simplify_eq; try done;
      by vm_compute in Hid.
Defined.

End SheetSamples.

(** * Further properties *)

(** ** Row store: what is written, what is removed *)

Section RowStoreMore.
Import RowStore.
Context (dateToString : Z → string) (stringify : value → string).

Local Abbreviation toString := (RowStore.toString dateToString).
Local Abbreviation key := (RowStore.key dateToString).
Local Abbreviation hasId := (RowStore.hasId dateToString).
Local Abbreviation hasRow := (RowStore.hasRow dateToString).
Local Abbreviation findRow := (RowStore.findRow dateToString).
Local Abbreviation updateRowIn := (RowStore.updateRowIn dateToString).
Local Abbreviation updateRow := (RowStore.updateRow dateToString).
Local Abbreviation deleteRow := (RowStore.deleteRow dateToString).
Local Abbreviation createRow := (RowStore.createRow dateToString).
Local Abbreviation createRowIn := (RowStore.createRowIn dateToString).
Local Abbreviation cellFor := (RowStore.cellFor dateToString).
Local Abbreviation rowObject := (RowStore.rowObject dateToString).
Local Abbreviation sheetObjects := (RowStore.sheetObjects dateToString).
Local Abbreviation getSheetData := (RowStore.getSheetData dateToString).
Local Abbreviation getAllData := (RowStore.getAllData dateToString).
Local Abbreviation dispatch := (RowStore.dispatch dateToString stringify).
Local Abbreviation handleRequest := (RowStore.handleRequest dateToString stringify).

(** X1.  When [updateRow] finds the row of the id, every key of the
    update that heads a column is stored, with its value, in the first
    column so headed of that row. *)
Theorem updateRow_writes (ss : spreadsheet) sheetName (sh : sheet) id
        (updates : obj) i row :
  ss !! sheetName = Some sh →
  findRow sh id = Some i →
  sh !! i = Some row →
  length row = length (headersOf sh) →
  ∃ sh' row',
    updateRow ss sheetName id updates = inr (Success, <[sheetName := sh']> ss)
    ∧ sh' !! i = Some row'
    ∧ ∀ k v c, updates !! k = Some v → indexOf k (headersOf sh) = Some c →
               row' !! c = Some v.
Proof.
  intros Hsh Hfind Hrow Hlen.
  unfold RowStore.updateRow, RowStore.updateRowIn. rewrite Hsh, Hfind.
  set (sh' := foldl (writeColumn (headersOf sh) i) sh (map_to_list updates)).
  destruct (writeColumns_frame (headersOf sh) i (map_to_list updates) sh)
    as (_ & _ & Hframe).
  destruct (Hframe row Hrow) as (row' & Hrow' & _ & _).
  exists sh', row'. split_and!; [done..|].
  intros k v c Hk Hidx.
  destruct (writeColumns_written (headersOf sh) i (map_to_list updates)
              (NoDup_fst_map_to_list updates) sh row k v c)
    as (row'' & Hrow'' & Hcell); [by apply elem_of_map_to_list|done..| |].
  - apply indexOf_Some in Hidx as [Hc _]. apply lookup_lt_Some in Hc. lia.
  - subst sh'. rewrite Hrow' in Hrow''. by injection Hrow'' as <-.
Qed.

(** X2.  When some data row carries the id, [deleteRow] removes the
    first such row and nothing else: the rows above it stay, the rows
    below it move up by one, the header row is never the one removed.
    When that row was the only one with the id, no row carries the id
    afterwards and a second [deleteRow] answers "ID not found". *)
Theorem deleteRow_removes (ss : spreadsheet) sheetName (sh : sheet) id :
  ss !! sheetName = Some sh →
  hasRow sh id →
  ∃ i ss',
    findRow sh id = Some i
    ∧ deleteRow ss sheetName id = inr (Success, ss')
    ∧ ss' = <[sheetName := delete i sh]> ss
    ∧ (1 ≤ i)%nat
    ∧ S (length (delete i sh)) = length sh
    ∧ (∀ j, (j < i)%nat → delete i sh !! j = sh !! j)
    ∧ (∀ j, (i ≤ j)%nat → delete i sh !! j = sh !! S j)
    ∧ ((∀ j row, sh !! j = Some row → (1 ≤ j)%nat → hasId id row → j = i) →
       ¬ hasRow (delete i sh) id
       ∧ ∃ ss'', deleteRow ss' sheetName id = inr (Error "ID not found", ss'')
                 ∧ ss'' = ss').
Proof.
  intros Hsh [i Hfind]%hasRow_findRow.
  pose proof Hfind as (row & Hi & Hrow & Hid & Hfirst)%findRow_Some.
  pose proof (lookup_lt_Some _ _ _ Hrow) as Hlt.
  exists i, (<[sheetName := delete i sh]> ss).
  split_and!; [done| |done|done| | | |].
  - unfold RowStore.deleteRow, RowStore.deleteRowIn. by rewrite Hsh, Hfind.
  - rewrite length_delete by eauto. lia.
  - intros j Hj. by apply list_lookup_delete_lt.
  - intros j Hj. by apply list_lookup_delete_ge.
  - intros Honly.
    assert (Hgone : ¬ hasRow (delete i sh) id).
    { intros (j & row' & Hj & Hrow' & Hid').
      destruct (decide (j < i)%nat) as [Hlt'|Hge].
      - rewrite list_lookup_delete_lt in Hrow' by done.
        specialize (Honly j row' Hrow' Hj Hid'). lia.
      - rewrite list_lookup_delete_ge in Hrow' by lia.
        specialize (Honly (S j) row' Hrow' ltac:(lia) Hid'). lia. }
    split; [done|].
    exists (<[sheetName := delete i sh]> ss). split; [|done].
    unfold RowStore.deleteRow, RowStore.deleteRowIn.
    rewrite lookup_insert_eq.
    apply findRow_None in Hgone. rewrite Hgone. by rewrite insert_insert_eq.
Qed.

(** [updateRow], [deleteRow] and [createRow] change the spreadsheet only
    when they succeed. *)
Lemma updateRow_error (ss ss' : spreadsheet) sheetName id (updates : obj) m :
  updateRow ss sheetName id updates = inr (Error m, ss') → ss' = ss.
Proof.
  unfold RowStore.updateRow, RowStore.updateRowIn.
  destruct (ss !! sheetName) as [sh|] eqn:Hsh; [|done].
  destruct (findRow sh id); [done|]. intros [= _ <-]. by apply insert_id.
Qed.

Lemma deleteRow_error (ss ss' : spreadsheet) sheetName id m :
  deleteRow ss sheetName id = inr (Error m, ss') → ss' = ss.
Proof.
  unfold RowStore.deleteRow, RowStore.deleteRowIn.
  destruct (ss !! sheetName) as [sh|] eqn:Hsh; [|done].
  destruct (findRow sh id); [done|]. intros [= _ <-]. by apply insert_id.
Qed.

Lemma createRow_error (ss ss' : spreadsheet) sheetName data prefix rt m :
  createRow ss sheetName data prefix rt = inr (Error m, ss') → ss' = ss.
Proof.
  unfold RowStore.createRow, RowStore.createRowIn.
  destruct (ss !! sheetName) as [sh|]; [|done].
  case_bool_decide; [done|]. by destruct data.
Qed.

(** X3.  Whatever the action and the payload, a request that is
    answered with an error has changed no sheet. *)
Theorem error_leaves_sheets (ss : spreadsheet) rt action payload m :
  fst (handleRequest ss rt action payload) = Error m →
  snd (handleRequest ss rt action payload) = ss.
Proof.
  unfold RowStore.handleRequest.
  destruct (dispatch ss rt action payload) as [e|[r ss']] eqn:Hd; [done|].
  simpl. intros ->. revert Hd. unfold RowStore.dispatch.
  repeat (case_bool_decide; [try (destruct payload as [p|]; [|done]);
            eauto using updateRow_error, deleteRow_error, createRow_error|]).
  - done.
  - destruct (truthy (p !! "id")); eauto using updateRow_error, createRow_error.
  - by intros [= <-].
Qed.

(** ** Row store: [setup] *)

(** What [setup] leaves under a name depends on that sheet alone. *)
Lemma setupSheet_lookup_self now (ss ss' : spreadsheet) name desired :
  ss !! name = ss' !! name →
  setupSheet now ss (name, desired) !! name
    = setupSheet now ss' (name, desired) !! name.
Proof.
  intros Heq. unfold setupSheet. rewrite Heq.
  destruct (_ || _); by rewrite !lookup_insert_eq.
Qed.

Lemma setup_lookup now (ss : spreadsheet) name desired :
  (name, desired) ∈ schema →
  setup now ss !! name = setupSheet now ss (name, desired) !! name.
Proof.
  unfold setup, schema. cbn [foldl]. rewrite !elem_of_cons, elem_of_nil.
  intros [[= -> ->]|[[= -> ->]|[[= -> ->]|[[= -> ->]|[[= -> ->]|[]]]]]];
    rewrite ?(setupSheet_lookup_ne _ _ "Users") by done;
    rewrite ?(setupSheet_lookup_ne _ _ "Templates") by done;
    rewrite ?(setupSheet_lookup_ne _ _ "Studies") by done;
    rewrite ?(setupSheet_lookup_ne _ _ "Visits") by done;
    apply setupSheet_lookup_self;
    by rewrite ?setupSheet_lookup_ne by done.
Qed.

Lemma setup_lookup_other now (ss : spreadsheet) name :
  name ∉ ["Patients"; "Visits"; "Studies"; "Templates"; "Users"] →
  setup now ss !! name = ss !! name.
Proof.
  rewrite !not_elem_of_cons. intros (? & ? & ? & ? & ? & _).
  unfold setup, schema. cbn [foldl]. by rewrite !setupSheet_lookup_ne by done.
Qed.

(** A header row that has every desired header lacks none. *)
Lemma missingHeaders_nil (headers : list value) desired :
  (∀ h, h ∈ desired → VStr h ∈ headers) → missingHeaders headers desired = [].
Proof.
  intros Hall. unfold missingHeaders.
  induction desired as [|h desired IH]; [done|]. simpl.
  rewrite bool_decide_eq_true_2 by apply Hall, list_elem_of_here. simpl.
  apply IH. intros h' Hh'. by apply Hall, list_elem_of_further.
Qed.

Lemma missingHeaders_elem (headers : list value) desired h :
  h ∈ missingHeaders headers desired ↔ h ∈ desired ∧ VStr h ∉ headers.
Proof.
  unfold missingHeaders. rewrite !list_elem_of_In, filter_In, <- !list_elem_of_In.
  rewrite negb_true_iff, bool_decide_eq_false. done.
Qed.

Lemma migrate_complete (sh : sheet) desired :
  (∀ h, h ∈ desired → VStr h ∈ headersOf sh) → migrate sh desired = sh.
Proof.
  intros Hall. unfold migrate. rewrite (missingHeaders_nil _ _ Hall).
  destruct sh as [|headers rows]; [done|]. simpl. rewrite app_nil_r. f_equal.
  induction rows as [|row rows IH]; csimpl; [done|]. by rewrite app_nil_r, IH.
Qed.

(** After [migrate] no desired header is missing. *)
Lemma migrate_headers (headers : list value) rows desired h :
  h ∈ desired → VStr h ∈ headersOf (migrate (headers :: rows) desired).
Proof.
  intros Hh. change (headersOf (migrate (headers :: rows) desired))
    with (headers ++ (VStr <$> missingHeaders headers desired)).
  rewrite elem_of_app.
  destruct (decide (VStr h ∈ headers)) as [|Hno]; [by left|right].
  apply list_elem_of_fmap. exists h. split; [done|].
  by apply missingHeaders_elem.
Qed.

(** The sheet that one step of [setup] leaves. *)
Lemma setupSheet_cases now (ss : spreadsheet) name desired :
  let sh := default [] (ss !! name) in
  let outdated := name = "Users" ∧ headersOf sh !! 0%nat = Some (VStr "email") in
  (sh = [] ∨ outdated →
     setupSheet now ss (name, desired) !! name
       = Some (if bool_decide (name = "Users")
               then [VStr <$> desired; adminRow now] else [VStr <$> desired]))
  ∧ (sh ≠ [] → ¬ outdated →
       setupSheet now ss (name, desired) !! name = Some (migrate sh desired)).
Proof.
  intros sh outdated. unfold setupSheet. fold sh. split.
  - intros Hinit.
    assert (bool_decide (length sh = 0%nat)
            || bool_decide (name = "Users")
               && bool_decide (headersOf sh !! 0%nat = Some (VStr "email")) = true)
      as ->.
    { destruct Hinit as [->|[Hn Hh]]; [done|].
      rewrite (bool_decide_eq_true_2 _ Hh), (bool_decide_eq_true_2 _ Hn).
      apply orb_true_r. }
    rewrite lookup_insert_eq. by case_bool_decide.
  - intros Hne Hout.
    assert (bool_decide (length sh = 0%nat)
            || bool_decide (name = "Users")
               && bool_decide (headersOf sh !! 0%nat = Some (VStr "email")) = false)
      as ->.
    { rewrite bool_decide_eq_false_2 by (by destruct sh). simpl.
      apply andb_false_iff. rewrite !bool_decide_eq_false.
      destruct (decide (name = "Users")); [right|by left].
      intros ?. by apply Hout. }
    by rewrite lookup_insert_eq.
Qed.

Lemma schema_users desired :
  ("Users", desired) ∈ schema → desired !! 0%nat = Some "id".
Proof.
  unfold schema. rewrite !elem_of_cons, !elem_of_nil.
  intros [[=]|[[=]|[[=]|[[=]|[[= ->]|[]]]]]]. done.
Qed.

(** The sheet that [setup] leaves under a name of the schema: it has a
    header row with every desired header and is no outdated Users sheet. *)
Lemma setup_settles now (ss : spreadsheet) name desired :
  (name, desired) ∈ schema →
  ∃ headers rows,
    setup now ss !! name = Some (headers :: rows)
    ∧ ¬ (name = "Users" ∧ headers !! 0%nat = Some (VStr "email"))
    ∧ ∀ h, h ∈ desired → VStr h ∈ headers.
Proof.
  intros Hin. rewrite (setup_lookup _ _ _ _ Hin).
  destruct (setupSheet_cases now ss name desired) as [Hinit Hmig].
  set (sh := default [] (ss !! name)) in *.
  destruct (decide (sh = [] ∨ (name = "Users"
              ∧ headersOf sh !! 0%nat = Some (VStr "email")))) as [Hi|Hm].
  - rewrite (Hinit Hi).
    exists (VStr <$> desired),
      (if bool_decide (name = "Users") then [adminRow now] else []).
    split_and!; [by case_bool_decide| |].
    + intros [-> Hh]. apply schema_users in Hin.
      rewrite list_lookup_fmap, Hin in Hh. done.
    + intros h Hh. apply list_elem_of_fmap. by exists h.
  - assert (Hne : sh ≠ []) by (intros ?; apply Hm; by left).
    assert (Hout : ¬ (name = "Users"
                      ∧ headersOf sh !! 0%nat = Some (VStr "email")))
      by (intros ?; apply Hm; by right).
    rewrite (Hmig Hne Hout).
    destruct sh as [|headers rows] eqn:Hsh; [done|].
    eexists _, _. split_and!; [reflexivity| |].
    + intros [-> Hh]. apply Hout. split; [done|]. simpl.
      destruct headers as [|h0 headers]; [|done]. exfalso.
      apply schema_users in Hin. unfold migrate in Hh.
      change (headersOf ([] :: rows)) with (@nil value) in Hh.
      rewrite app_nil_l in Hh.
      assert (Hall : missingHeaders [] desired = desired).
      { clear. induction desired as [|h d IH]; [done|].
        change (missingHeaders [] (h :: d)) with (h :: missingHeaders [] d).
        by rewrite IH. }
      rewrite Hall, list_lookup_fmap, Hin in Hh. done.
    + intros h Hh. by apply (migrate_headers headers rows desired h).
Qed.

(** X4.  After [setup] every sheet of the schema exists, has a header
    row, and that row holds every header of the schema for it. *)
Theorem setup_establishes_schema now (ss : spreadsheet) name desired :
  (name, desired) ∈ schema →
  ∃ headers rows,
    setup now ss !! name = Some (headers :: rows)
    ∧ ∀ h, h ∈ desired → VStr h ∈ headers.
Proof.
  intros Hin.
  destruct (setup_settles now ss name desired Hin) as (headers & rows & ? & _ & ?).
  by exists headers, rows.
Qed.

(** X5.  [setup] only adds: a sheet of the schema that has content (and
    is not a Users sheet whose first header is "email") keeps its header
    row as a prefix of the new one, keeps the number of its rows and
    every row as a prefix of the new row; a sheet outside the schema is
    not touched. *)
Theorem setup_is_additive now (ss : spreadsheet) name :
  (∀ desired headers rows,
     (name, desired) ∈ schema →
     ss !! name = Some (headers :: rows) →
     ¬ (name = "Users" ∧ headers !! 0%nat = Some (VStr "email")) →
     ∃ headers' rows',
       setup now ss !! name = Some (headers' :: rows')
       ∧ headers `prefix_of` headers'
       ∧ length rows' = length rows
       ∧ ∀ j row, rows !! j = Some row →
                  ∃ row', rows' !! j = Some row' ∧ row `prefix_of` row')
  ∧ (name ∉ ["Patients"; "Visits"; "Studies"; "Templates"; "Users"] →
     setup now ss !! name = ss !! name).
Proof.
  split; [|apply setup_lookup_other].
  intros desired headers rows Hin Hsh Hout.
  rewrite (setup_lookup _ _ _ _ Hin).
  destruct (setupSheet_cases now ss name desired) as [_ Hmig].
  rewrite Hsh in Hmig. rewrite Hmig by done.
  eexists _, _. split; [reflexivity|]. split_and!.
  - by apply prefix_app_r.
  - by rewrite length_fmap.
  - intros j row Hrow. eexists. rewrite list_lookup_fmap, Hrow. split; [done|].
    by apply prefix_app_r.
Qed.

(** A second [setup] finds nothing to do. *)
Lemma setupSheet_settled now (ss : spreadsheet) name desired (sh : sheet) :
  ss !! name = Some sh → sh ≠ [] →
  ¬ (name = "Users" ∧ headersOf sh !! 0%nat = Some (VStr "email")) →
  (∀ h, h ∈ desired → VStr h ∈ headersOf sh) →
  setupSheet now ss (name, desired) !! name = Some sh.
Proof.
  intros Hsh Hne Hout Hall.
  destruct (setupSheet_cases now ss name desired) as [_ Hmig].
  rewrite Hsh in Hmig. rewrite Hmig by done. by rewrite migrate_complete.
Qed.

Lemma setup_idempotent now now' (ss : spreadsheet) :
  setup now' (setup now ss) = setup now ss.
Proof.
  apply map_eq. intros name.
  destruct (decide (name ∈ ["Patients"; "Visits"; "Studies"; "Templates"; "Users"]))
    as [Hin|Hout]; [|by rewrite !setup_lookup_other].
  assert (∃ desired, (name, desired) ∈ schema) as [desired Hs].
  { unfold schema. revert Hin. rewrite !elem_of_cons, elem_of_nil.
    intros [->|[->|[->|[->|[->|[]]]]]]; eexists;
      rewrite !elem_of_cons; eauto 10. }
  rewrite (setup_lookup now' _ _ _ Hs).
  destruct (setup_settles now ss name desired Hs)
    as (headers & rows & Hsh & Hout & Hall).
  rewrite Hsh. by apply setupSheet_settled.
Qed.

(** X6.  Asking for all data twice gives the same answer twice, and the
    second request leaves the spreadsheet as the first one left it. *)
Theorem getAllData_idempotent (ss : spreadsheet) rt1 rt2 payload1 payload2 :
  handleRequest (snd (handleRequest ss rt1 "getAllData" payload1)) rt2
                "getAllData" payload2
    = handleRequest ss rt1 "getAllData" payload1.
Proof.
  unfold RowStore.handleRequest. rewrite !dispatch_getAllData. cbn [snd].
  by rewrite setup_idempotent.
Qed.

(** X7.  A Users sheet that is missing, empty or still headed by
    "email" is rebuilt from scratch: afterwards it holds the header row
    and the default administrator only, whatever rows it held before. *)
Theorem setup_seeds_admin now (ss : spreadsheet) :
  (ss !! "Users" = None ∨ ss !! "Users" = Some []
   ∨ ∃ sh, ss !! "Users" = Some sh ∧ headersOf sh !! 0%nat = Some (VStr "email")) →
  setup now ss !! "Users"
    = Some [VStr <$> ["id"; "email"; "full_name"; "role"; "pin"; "created_at"];
            adminRow now]
  ∧ ∃ admin, getSheetData (setup now ss) "Users" = [admin]
             ∧ admin !! "id" = Some (VStr "USR-ADMIN")
             ∧ admin !! "role" = Some (VStr "Admin")
             ∧ admin !! "pin" = Some (VStr "1234").
Proof.
  intros Hcase.
  assert (Hs : ("Users", ["id"; "email"; "full_name"; "role"; "pin"; "created_at"])
               ∈ schema).
  { unfold schema. do 4 apply list_elem_of_further. apply list_elem_of_here. }
  assert (Hlook : setup now ss !! "Users"
            = Some [VStr <$> ["id"; "email"; "full_name"; "role"; "pin"; "created_at"];
                    adminRow now]).
  { rewrite (setup_lookup _ _ _ _ Hs).
    destruct (setupSheet_cases now ss "Users"
                ["id"; "email"; "full_name"; "role"; "pin"; "created_at"])
      as [Hinit _].
    rewrite Hinit; [done|].
    destruct Hcase as [->|[->|(sh & -> & Hh)]]; [by left..|right]. done. }
  split; [done|].
  unfold RowStore.getSheetData. rewrite Hlook.
  eexists. split; [reflexivity|]. split_and!; by vm_compute.
Qed.


(** ** Row store: a created row read, found and deleted again *)

(** The id that [createRow] answers with. *)
Lemma created_id (data : obj) prefix rt :
  ∃ id, withCreatedAt (withId data prefix (rt_random rt)) (rt_now rt) !! "id"
          = Some id
        ∧ truthy (Some id) = true.
Proof.
  destruct (withId_id data prefix (rt_random rt)) as (id & Hid & Ht & _).
  exists id. split; [|done]. by rewrite withCreatedAt_lookup.
Qed.

Lemma createRow_unfold (ss : spreadsheet) sheetName (sh : sheet) data prefix rt :
  ss !! sheetName = Some sh → headersOf sh ≠ [] →
  createRow ss sheetName (Some data) prefix rt
    = inr (Created (withCreatedAt (withId data prefix (rt_random rt)) (rt_now rt)
                      !! "id"),
           <[sheetName :=
               sh ++ [cellFor (withCreatedAt (withId data prefix (rt_random rt))
                                  (rt_now rt)) <$> headersOf sh]]> ss).
Proof.
  intros Hsh Hne. unfold RowStore.createRow. rewrite Hsh.
  rewrite bool_decide_eq_false_2; [done|].
  by destruct (headersOf sh).
Qed.

Lemma sheet_nonempty (sh : sheet) : headersOf sh ≠ [] → (1 ≤ length sh)%nat.
Proof. destruct sh; [done|]. simpl. lia. Qed.

(** X8.  On a sheet whose first column is headed "id", the id that
    [createRow] answers with finds the new row; when no earlier row
    carried it, deleting by that id gives back the spreadsheet as it was
    before the creation. *)
Theorem createRow_then_deleteRow (ss : spreadsheet) sheetName (sh : sheet)
        data prefix rt h :
  ss !! sheetName = Some sh →
  headersOf sh !! 0%nat = Some h → key h = "id" →
  ∃ id ss' sh',
    createRow ss sheetName (Some data) prefix rt = inr (Created (Some id), ss')
    ∧ ss' !! sheetName = Some sh'
    ∧ hasRow sh' (Some id)
    ∧ (¬ hasRow sh (Some id) →
       findRow sh' (Some id) = Some (length sh)
       ∧ deleteRow ss' sheetName (Some id) = inr (Success, ss)).
Proof.
  intros Hsh Hh Hkey.
  assert (Hne : headersOf sh ≠ []) by (by destruct (headersOf sh)).
  destruct (created_id data prefix rt) as (id & Hid & Htruthy).
  set (data2 := withCreatedAt (withId data prefix (rt_random rt)) (rt_now rt)) in *.
  set (row := cellFor data2 <$> headersOf sh).
  exists id, (<[sheetName := sh ++ [row]]> ss), (sh ++ [row]).
  assert (Hrow0 : row !! 0%nat = Some id).
  { unfold row. rewrite list_lookup_fmap, Hh. simpl. f_equal.
    apply cellFor_truthy; [by rewrite Hkey|done]. }
  assert (Hlast : (sh ++ [row]) !! length sh = Some row).
  { by rewrite lookup_app_r, Nat.sub_diag by lia. }
  assert (Hlen := sheet_nonempty sh Hne).
  split_and!.
  - rewrite (createRow_unfold _ _ _ _ _ _ Hsh Hne). fold data2. by rewrite Hid.
  - by rewrite lookup_insert_eq.
  - exists (length sh), row. split_and!; [done|done|].
    unfold RowStore.hasId. by rewrite Hrow0.
  - intros Hfresh.
    assert (Hfind : findRow (sh ++ [row]) (Some id) = Some (length sh)).
    { apply findRow_Some. exists row. split_and!; [done|done| |].
      - unfold RowStore.hasId. by rewrite Hrow0.
      - intros j row' Hj Hrow' Hhas. apply Hfresh. exists j, row'.
        split_and!; [lia| |done].
        by rewrite lookup_app_l in Hrow' by lia. }
    split; [done|].
    unfold RowStore.deleteRow, RowStore.deleteRowIn.
    rewrite lookup_insert_eq. fold (findRow (sh ++ [row]) (Some id)).
    rewrite Hfind, insert_insert_eq.
    replace (delete (length sh) (sh ++ [row])) with sh.
    + by rewrite insert_id.
    + by rewrite (delete_middle sh [] row), app_nil_r.
Qed.

(** A truthy field of the payload is not replaced. *)
Lemma created_keeps (data : obj) prefix rt k v :
  data !! k = Some v → truthy (Some v) = true →
  withCreatedAt (withId data prefix (rt_random rt)) (rt_now rt) !! k = Some v.
Proof.
  intros Hk Hv.
  assert (Hid : withId data prefix (rt_random rt) !! k = Some v).
  { destruct (decide (k = "id")) as [->|Hi]; [|by rewrite withId_lookup].
    unfold RowStore.withId. by rewrite Hk, Hv. }
  destruct (decide (k = "created_at")) as [->|Hc];
    [|by rewrite withCreatedAt_lookup].
  unfold RowStore.withCreatedAt. by rewrite Hid, Hv.
Qed.

(** Reading a row in which every cell is a function of the key of its
    header: a key of some header reads that function's value. *)
Lemma readCells_uniform (row : list value) (g : string → value)
      (l : list (nat * value)) (acc : obj) k :
  k ≠ "__proto__" →
  (∀ ch, ch ∈ l → row !! ch.1 = Some (g (key ch.2))) →
  (∃ ch, ch ∈ l ∧ key ch.2 = k) →
  foldl (RowStore.readCell dateToString row) acc l !! k = Some (g k).
Proof.
  intros Hown.
  revert acc. induction l as [|ch l IH]; intros acc Hrow [ch' [Hin Hk]].
  { by apply elem_of_nil in Hin. }
  cbn [foldl].
  destruct (decide (Exists (λ ch, key ch.2 = k) l)) as [Hex|Hno].
  - apply IH.
    + intros ch0 H0. by apply Hrow, list_elem_of_further.
    + apply Exists_exists in Hex as (ch0 & H0 & Hk0).
      exists ch0. split; [done|done].
  - rewrite readCells_other.
    + assert (key ch.2 = k) as Hch.
      { apply elem_of_cons in Hin as [->|Hin]; [done|]. exfalso.
        apply Hno, Exists_exists. exists ch'. split; [done|done]. }
      unfold RowStore.readCell.
      rewrite bool_decide_eq_false_2 by (by rewrite Hch).
      rewrite (Hrow ch) by apply list_elem_of_here.
      by rewrite Hch, lookup_insert_eq.
    + intros ch0 H0 Hk0. apply Hno, Exists_exists. exists ch0.
      split; [done|done].
Qed.

(** X9.  A created row is read back by [getSheetData] as one more
    object, after the objects that were there: under the key of every
    header that is not the name of an inherited member it holds the cell
    that was stored, every truthy field of the payload that has a column
    comes back as it was sent unless it is called [__proto__], and the
    object has no other own key and never the own key [__proto__]. *)
Theorem createRow_read_back (ss : spreadsheet) sheetName (sh : sheet)
        data prefix rt :
  ss !! sheetName = Some sh → headersOf sh ≠ [] →
  ∃ r ss' o,
    createRow ss sheetName (Some data) prefix rt = inr (r, ss')
    ∧ getSheetData ss' sheetName = getSheetData ss sheetName ++ [o]
    ∧ (∀ h, h ∈ headersOf sh → key h ∉ Js.objectPrototype →
         o !! key h
           = Some (cellFor (withCreatedAt (withId data prefix (rt_random rt))
                              (rt_now rt)) h))
    ∧ (∀ k v, data !! k = Some v → truthy (Some v) = true →
              k ≠ "__proto__" →
              (∃ h, h ∈ headersOf sh ∧ key h = k) → o !! k = Some v)
    ∧ (∀ k, (∀ h, h ∈ headersOf sh → key h ≠ k) → o !! k = None)
    ∧ o !! "__proto__" = None.
Proof.
  intros Hsh Hne.
  set (data2 := withCreatedAt (withId data prefix (rt_random rt)) (rt_now rt)).
  set (row := cellFor data2 <$> headersOf sh).
  set (g := λ k : string,
         if truthy (getProp data2 k) then default (VStr "") (getProp data2 k)
         else VStr "").
  assert (Hread : ∀ h, h ∈ headersOf sh → key h ≠ "__proto__" →
            rowObject (headersOf sh) row !! key h = Some (cellFor data2 h)).
  { intros h Hh Hown. unfold RowStore.rowObject.
    apply (readCells_uniform row g); [done|..].
    - intros ch Hch. apply elem_of_lookup_imap in Hch as (c & h' & -> & Hc).
      unfold row. cbn [fst snd]. by rewrite list_lookup_fmap, Hc.
    - apply list_elem_of_lookup in Hh as [c Hc].
      exists (c, h). split; [|done].
      by apply (elem_of_lookup_imap_2 (λ c h, (c, h))). }
  exists (Created (data2 !! "id")), (<[sheetName := sh ++ [row]]> ss),
    (rowObject (headersOf sh) row).
  split_and!.
  - by apply createRow_unfold.
  - unfold RowStore.getSheetData. rewrite lookup_insert_eq, Hsh.
    destruct sh as [|headers rows]; [done|]. simpl.
    by rewrite fmap_app.
  - intros h Hh Hown. apply (Hread h Hh). intros Heq. apply Hown.
    rewrite Heq. apply (bool_decide_unpack _). by vm_compute.
  - intros k v Hk Hv Hown (h & Hh & <-). rewrite (Hread h Hh Hown). f_equal.
    apply cellFor_truthy; [|done]. by apply created_keeps.
  - intros k Hk. unfold RowStore.rowObject. rewrite readCells_other; [done|].
    intros ch Hch. apply elem_of_lookup_imap in Hch as (c & h' & -> & Hc).
    apply Hk. by apply list_elem_of_lookup_2 in Hc.
  - apply rowObject_proto.
Qed.

(** X10.  Only [getAllData] works without a request body: every other
    action is answered with an error and changes nothing. *)
Theorem no_body_is_error (ss : spreadsheet) rt action :
  action ≠ "getAllData" →
  ∃ m, handleRequest ss rt action None = (Error m, ss).
Proof.
  intros Hne. unfold RowStore.handleRequest, RowStore.dispatch.
  rewrite bool_decide_eq_false_2 by done.
  repeat (case_bool_decide; [
    first [ by eexists
          | unfold RowStore.createRow; destruct (ss !! _); [|by eexists];
            case_bool_decide; by eexists ]|]).
  by eexists.
Qed.

(** ** Row store: a report saved, then the case marked complete *)

(** What a successful [updateRow] leaves in the sheet. *)
Lemma updateRowIn_found (sh : sheet) id (updates : obj) i row :
  findRow sh id = Some i → sh !! i = Some row →
  length row = length (headersOf sh) →
  ∃ sh' row',
    updateRowIn sh id updates = (Success, sh')
    ∧ length sh' = length sh
    ∧ (∀ j, j ≠ i → sh' !! j = sh !! j)
    ∧ sh' !! i = Some row'
    ∧ length row' = length row
    ∧ (∀ k v c, updates !! k = Some v → indexOf k (headersOf sh) = Some c →
                row' !! c = Some v)
    ∧ (∀ c, (∀ k, is_Some (updates !! k) → headersOf sh !! c ≠ Some (VStr k)) →
            row' !! c = row !! c).
Proof.
  intros Hfind Hrow Hlen. unfold RowStore.updateRowIn. rewrite Hfind.
  set (sh' := foldl (writeColumn (headersOf sh) i) sh (map_to_list updates)).
  destruct (writeColumns_frame (headersOf sh) i (map_to_list updates) sh)
    as (Hlength & Hother & Hframe).
  destruct (Hframe row Hrow) as (row' & Hrow' & Hlen' & Hcols).
  exists sh', row'. split_and!; [done..| |].
  - intros k v c Hk Hidx.
    destruct (writeColumns_written (headersOf sh) i (map_to_list updates)
                (NoDup_fst_map_to_list updates) sh row k v c)
      as (row'' & Hrow'' & Hcell); [by apply elem_of_map_to_list|done..| |].
    + apply indexOf_Some in Hidx as [Hc _]. apply lookup_lt_Some in Hc. lia.
    + subst sh'. rewrite Hrow' in Hrow''. by injection Hrow'' as <-.
  - intros c Hc. apply Hcols. intros k v Hkv.
    apply Hc. exists v. by apply elem_of_map_to_list.
Qed.

(** The search for an id reads column A only. *)
Lemma findRow_ext (sh sh' : sheet) id :
  length sh' = length sh →
  (∀ j row, sh !! j = Some row →
     ∃ row', sh' !! j = Some row' ∧ row' !! 0%nat = row !! 0%nat) →
  findRow sh' id = findRow sh id.
Proof.
  intros Hlen Hcol.
  assert (Hback : ∀ j row', sh' !! j = Some row' →
            ∃ row, sh !! j = Some row ∧ row' !! 0%nat = row !! 0%nat).
  { intros j row' Hj.
    destruct (sh !! j) as [row|] eqn:Hrow.
    - destruct (Hcol j row Hrow) as (row'' & Hj' & H0).
      exists row. split; [done|]. congruence.
    - apply lookup_lt_Some in Hj. apply lookup_ge_None in Hrow. lia. }
  destruct (findRow sh id) as [i|] eqn:Hfind.
  - apply findRow_Some in Hfind as (row & Hi & Hrow & Hhas & Hfirst).
    apply findRow_Some. destruct (Hcol i row Hrow) as (row' & Hrow' & H0).
    exists row'. split_and!; [done|done| |].
    + unfold RowStore.hasId in *. by rewrite H0.
    + intros j r' Hj Hr' Hhas'.
      destruct (Hback j r' Hr') as (r & Hr & H0').
      apply (Hfirst j r Hj Hr). unfold RowStore.hasId in *. by rewrite <- H0'.
  - apply findRow_None in Hfind. apply findRow_None.
    intros (j & r' & Hj & Hr' & Hhas'). apply Hfind.
    destruct (Hback j r' Hr') as (r & Hr & H0').
    exists j, r. split_and!; [done|done|].
    unfold RowStore.hasId in *. by rewrite <- H0'.
Qed.

(** X11.  The two requests that [markComplete] of the radiologist
    sends, one after the other: both succeed, and the row of the study
    then holds the report that was saved, the status "Completed" and the
    time of completion; its id and the other rows are as before. *)
Theorem report_then_complete (ss : spreadsheet) rt1 rt2 (sh : sheet)
        (p q : obj) id content i row cs cr cd :
  ss !! "Studies" = Some sh →
  headersOf sh !! 0%nat = Some (VStr "id") →
  findRow sh (Some id) = Some i → sh !! i = Some row →
  length row = length (headersOf sh) →
  indexOf "status" (headersOf sh) = Some cs →
  indexOf "report_content" (headersOf sh) = Some cr →
  indexOf "completed_at" (headersOf sh) = Some cd →
  p !! "study_id" = Some id → p !! "content_html" = Some content →
  q !! "study_id" = Some id →
  ∃ ss1 ss2 sh2 row2,
    handleRequest ss rt1 "saveReport" (Some p) = (Success, ss1)
    ∧ handleRequest ss1 rt2 "markComplete" (Some q) = (Success, ss2)
    ∧ ss2 = <["Studies" := sh2]> ss
    ∧ sh2 !! i = Some row2
    ∧ row2 !! cr = Some content
    ∧ row2 !! cs = Some (VStr "Completed")
    ∧ row2 !! cd = Some (VStr (rt_iso rt2))
    ∧ row2 !! 0%nat = row !! 0%nat
    ∧ length sh2 = length sh
    ∧ ∀ j, j ≠ i → sh2 !! j = sh !! j.
Proof.
  intros Hsh Hid Hfind Hrow Hlen Hcs Hcr Hcd Hp Hcontent Hq.
  set (u1 := field "report_content" (p !! "content_html")
               ∪ ({[ "status" := VStr "Reported" ]} : obj)).
  set (u2 := ({[ "status" := VStr "Completed" ]} : obj)
               ∪ {[ "completed_at" := VStr (rt_iso rt2) ]}).
  assert (Hi : (1 ≤ i)%nat) by (by apply findRow_Some in Hfind as (? & ? & _)).
  destruct (updateRowIn_found sh (Some id) u1 i row Hfind Hrow Hlen)
    as (sh1 & row1 & Hup1 & Hlen1 & Hother1 & Hrow1 & Hlenrow1 & Hset1 & Hkeep1).
  assert (Hkeys1 : ∀ k, is_Some (u1 !! k) → k = "report_content" ∨ k = "status").
  { intros k [v Hk]. subst u1. rewrite Hcontent in Hk. unfold RowStore.field in Hk.
    apply lookup_union_Some_raw in Hk as [Hk|[_ Hk]];
      apply lookup_singleton_Some in Hk as [<- _]; auto. }
  assert (Hkeys2 : ∀ k, is_Some (u2 !! k) → k = "status" ∨ k = "completed_at").
  { intros k [v Hk]. subst u2.
    apply lookup_union_Some_raw in Hk as [Hk|[_ Hk]];
      apply lookup_singleton_Some in Hk as [<- _]; auto. }
  assert (Hhead1 : headersOf sh1 = headersOf sh).
  { unfold RowStore.headersOf. rewrite !head_lookup, Hother1 by lia. done. }
  assert (Hfirst1 : row1 !! 0%nat = row !! 0%nat).
  { apply Hkeep1. intros k [->| ->]%Hkeys1; rewrite Hid; by intros [=]. }
  assert (Hfind1 : findRow sh1 (Some id) = Some i).
  { rewrite <- Hfind. apply findRow_ext; [done|]. intros j r Hr.
    destruct (decide (j = i)) as [->|Hj].
    - exists row1. split; [done|]. congruence.
    - exists r. by rewrite Hother1. }
  destruct (updateRowIn_found sh1 (Some id) u2 i row1 Hfind1 Hrow1)
    as (sh2 & row2 & Hup2 & Hlen2 & Hother2 & Hrow2 & Hlenrow2 & Hset2 & Hkeep2).
  { rewrite Hhead1. congruence. }
  rewrite Hhead1 in Hset2, Hkeep2.
  exists (<["Studies" := sh1]> ss), (<["Studies" := sh2]> ss), sh2, row2.
  split_and!.
  - unfold RowStore.handleRequest, RowStore.dispatch.
    rewrite !bool_decide_eq_false_2 by done. rewrite bool_decide_eq_true_2 by done.
    unfold RowStore.updateRow. rewrite Hsh, Hp. fold u1.
    fold (updateRowIn sh (Some id) u1). by rewrite Hup1.
  - unfold RowStore.handleRequest, RowStore.dispatch.
    rewrite !bool_decide_eq_false_2 by done. rewrite bool_decide_eq_true_2 by done.
    unfold RowStore.updateRow. rewrite lookup_insert_eq, Hq. fold u2.
    fold (updateRowIn sh1 (Some id) u2). by rewrite Hup2, insert_insert_eq.
  - done.
  - done.
  - rewrite Hkeep2.
    + apply (Hset1 "report_content"); [|done]. subst u1.
      rewrite Hcontent. unfold RowStore.field.
      apply lookup_union_Some_l, lookup_singleton_eq.
    + apply indexOf_Some in Hcr as [Hcr _].
      intros k [->| ->]%Hkeys2; rewrite Hcr; by intros [=].
  - apply (Hset2 "status"); [|done]. subst u2.
    apply lookup_union_Some_l, lookup_singleton_eq.
  - apply (Hset2 "completed_at"); [|done]. subst u2.
    rewrite lookup_union_r; [apply lookup_singleton_eq|].
    by apply lookup_singleton_ne.
  - rewrite <- Hfirst1. apply Hkeep2.
    intros k [->| ->]%Hkeys2; rewrite Hid; by intros [=].
  - congruence.
  - intros j Hj. by rewrite Hother2, Hother1.
Qed.

End RowStoreMore.

(** ** Router and permissions *)

Section RouterMore.
Import Rbac Router.




(** X13.  [router.init] brings a session whose role is in the table to
    the first page of that role; a session with any other role stays
    where it is and nothing is rendered: the denial of "reception" is
    logged, or, for a role named like an inherited member of the table,
    the permission test throws; without a session it does nothing at
    all. *)
Theorem init_lands_on_default (st : AppState) :
  (st_user st = None → RouterInit.init st = (st, []))
  ∧ (∀ user pages, st_user st = Some user →
       permissions !! session_role user = Some pages →
       ∃ d, head pages = Some d
            ∧ RouterInit.init st
                = (set_currentView st d,
                   [Render d; NavHidden (bool_decide (session_role user = "Patient"))]))
  ∧ (∀ user, st_user st = Some user →
       permissions !! session_role user = None →
       session_role user ∉ Js.objectPrototype →
       RouterInit.init st
         = (st, [Warn (access_denied (session_role user) "reception")]))
  ∧ (∀ user, st_user st = Some user →
       session_role user ∈ Js.objectPrototype →
       permissions !! session_role user = None
       ∧ getDefaultPage (session_role user) = None
       ∧ RouterInit.init st
         = (st, [Throw (Js.not_a_function "allowed.includes")])).
Proof.
  unfold RouterInit.init. split_and!.
  - by intros ->.
  - intros user pages Hu Hp. rewrite Hu.
    destruct (known_role_default _ pages Hp) as (d & Hd & Hhead & Hacc).
    exists d. split; [done|]. rewrite Hd. by apply navigate_allowed.
  - intros user Hu Hp Hno. rewrite Hu. rewrite (unknown_role_default _ Hp Hno).
    apply navigate_denied_default; [done| |].
    + by apply unknown_role_denied.
    + by apply unknown_role_default.
  - intros user Hu Hin. rewrite Hu. split_and!.
    + destruct (permissions !! session_role user) as [pages|] eqn:Hp; [|done].
      by destruct (table_not_inherited _ _ Hp).
    + by apply getDefaultPage_None.
    + apply (navigateTo_throws st user); [done|]. by apply canAccess_None.
Qed.

(** The roles that an action is permitted to. *)
Lemma actionPermissions_lookup action roles :
  actionPermissions !! action = Some roles →
  roles ⊆ ["Reception"; "Technician"; "Radiologist"; "Admin"] ∧ "Admin" ∈ roles.
Proof.
  unfold actionPermissions. intros H%elem_of_list_to_map_2.
  rewrite !elem_of_cons, elem_of_nil in H.
  destruct H as [[= -> ->]|[[= -> ->]|[[= -> ->]|[[= -> ->]|[[= -> ->]|[[= -> ->]|[[= -> ->]|[[= -> ->]|[]]]]]]]]];
    (split; [intros x; rewrite !elem_of_cons, !elem_of_nil; tauto
            |by apply (bool_decide_unpack _)]).
Qed.

(** X14.  An action is permitted to staff sessions only, never to a
    Patient session, to a role outside the table or without a session;
    and whatever any session is permitted, an Admin session is. *)
Theorem hasPermission_staff_only (st : AppState) (action : string) :
  hasPermission st action = true →
  (∃ user, st_user st = Some user
           ∧ session_role user ∈ ["Reception"; "Technician"; "Radiologist"; "Admin"])
  ∧ ∀ st' admin, st_user st' = Some admin → session_role admin = "Admin" →
                 hasPermission st' action = true.
Proof.
  unfold hasPermission. destruct (st_user st) as [user|]; [|done].
  destruct (actionPermissions !! action) as [roles|] eqn:Hroles; simpl.
  - apply actionPermissions_lookup in Hroles as [Hsub Hadmin].
    intros Hin%bool_decide_eq_true. split.
    + exists user. split; [done|]. by apply Hsub.
    + intros st' admin -> ->. by apply bool_decide_eq_true.
  - done.
Qed.

End RouterMore.

(** ** Staff login *)

Section LoginMore.
Import Rbac Router Auth.
Context (unicodeUpper : string → string) (navButtons : bool).

Local Abbreviation enter := (Auth.enter navButtons).
Local Abbreviation login := (Auth.login unicodeUpper navButtons).

(** The page the staff branch of [login] asks for. *)
Lemma staff_target_allowed role :
  role ∈ ["Technician"; "Reception"; "Radiologist"; "Admin"] →
  ∃ target,
    target = (if bool_decide (role = "Technician") then "technician"
              else if bool_decide (role = "Reception") then "reception"
              else if bool_decide (role = "Radiologist") then "radiologist"
              else "admin")
    ∧ canAccess role (Some target) = Some true.
Proof.
  rewrite !elem_of_cons, elem_of_nil.
  intros [->|[->|[->|[->|[]]]]]; (eexists; split; [reflexivity|done]).
Qed.

(** X15.  Staff login: for the user that the selected id finds, the
    session is opened exactly when the PIN equals the stored one; a user
    with one of the four staff roles then lands on the page named after
    the role, a user whose role is not in the table is logged in without
    any page being rendered, and a wrong PIN changes nothing. *)
Theorem staff_login (st : AppState) (form : LoginForm) (u : User) :
  let r := login st "staff" form in
  login_user form ≠ "" →
  find (λ x, bool_decide (user_id x = login_user form)) (st_users st) = Some u →
  (user_pin u = login_pin form →
     st_user (fst r) = Some (StaffSession u)
     ∧ StoreSession (StaffSession u) ∈ snd r
     ∧ (user_role u ∈ ["Technician"; "Reception"; "Radiologist"; "Admin"] →
        ∃ target,
          target = (if bool_decide (user_role u = "Technician") then "technician"
                    else if bool_decide (user_role u = "Reception") then "reception"
                    else if bool_decide (user_role u = "Radiologist") then "radiologist"
                    else "admin")
          ∧ fst r = set_currentView (set_user st (Some (StaffSession u))) target
          ∧ Render target ∈ snd r)
     ∧ (permissions !! user_role u = None →
        fst r = set_user st (Some (StaffSession u))
        ∧ ∀ p, Render p ∉ snd r))
  ∧ (user_pin u ≠ login_pin form →
     r = (st, [Warn "Login failed."; Alert "Invalid PIN. Please try again."])).
Proof.
  intros r Hid Hfind. subst r. unfold Auth.login.
  rewrite bool_decide_eq_true_2 by done.
  rewrite bool_decide_eq_false_2 by done. rewrite Hfind. split.
  - intros Hpin. rewrite bool_decide_eq_true_2 by done.
    set (st1 := set_user st (Some (StaffSession u))).
    set (target := if bool_decide (user_role u = "Technician") then "technician"
                   else if bool_decide (user_role u = "Reception") then "reception"
                   else if bool_decide (user_role u = "Radiologist") then "radiologist"
                   else "admin").
    assert (Hu : st_user st1 = Some (StaffSession u)) by done.
    destruct (enter_frame navButtons st1 (StaffSession u) target)
      as [Hstore [view Hview]].
    split_and!.
    + by rewrite Hview.
    + done.
    + intros Hrole. destruct (staff_target_allowed _ Hrole) as (t & Ht & Hc).
      fold target in Ht. subst t. exists target. split; [done|].
      assert (Hpages : ∃ pages, getAllowedPages (user_role u) = Some pages).
      { unfold canAccess in Hc. unfold getAllowedPages.
        destruct (pagesOr [] (user_role u)) as [pages|]; [by eexists|done]. }
      destruct Hpages as [pages Hpages].
      rewrite (enter_array navButtons st1 (StaffSession u) pages target Hu Hpages).
      rewrite (navigate_allowed st1 _ target Hu Hc). cbn [fst snd]. split; [done|].
      cbn [app]. do 3 apply list_elem_of_further. apply list_elem_of_here.
    + intros Hnone.
      destruct (decide (user_role u ∈ Js.objectPrototype)) as [Hin|Hno].
      * assert (Hthrows : navigate st1 target
                  = (st1, [Throw (Js.not_a_function "allowed.includes")])).
        { apply (navigate_throws st1 (StaffSession u)); [done|].
          by apply canAccess_None. }
        unfold Auth.enter, Ui.updateUserDisplay, Ui.renderNavigation.
        rewrite Hu. cbn [session_role]. unfold getAllowedPages.
        rewrite (pagesOr_inherited _ _ Hin), Hthrows.
        destruct navButtons; cbn [thrown existsb orb fst snd app];
          (split; [done|]); intros p;
          rewrite !elem_of_cons, elem_of_nil; intros H;
          repeat (destruct H as [H|H]; [done|]); done.
      * assert (Hdenied : ∀ page,
                  canAccess (session_role (StaffSession u)) page = Some false)
          by (intros page; by apply unknown_role_denied).
        assert (Hdef : getDefaultPage (session_role (StaffSession u))
                       = Some "reception")
          by (by apply unknown_role_default).
        assert (Hpages : getAllowedPages (user_role u) = Some [])
          by (by apply pagesOr_unknown).
        rewrite (enter_array navButtons st1 (StaffSession u) [] target Hu Hpages).
        assert (Hst : fst (navigate st1 target) = st1
                      ∧ ∀ p, Render p ∉ snd (navigate st1 target)).
        { destruct (decide (target = "reception")) as [Ht|Ht].
          - rewrite (navigate_denied_default st1 _ target Hu (Hdenied _))
              by (by rewrite Hdef, Ht).
            split; [done|]. intros p Hp%list_elem_of_singleton. done.
          - rewrite (navigate_denied_twice st1 _ target "reception" Hu
                       (Hdenied _) Hdef Ht (Hdenied _)).
            split; [done|].
            intros p. cbn [snd]. rewrite !elem_of_cons, elem_of_nil.
            by intros [|[|]]. }
        destruct Hst as [Hfst Hes]. cbn [fst snd]. split; [done|].
        intros p. cbn [app]. rewrite !elem_of_cons. intros [|[|[|]]]; [done..|].
        by apply (Hes p).
  - intros Hpin. by rewrite bool_decide_eq_false_2.
Qed.

End LoginMore.

(** ** Permissions of the workflow *)

Section WorkflowMore.
Import Rbac Workflow.

Lemma scan_roles st action :
  action ∈ ["startScan"; "completeScan"; "markComplete"] →
  hasPermission st action = true →
  ∃ user, st_user st = Some user
          ∧ session_role user ∈ ["Technician"; "Radiologist"; "Admin"].
Proof.
  unfold hasPermission. destruct (st_user st) as [user|]; [|done].
  rewrite !elem_of_cons, elem_of_nil.
  intros [->|[->|[->|[]]]]; intros Hin%bool_decide_eq_true;
    exists user; (split; [done|]); revert Hin;
    [ change (default [] (actionPermissions !! "startScan"))
        with ["Technician"; "Admin"]
    | change (default [] (actionPermissions !! "completeScan"))
        with ["Technician"; "Admin"]
    | change (default [] (actionPermissions !! "markComplete"))
        with ["Radiologist"; "Admin"] ];
    rewrite !elem_of_cons, !elem_of_nil; tauto.
Qed.

Lemma step_unprivileged st a :
  (∀ user, st_user st = Some user →
     session_role user ∉ ["Technician"; "Radiologist"; "Admin"]) →
  step st a = st.
Proof.
  intros Hrole.
  assert (Hno : ∀ action, action ∈ ["startScan"; "completeScan"; "markComplete"] →
            hasPermission st action = false).
  { intros action Hin. destruct (hasPermission st action) eqn:Hp; [|done].
    destruct (scan_roles st action Hin Hp) as (user & Hu & Hr).
    by destruct (Hrole user Hu). }
  destruct a as [id c|id c|id c t|]; cbn [step].
  - unfold startScan. rewrite Hno; [done|]. apply list_elem_of_here.
  - unfold completeScan. rewrite Hno; [done|].
    apply list_elem_of_further, list_elem_of_here.
  - unfold markComplete. rewrite Hno; [done|].
    do 2 apply list_elem_of_further. apply list_elem_of_here.
  - unfold printReport. by destruct (st_currentStudy st).
Qed.

(** X16.  A session whose role is not Technician, Radiologist or Admin
    (a receptionist, a patient, an unknown role) and a missing session
    change nothing through the workflow calls, whatever calls are made
    in whatever order. *)
Theorem unprivileged_run_changes_nothing (st : AppState) (l : list Action) :
  (∀ user, st_user st = Some user →
     session_role user ∉ ["Technician"; "Radiologist"; "Admin"]) →
  run st l = st.
Proof.
  intros Hrole. unfold run. induction l as [|a l IH]; [done|].
  cbn [foldl]. by rewrite (step_unprivileged st a Hrole).
Qed.

(** X17.  A radiologist may open the technician page, and the page
    shows them the Start and Complete buttons, but the calls behind the
    buttons are refused: the state stays as it is and only the alert is
    shown. *)
Theorem radiologist_buttons_are_refused (st : AppState) user (s : Study) id c :
  st_user st = Some user → session_role user = "Radiologist" →
  canAccess (session_role user) (Some "technician") = Some true
  ∧ (study_status s = "Waiting" → studyCard s (isTech st) = Some StartButton)
  ∧ (study_status s = "Scanning" → studyCard s (isTech st) = Some CompleteButton)
  ∧ startScan st id c
      = (st, [Alert "Access Denied: You don't have permission to start scans."])
  ∧ completeScan st id c
      = (st, [Alert "Access Denied: You don't have permission to complete scans."]).
Proof.
  intros Hu Hr.
  assert (Htech : isTech st = true).
  { unfold isTech. rewrite Hu, Hr. done. }
  assert (Hno : hasPermission st "startScan" = false
                ∧ hasPermission st "completeScan" = false).
  { unfold hasPermission. rewrite Hu, Hr. done. }
  destruct Hno as [Hs Hc]. rewrite Htech. split_and!.
  - by rewrite Hr.
  - intros Hw. unfold studyCard. by rewrite Hw.
  - intros Hw. unfold studyCard. by rewrite Hw.
  - unfold startScan. by rewrite Hs.
  - unfold completeScan. by rewrite Hc.
Qed.

End WorkflowMore.

(** ** New visits *)

Section VisitsMore.
Import Rbac Router Reception Queue.

(** The four checks in front of [saveVisit]. *)
Local Abbreviation visitAccepted st form :=
  (hasPermission st "createVisit" = true
   ∧ visit_patient_select form ≠ ""
   ∧ visit_assigned_doctor form ≠ ""
   ∧ st_tempQueue st ≠ []).

Lemma saveVisit_rejected env st form :
  ¬ visitAccepted st form →
  ∃ msg, saveVisit env st form = (st, [Alert msg]).
Proof.
  unfold saveVisit. intros Hno.
  destruct (hasPermission st "createVisit"); [|by eexists]. cbn [negb].
  case_bool_decide; [by eexists|]. case_bool_decide; [by eexists|].
  case_bool_decide as Hq; [by eexists|].
  destruct Hno. split_and!; [done..|]. intros Heq. apply Hq. by rewrite Heq.
Qed.

(** X18.  [saveVisit] creates nothing unless all four checks pass: when
    the permission, the patient, the doctor or the queue is missing, the
    state is unchanged, one alert is shown and no request is sent; and a
    request is only ever sent with all four in place. *)
Theorem saveVisit_all_or_nothing (env : Env) (st : AppState) (form : VisitForm) :
  (¬ visitAccepted st form →
     ∃ msg, saveVisit env st form = (st, [Alert msg]))
  ∧ (∀ action id, Request action id ∈ snd (saveVisit env st form) →
       visitAccepted st form).
Proof.
  split; [apply saveVisit_rejected|].
  intros action id Hin.
  destruct (decide (hasPermission st "createVisit" = true
                    ∧ visit_patient_select form ≠ ""
                    ∧ visit_assigned_doctor form ≠ ""
                    ∧ st_tempQueue st ≠ [])) as [Hok|Hno]; [done|].
  destruct (saveVisit_rejected env st form Hno) as [msg Hmsg].
  rewrite Hmsg in Hin. by apply list_elem_of_singleton in Hin.
Qed.

(** X19.  A visit that was saved empties the queue, so saving again
    right away, with whatever form, creates nothing. *)
Theorem saveVisit_twice (env env' : Env) (st : AppState) (form form' : VisitForm) :
  visitAccepted st form →
  let st1 := fst (saveVisit env st form) in
  st_tempQueue st1 = []
  ∧ ∃ msg, saveVisit env' st1 form' = (st1, [Alert msg]).
Proof.
  intros (Hp & Hpat & Hdoc & Hq) st1.
  assert (Hempty : st_tempQueue st1 = []).
  { subst st1. unfold saveVisit. rewrite Hp. cbn [negb].
    rewrite !bool_decide_eq_false_2 by (done || by destruct (st_tempQueue st)).
    by destruct (navigate _ "reception"). }
  split; [done|]. apply saveVisit_rejected.
  intros (_ & _ & _ & Hne). by apply Hne.
Qed.

(** X20.  The queue of the dialog: an entry with a region and a name is
    appended and shown last, with the index that removes it again; an
    entry without region or name is refused; removing through the button
    of a line takes out that line's entry and no other. *)
Theorem queue_add_remove (st : AppState) (modality region name : string) :
  (region ≠ "" → name ≠ "" →
     let st1 := fst (addStudyToQueue st modality region name) in
     st_tempQueue st1 = st_tempQueue st ++ [mkQueued modality region name]
     ∧ last (renderStudyQueue st1)
         = Some (mkLine modality name (length (st_tempQueue st)))
     ∧ removeStudy st1 (length (st_tempQueue st)) = st)
  ∧ (region = "" ∨ name = "" →
     addStudyToQueue st modality region name
       = (st, [Alert "Please enter region and study name"]))
  ∧ (∀ i line, renderStudyQueue st !! i = Some line →
       ∃ q, st_tempQueue st !! i = Some q
            ∧ line_remove line = i
            ∧ st_tempQueue (removeStudy st (line_remove line))
                = take i (st_tempQueue st) ++ drop (S i) (st_tempQueue st)).
Proof.
  split_and!.
  - intros Hr Hn st1. subst st1. unfold addStudyToQueue.
    rewrite !bool_decide_eq_false_2 by done. cbn [orb fst].
    split_and!.
    + done.
    + unfold renderStudyQueue. cbn [st_tempQueue set_tempQueue].
      rewrite imap_app. cbn [imap]. rewrite last_snoc. by rewrite Nat.add_0_r.
    + unfold removeStudy. cbn [st_tempQueue set_tempQueue].
      rewrite (delete_middle (st_tempQueue st) []), app_nil_r. by destruct st.
  - unfold addStudyToQueue. intros [->| ->].
    + done.
    + by rewrite orb_true_r.
  - intros i line Hline. unfold renderStudyQueue in Hline.
    apply list_lookup_imap_Some in Hline as (q & Hq & ->).
    exists q. split_and!; [done..|].
    unfold removeStudy. cbn [st_tempQueue set_tempQueue line_remove].
    by rewrite delete_take_drop.
Qed.

End VisitsMore.

(** ** Patients and users created in the client *)

Section PeopleMore.
Import Rbac Router Auth Reception Patients Admin Helpers.
Context (unicodeUpper : string → string) (navButtons : bool).

Local Abbreviation toUpperCase := (Str.toUpperCase unicodeUpper).
Local Abbreviation expectedPass := (Auth.expectedPass unicodeUpper).
Local Abbreviation login := (Auth.login unicodeUpper navButtons).
Local Abbreviation patientLogin := (Auth.patientLogin unicodeUpper navButtons).

Lemma find_app_Some {A} (f : A → bool) (l l' : list A) x :
  find f l = Some x → find f (l ++ l') = Some x.
Proof.
  induction l as [|y l IH]; [done|]. simpl. by destruct (f y).
Qed.

Lemma find_app_None {A} (f : A → bool) (l l' : list A) :
  find f l = None → find f (l ++ l') = find f l'.
Proof.
  induction l as [|y l IH]; [done|]. simpl. by destruct (f y).
Qed.

Lemma find_None_elem {A} (f : A → bool) (l : list A) :
  (∀ x, x ∈ l → f x = false) → find f l = None.
Proof.
  induction l as [|y l IH]; [done|]. intros Hall. simpl.
  rewrite (Hall y) by apply list_elem_of_here.
  apply IH. intros x Hx. by apply Hall, list_elem_of_further.
Qed.

Lemma savePatient_accepted env st form :
  hasPermission st "createPatient" = true →
  pat_name form ≠ "" → pat_dob form ≠ "" →
  savePatient env st form
    = (set_patients st (st_patients st ++ [newPatient env form]),
       [CloseModal; Request "createPatient" (generateIdAt env "PT" 0)]).
Proof.
  intros Hp Hn Hd. unfold savePatient. rewrite Hp. cbn [negb].
  by rewrite !bool_decide_eq_false_2 by done.
Qed.

(** X21.  A patient saved with a phone number that no earlier patient
    has, and that is written without surrounding white space, can log in
    at once: every passcode that, trimmed and upper-cased, is the
    upper-cased first three code units of the name followed by the phone
    opens the session of the new record. *)
Theorem savePatient_then_login (env : Env) (st : AppState) (form : PatientForm)
        (passIn : string) :
  let new := newPatient env form in
  let st1 := fst (savePatient env st form) in
  hasPermission st "createPatient" = true →
  pat_name form ≠ "" → pat_dob form ≠ "" →
  pat_phone form ≠ "" → Str.trim (pat_phone form) = pat_phone form →
  (∀ p, p ∈ st_patients st → patient_phone p ≠ pat_phone form) →
  toUpperCase (Str.trim passIn) = expectedPass new (pat_phone form) →
  st_patients st1 = st_patients st ++ [new]
  ∧ st_user (fst (patientLogin st1 (pat_phone form) passIn)) = Some (sessionOf new)
  ∧ Render "patient-portal" ∈ snd (patientLogin st1 (pat_phone form) passIn).
Proof.
  intros new st1 Hp Hn Hd Hphone Htrim Hfresh Hpass. subst st1.
  rewrite (savePatient_accepted env st form Hp Hn Hd). cbn [fst].
  split; [done|]. rewrite patientLogin_eq. cbv zeta. rewrite Htrim.
  assert (Hpass' : Str.trim passIn ≠ "").
  { intros Heq. rewrite Heq in Hpass. symmetry in Hpass.
    by apply append_empty_r in Hpass. }
  rewrite !bool_decide_eq_false_2 by done. cbn [orb].
  cbn [st_patients set_patients].
  rewrite find_app_None.
  2:{ apply find_None_elem. intros p Hin. apply bool_decide_eq_false.
      by apply Hfresh. }
  cbn [find]. change (patient_phone (newPatient env form)) with (pat_phone form).
  rewrite bool_decide_eq_true_2 by done. fold new.
  rewrite bool_decide_eq_true_2 by done. cbn [fst snd].
  split; [done|]. do 3 apply list_elem_of_further. apply list_elem_of_here.
Qed.

(** X22.  [savePatient] does not look at the phone numbers already in
    use, and the login takes the first patient with the phone: while an
    earlier patient has the phone that is entered, the login answers as
    it did before the new patient was saved, whatever the new record
    holds. *)
Theorem phone_in_use_shadows (env : Env) (st : AppState) (form : PatientForm)
        (p0 : Patient) (phoneIn passIn : string) :
  let st1 := fst (savePatient env st form) in
  find (λ p, bool_decide (patient_phone p = Str.trim phoneIn)) (st_patients st)
    = Some p0 →
  st_user (fst (patientLogin st1 phoneIn passIn))
    = st_user (fst (patientLogin st phoneIn passIn))
  ∧ snd (patientLogin st1 phoneIn passIn) = snd (patientLogin st phoneIn passIn)
  ∧ st_user (fst (patientLogin st1 phoneIn passIn))
      ∈ [st_user st; Some (sessionOf p0)].
Proof.
  intros st1 Hfind.
  assert (Hst1 : st_user st1 = st_user st
                 ∧ find (λ p, bool_decide (patient_phone p = Str.trim phoneIn))
                        (st_patients st1) = Some p0).
  { subst st1. unfold savePatient.
    destruct (negb (hasPermission st "createPatient")); [done|].
    destruct (_ || _); [done|]. cbn [fst st_patients set_patients].
    split; [done|]. by apply find_app_Some. }
  destruct Hst1 as [Hu Hfind1].
  rewrite !patientLogin_eq. cbv zeta. rewrite Hfind, Hfind1.
  destruct (_ || _); [cbn [fst snd]; rewrite Hu; split_and!; [done..|]|].
  { apply list_elem_of_here. }
  destruct (bool_decide (toUpperCase (Str.trim passIn)
                         = expectedPass p0 (Str.trim phoneIn))); cbn [fst snd].
  - split_and!; [done..|]. apply list_elem_of_further, list_elem_of_here.
  - rewrite Hu. split_and!; [done..|]. apply list_elem_of_here.
Qed.

Lemma generateId_nonempty prefix now rnd : generateId prefix now rnd ≠ "".
Proof.
  unfold generateId. intros H. apply append_empty_r in H.
  cbn [String.append] in H. discriminate H.
Qed.

(** X23.  [createUser] asks for a name, an email and a PIN of four
    characters (UTF-16 code units), but not for any permission: whoever is logged in, and
    also nobody, adds the user; when the generated id is not in use the
    new user can log in with the PIN at once. *)
Theorem createUser_then_login (env : Env) (st : AppState) (form : UserForm) :
  let new := newUser env form in
  let st1 := fst (createUser env st form) in
  new_user_name form ≠ "" → new_user_email form ≠ "" →
  (4 ≤ Str.length (new_user_pin form))%nat →
  (∀ u, u ∈ st_users st → user_id u ≠ user_id new) →
  st_users st1 = st_users st ++ [new]
  ∧ st_user st1 = st_user st
  ∧ Request "createUser" (user_id new) ∈ snd (createUser env st form)
  ∧ st_user (fst (login st1 "staff" (mkForm (user_id new) (new_user_pin form) "" "")))
      = Some (StaffSession new).
Proof.
  intros new st1 Hn He Hpin Hfresh. subst st1. unfold createUser.
  assert (Hpin' : new_user_pin form ≠ "").
  { intros Heq. rewrite Heq in Hpin. simpl in Hpin. lia. }
  rewrite !bool_decide_eq_false_2 by (done || lia). cbn [orb fst snd].
  split_and!; [done|done|apply list_elem_of_further, list_elem_of_here|].
  fold new. set (st1 := set_users st _).
  unfold Auth.login. rewrite bool_decide_eq_true_2 by done.
  cbn [login_user login_pin].
  rewrite bool_decide_eq_false_2 by apply generateId_nonempty.
  subst st1. cbn [st_users set_users].
  rewrite find_app_None.
  2:{ apply find_None_elem. intros u Hin. apply bool_decide_eq_false.
      by apply Hfresh. }
  cbn [find]. rewrite bool_decide_eq_true_2 by done.
  change (user_pin new) with (new_user_pin form).
  rewrite bool_decide_eq_true_2 by done.
  match goal with |- context [Auth.enter _ ?s ?u ?t] =>
    destruct (enter_frame navButtons s u t) as [_ [view Hview]] end.
  by rewrite Hview.
Qed.

(** The state that an accepted [saveVisit] leaves. *)
Lemma saveVisit_state env st form :
  hasPermission st "createVisit" = true →
  visit_patient_select form ≠ "" → visit_assigned_doctor form ≠ "" →
  st_tempQueue st ≠ [] →
  let vid := generateIdAt env "VS" 0 in
  ∃ visit news view,
    fst (saveVisit env st form)
      = mkApp (st_user st) (st_users st) (st_patients st)
              (st_visits st ++ [visit]) (st_studies st ++ news) view []
              (st_currentStudy st)
    ∧ visit_id visit = vid
    ∧ visit_patient_id visit = visit_patient_select form
    ∧ ∀ s, s ∈ news → study_visit_id s = vid.
Proof.
  intros Hp Hpat Hdoc Hq vid. unfold saveVisit. rewrite Hp. cbn [negb].
  rewrite !bool_decide_eq_false_2 by (done || by destruct (st_tempQueue st)).
  set (visit := mkVisit _ _ _ _ _ _ _).
  set (news := imap _ (st_tempQueue st)).
  set (st2 := set_studies _ _).
  destruct (navigate_frame st2 "reception") as [view Hview].
  destruct (navigate st2 "reception") as [st3 es].
  cbn [fst] in Hview |- *. subst st3.
  exists visit, news, view. split_and!; [done..|].
  intros s [i Hs]%list_elem_of_lookup.
  by apply newStudies_lookup in Hs as (q & _ & ->).
Qed.

Lemma visit_id_not_patient_id env k : Str.startsWith "PT" (generateIdAt env "VS" k) = false.
Proof. reflexivity. Qed.

(** X24.  The visit that [saveVisit] adds resolves to its patient:
    when the generated visit id is not in use, [getPatient] of that id,
    and so of the visit id of every study created with it, is the
    patient that was selected. *)
Theorem new_visit_resolves_patient (env : Env) (st : AppState) (form : VisitForm)
        (p : Patient) :
  let vid := generateIdAt env "VS" 0 in
  let st1 := fst (saveVisit env st form) in
  hasPermission st "createVisit" = true →
  visit_patient_select form ≠ "" → visit_assigned_doctor form ≠ "" →
  st_tempQueue st ≠ [] →
  (∀ v, v ∈ st_visits st → visit_id v ≠ vid) →
  find (λ q, bool_decide (patient_id q = visit_patient_select form))
       (st_patients st) = Some p →
  getPatient st1 vid = Some p
  ∧ ∀ s, s ∈ st_studies st1 → s ∉ st_studies st →
         getPatientName st1 (study_visit_id s) = patient_full_name p.
Proof.
  intros vid st1 Hp Hpat Hdoc Hq Hfresh Hfind.
  destruct (saveVisit_state env st form Hp Hpat Hdoc Hq)
    as (visit & news & view & Hst & Hvid & Hpid & Hnews).
  fold st1 in Hst. fold vid in Hvid, Hnews.
  assert (Hget : getPatient st1 vid = Some p).
  { unfold getPatient.
    rewrite bool_decide_eq_false_2 by apply generateId_nonempty.
    subst vid. rewrite visit_id_not_patient_id. rewrite Hst.
    cbn [st_visits st_patients].
    rewrite find_app_None.
    2:{ apply find_None_elem. intros v Hin. apply bool_decide_eq_false.
        by apply Hfresh. }
    cbn [find]. rewrite bool_decide_eq_true_2 by done. by rewrite Hpid. }
  split; [done|]. intros s Hin Hold.
  rewrite Hst in Hin. cbn [st_studies] in Hin.
  apply elem_of_app in Hin as [Hin|Hin]; [done|].
  unfold getPatientName. by rewrite (Hnews s Hin), Hget.
Qed.

End PeopleMore.

(** ** Worklists: from the technician to the radiologist *)

Section WorklistMore.
Import Rbac Workflow Worklist.








Lemma viewReportOffered_status rc status :
  Portal.viewReportOffered rc status = true →
  status = "Ready" ∨ status = "Reported".
Proof.
  unfold Portal.viewReportOffered.
  intros [[_ H]%andb_true_iff|H]%orb_true_iff;
    apply bool_decide_eq_true in H; auto.
Qed.

Lemma run_snoc st l a : run st (l ++ [a]) = step (run st l) a.
Proof. unfold run. by rewrite foldl_app. Qed.

(** X27.  The portal offers a report for a study that is Reported (or
    Ready, with a report), and the client never writes such a status:
    whatever calls of the workflow are made, a study that the portal
    then offers had that very status before, so a study that was marked
    complete is shown as not reported. *)
Theorem client_never_publishes (st : AppState) (l : list Action) i s rc :
  st_studies (run st l) !! i = Some s →
  Portal.viewReportOffered rc (study_status s) = true →
  (∃ s0, st_studies st !! i = Some s0 ∧ study_status s0 = study_status s)
  ∧ ∀ rc', Portal.viewReportOffered rc' "Completed" = false.
Proof.
  intros Hs Hview. split.
  2:{ intros rc'. unfold Portal.viewReportOffered.
      rewrite !bool_decide_eq_false_2 by done. by rewrite andb_false_r. }
  apply viewReportOffered_status in Hview.
  revert s Hs Hview. induction l as [|a l IH] using rev_ind; intros s Hs Hview.
  { by exists s. }
  rewrite run_snoc in Hs.
  assert (Hlen : length (st_studies (step (run st l) a))
                 = length (st_studies (run st l))).
  { rewrite <- (length_fmap study_id), step_ids. by rewrite length_fmap. }
  destruct (st_studies (run st l) !! i) as [y|] eqn:Hy.
  - destruct (step_lookup (run st l) a i y Hy) as (x & Hx & _ & Hcase).
    rewrite Hs in Hx. injection Hx as <-.
    destruct Hcase as [Heq|(Htarget & Hid & Hne)].
    { rewrite Heq in Hview |- *. by apply IH. }
    exfalso. rewrite Htarget in Hview.
    destruct a; cbn in Hview; by destruct Hview.
  - apply lookup_lt_Some in Hs. apply lookup_ge_None in Hy. lia.
Qed.

End WorklistMore.

(** ** The further properties on the sample data *)

Section SheetSamplesMore.
Import Examples MoreExamples RowStore.

Lemma sample_findRow :
  findRow showDate studiesSheet (Some (VStr "ST-902")) = Some 2%nat.
Proof. by vm_compute. Qed.

(** X1 on the sample sheet: the status cell of ST-902 holds the new
    status. *)
Lemma updateRow_writes_witness :
  ∃ sh' row',
    updateRow showDate book "Studies" (Some (VStr "ST-902"))
              {[ "status" := VStr "Scanning" ]}
      = inr (Success, <["Studies" := sh']> book)
    ∧ sh' !! 2%nat = Some row'
    ∧ row' !! 2%nat = Some (VStr "Scanning").
Proof.
  assert (Hbook : book !! "Studies" = Some studiesSheet) by (by vm_compute).
  destruct (updateRow_writes showDate book "Studies" studiesSheet
              (Some (VStr "ST-902")) {[ "status" := VStr "Scanning" ]} 2%nat
              [VStr "ST-902"; VStr "VS-501"; VStr "Waiting"]
              Hbook sample_findRow eq_refl eq_refl)
    as (sh' & row' & Hres & Hrow & Hcells).
  exists sh', row'. split_and!; [done..|].
  apply (Hcells "status"); by vm_compute.
Defined.

(** X2 on the sample sheet: ST-902 is deleted once, not twice. *)
Lemma deleteRow_removes_witness :
  ∃ ss',
    deleteRow showDate book "Studies" (Some (VStr "ST-902")) = inr (Success, ss')
    ∧ ss' !! "Studies" = Some (delete 2%nat studiesSheet)
    ∧ deleteRow showDate ss' "Studies" (Some (VStr "ST-902"))
        = inr (Error "ID not found", ss').
Proof.
  assert (Hbook : book !! "Studies" = Some studiesSheet) by (by vm_compute).
  destruct (deleteRow_removes showDate book "Studies" studiesSheet
              (Some (VStr "ST-902")) Hbook sample_hasRow)
    as (i & ss' & Hfind & Hres & Hss' & _ & _ & _ & _ & Hagain).
  rewrite sample_findRow in Hfind. injection Hfind as <-.
  exists ss'. split; [done|]. split; [by rewrite Hss', lookup_insert_eq|].
  destruct Hagain as (_ & ss'' & Hres' & ->); [|done].
  intros [|[|[|j]]] row Hrow Hj Hid; [lia| |done|done].
  injection Hrow as <-. by vm_compute in Hid.
Defined.

(** X3 on the sample sheet: the update of an unknown study. *)
Lemma error_leaves_sheets_witness :
  snd (handleRequest showDate showJson book runtime "updateStudyStatus"
                     (Some (scanning "ST-999"))) = book.
Proof.
  apply (error_leaves_sheets showDate showJson book runtime "updateStudyStatus"
           (Some (scanning "ST-999")) "ID not found").
  by vm_compute.
Defined.

(** X4 on the sample spreadsheet: the Studies sheet gets its report
    column. *)
Lemma setup_establishes_schema_witness :
  ∃ headers rows,
    setup 0 book !! "Studies" = Some (headers :: rows)
    ∧ VStr "report_content" ∈ headers.
Proof.
  assert (Hin : ("Studies", studiesHeaders) ∈ schema).
  { do 2 apply list_elem_of_further. apply list_elem_of_here. }
  destruct (setup_establishes_schema 0 book "Studies" studiesHeaders Hin)
    as (headers & rows & Hsh & Hall).
  exists headers, rows. split; [done|]. apply Hall.
  do 10 apply list_elem_of_further. apply list_elem_of_here.
Defined.

(** X5 on the sample spreadsheet: the two studies stay. *)
Lemma setup_is_additive_witness :
  ∃ headers' rows',
    setup 0 book !! "Studies" = Some (headers' :: rows')
    ∧ [VStr "id"; VStr "visit_id"; VStr "status"] `prefix_of` headers'
    ∧ length rows' = 2%nat.
Proof.
  assert (Hin : ("Studies", studiesHeaders) ∈ schema).
  { do 2 apply list_elem_of_further. apply list_elem_of_here. }
  assert (Hbook : book !! "Studies" = Some studiesSheet) by (by vm_compute).
  destruct (proj1 (setup_is_additive 0 book "Studies") studiesHeaders
              _ _ Hin Hbook)
    as (headers' & rows' & Hsh & Hpre & Hlen & _).
  { by intros [[=] _]. }
  by exists headers', rows'.
Defined.

(** X7 on an empty spreadsheet. *)
Lemma setup_seeds_admin_witness :
  ∃ admin, getSheetData showDate (setup 0 ∅) "Users" = [admin]
           ∧ admin !! "role" = Some (VStr "Admin").
Proof.
  destruct (setup_seeds_admin showDate 0 ∅) as (_ & admin & Hget & _ & Hrole & _).
  { left. apply lookup_empty. }
  by exists admin.
Defined.

(** X8 on the sample sheet: a study is created and deleted again. *)
Lemma createRow_then_deleteRow_witness :
  ∃ id ss',
    createRow showDate book "Studies" (Some {[ "visit_id" := VStr "VS-502" ]})
              "ST" runtime = inr (Created (Some id), ss')
    ∧ deleteRow showDate ss' "Studies" (Some id) = inr (Success, book).
Proof.
  assert (Hbook : book !! "Studies" = Some studiesSheet) by (by vm_compute).
  destruct (createRow_then_deleteRow showDate book "Studies" studiesSheet
              {[ "visit_id" := VStr "VS-502" ]} "ST" runtime (VStr "id")
              Hbook eq_refl eq_refl)
    as (id & ss' & sh' & Hres & _ & _ & Hdel).
  exists id, ss'. split; [done|].
  assert (Hid : createRow showDate book "Studies"
                  (Some {[ "visit_id" := VStr "VS-502" ]}) "ST" runtime
                = inr (Created (Some (VStr "ST-4711")),
                       <["Studies" := studiesSheet
                           ++ [[VStr "ST-4711"; VStr "VS-502"; VStr ""]]]> book))
    by (by vm_compute).
  rewrite Hid in Hres. injection Hres as <- _.
  apply Hdel. apply findRow_None. by vm_compute.
Defined.

(** X9 on the sample sheet: the visit id of the payload is read back. *)
Lemma createRow_read_back_witness :
  ∃ r ss' o,
    createRow showDate book "Studies" (Some {[ "visit_id" := VStr "VS-502" ]})
              "ST" runtime = inr (r, ss')
    ∧ getSheetData showDate ss' "Studies"
        = getSheetData showDate book "Studies" ++ [o]
    ∧ o !! "visit_id" = Some (VStr "VS-502").
Proof.
  assert (Hbook : book !! "Studies" = Some studiesSheet) by (by vm_compute).
  assert (Hhead : headersOf studiesSheet ≠ []) by done.
  destruct (createRow_read_back showDate book "Studies" studiesSheet
              {[ "visit_id" := VStr "VS-502" ]} "ST" runtime Hbook Hhead)
    as (r & ss' & o & Hres & Hget & _ & Hkeep & _).
  exists r, ss', o. split_and!; [done..|].
  apply Hkeep; [by vm_compute|done|done|].
  exists (VStr "visit_id"). split; [|done].
  apply list_elem_of_further, list_elem_of_here.
Defined.

(** X11 on a sheet with the report columns. *)
Lemma report_then_complete_witness :
  ∃ ss1 ss2 sh2 row2,
    handleRequest showDate showJson reportingBook runtime "saveReport"
                  (Some (reportOf "ST-901" "<p>Normal.</p>")) = (Success, ss1)
    ∧ handleRequest showDate showJson ss1 runtime "markComplete"
                    (Some (caseOf "ST-901")) = (Success, ss2)
    ∧ ss2 !! "Studies" = Some sh2
    ∧ sh2 !! 1%nat = Some row2
    ∧ row2 !! 1%nat = Some (VStr "Completed")
    ∧ row2 !! 2%nat = Some (VStr "<p>Normal.</p>").
Proof.
  assert (Hbook : reportingBook !! "Studies" = Some reportingSheet)
    by (by vm_compute).
  assert (Hfind : findRow showDate reportingSheet (Some (VStr "ST-901"))
                  = Some 1%nat) by (by vm_compute).
  destruct (report_then_complete showDate showJson reportingBook runtime runtime
              reportingSheet (reportOf "ST-901" "<p>Normal.</p>") (caseOf "ST-901")
              (VStr "ST-901") (VStr "<p>Normal.</p>") 1%nat
              [VStr "ST-901"; VStr "Reporting"; VStr ""; VStr ""] 1%nat 2%nat 3%nat
              Hbook eq_refl Hfind eq_refl eq_refl)
    as (ss1 & ss2 & sh2 & row2 & H1 & H2 & Hss2 & Hrow2 & Hcr & Hcs & _);
    [by vm_compute..|].
  exists ss1, ss2, sh2, row2. split_and!; [done|done| |done..].
  by rewrite Hss2, lookup_insert_eq.
Defined.

(** X10 on the sample sheet: a createStudy request without a body. *)
Lemma no_body_is_error_witness :
  ∃ m, handleRequest showDate showJson book runtime "createStudy" None
       = (Error m, book).
Proof.
  by apply (no_body_is_error showDate showJson book runtime "createStudy").
Defined.

End SheetSamplesMore.

Section SamplesMore.
Import Examples MoreExamples.


(** X13 on the sample state: a restored Radiologist session lands on
    the reception page. *)
Lemma init_lands_on_default_witness :
  RouterInit.init (loggedIn "Radiologist")
    = (set_currentView (loggedIn "Radiologist") "reception",
       [Render "reception"; NavHidden false]).
Proof.
  destruct (proj1 (proj2 (init_lands_on_default (loggedIn "Radiologist")))
              (StaffSession (staff "Radiologist"))
              ["reception"; "technician"; "radiologist"] eq_refl eq_refl)
    as (d & Hd & Hinit).
  injection Hd as <-. exact Hinit.
Defined.

(** X15 on the sample state: the Radiologist logs in and lands on the
    radiologist page. *)
Lemma staff_login_witness :
  let r := Auth.login caseTables true (atLogin "Radiologist") "staff"
                      (Auth.mkForm "USR-1" "1234" "" "") in
  st_user (fst r) = Some (StaffSession (staff "Radiologist"))
  ∧ st_currentView (fst r) = "radiologist".
Proof.
  intros r.
  assert (Hid : Auth.login_user (Auth.mkForm "USR-1" "1234" "" "") ≠ "") by done.
  destruct (proj1 (staff_login caseTables true (atLogin "Radiologist")
                     (Auth.mkForm "USR-1" "1234" "" "") (staff "Radiologist")
                     Hid eq_refl) eq_refl)
    as (Hu & _ & Hland & _).
  split; [done|].
  destruct Hland as (target & -> & Hst & _).
  { do 2 apply list_elem_of_further. apply list_elem_of_here. }
  subst r. by rewrite Hst.
Defined.

(** X14 on the sample states: what Reception may do, Admin may do. *)
Lemma hasPermission_staff_only_witness :
  Rbac.hasPermission (loggedIn "Admin") "createVisit" = true.
Proof.
  assert (Hp : Rbac.hasPermission (loggedIn "Reception") "createVisit" = true)
    by (by vm_compute).
  exact (proj2 (hasPermission_staff_only (loggedIn "Reception") "createVisit" Hp)
           (loggedIn "Admin") _ eq_refl eq_refl).
Defined.

(** X16 on the sample state: a receptionist calling the workflow. *)
Lemma unprivileged_run_changes_nothing_witness :
  Workflow.run (loggedIn "Reception")
    [Workflow.StartScan "ST-902" true;
     Workflow.MarkComplete "ST-901" true "2023-10-27T10:00:00.000Z"]
  = loggedIn "Reception".
Proof.
  apply unprivileged_run_changes_nothing.
  intros user [= <-]. rewrite !not_elem_of_cons. split_and!; [done..|].
  apply not_elem_of_nil.
Defined.

(** X17 on the sample state: the Start button of ST-902. *)
Lemma radiologist_buttons_are_refused_witness :
  Workflow.startScan (loggedIn "Radiologist") "ST-902" true
    = (loggedIn "Radiologist",
       [Alert "Access Denied: You don't have permission to start scans."]).
Proof.
  exact (proj1 (proj2 (proj2 (proj2
           (radiologist_buttons_are_refused (loggedIn "Radiologist")
              (StaffSession (staff "Radiologist")) completedStudy "ST-902" true
              eq_refl eq_refl))))).
Defined.

(** X18 on the sample state: a technician may not save a visit. *)
Lemma saveVisit_all_or_nothing_witness :
  ∃ msg, Reception.saveVisit ticking (loggedIn "Technician") visitForm
         = (loggedIn "Technician", [Alert msg]).
Proof.
  apply (proj1 (saveVisit_all_or_nothing ticking (loggedIn "Technician") visitForm)).
  intros (Hp & _). by vm_compute in Hp.
Defined.

(** X19 on the sample state: the second click on Save. *)
Lemma saveVisit_twice_witness :
  ∃ msg,
    Reception.saveVisit sameTick
      (fst (Reception.saveVisit ticking twoQueued visitForm)) visitForm
    = (fst (Reception.saveVisit ticking twoQueued visitForm), [Alert msg]).
Proof.
  assert (Hperm : Rbac.hasPermission twoQueued "createVisit" = true)
    by (by vm_compute).
  assert (Hpatient : Reception.visit_patient_select visitForm ≠ "") by done.
  assert (Hdoctor : Reception.visit_assigned_doctor visitForm ≠ "") by done.
  assert (Hqueue : st_tempQueue twoQueued ≠ []) by done.
  exact (proj2 (saveVisit_twice ticking sameTick twoQueued visitForm visitForm
                  (conj Hperm (conj Hpatient (conj Hdoctor Hqueue))))).
Defined.

(** X20 on the sample state: a third study is queued and removed. *)
Lemma queue_add_remove_witness :
  Queue.removeStudy
    (fst (Queue.addStudyToQueue twoQueued "MR" "Knee" "MRI Knee")) 2
  = twoQueued.
Proof.
  assert (Hr : "Knee" ≠ "") by done.
  assert (Hn : "MRI Knee" ≠ "") by done.
  exact (proj2 (proj2 (proj1 (queue_add_remove twoQueued "MR" "Knee" "MRI Knee")
                         Hr Hn))).
Defined.

(** X21 on the sample state: Lina Omar is registered and logs in. *)
Lemma savePatient_then_login_witness :
  st_user (fst (Auth.patientLogin caseTables true
                  (fst (Patients.savePatient ticking (loggedIn "Reception") linaForm))
                  "0599000111" "lin0599000111"))
    = Some (Auth.sessionOf (Patients.newPatient ticking linaForm)).
Proof.
  assert (Hperm : Rbac.hasPermission (loggedIn "Reception") "createPatient" = true)
    by (by vm_compute).
  assert (Hname : Patients.pat_name linaForm ≠ "") by done.
  assert (Hdob : Patients.pat_dob linaForm ≠ "") by done.
  assert (Hphone : Patients.pat_phone linaForm ≠ "") by done.
  assert (Htrim : Str.trim (Patients.pat_phone linaForm) = Patients.pat_phone linaForm)
    by (by vm_compute).
  assert (Hfresh : ∀ p, p ∈ st_patients (loggedIn "Reception") →
            patient_phone p ≠ Patients.pat_phone linaForm).
  { intros p Hp. repeat (apply elem_of_cons in Hp as [->|Hp]; [done|]).
    by apply elem_of_nil in Hp. }
  assert (Hpass : Str.toUpperCase caseTables (Str.trim "lin0599000111")
                  = Auth.expectedPass caseTables (Patients.newPatient ticking linaForm)
                      (Patients.pat_phone linaForm)) by (by vm_compute).
  exact (proj1 (proj2 (savePatient_then_login caseTables true
                         ticking (loggedIn "Reception")
                         linaForm "lin0599000111"
                         Hperm Hname Hdob Hphone Htrim Hfresh Hpass))).
Defined.

(** X22 on the sample state: a second patient with the phone of PT-101
    is registered; the phone still opens the session of PT-101. *)
Lemma phone_in_use_shadows_witness :
  st_user (fst (Auth.patientLogin caseTables true
                  (fst (Patients.savePatient ticking (loggedIn "Reception")
                          samePhoneForm))
                  "0599123456" "AHM0599123456"))
    = st_user (fst (Auth.patientLogin caseTables true (loggedIn "Reception")
                      "0599123456" "AHM0599123456")).
Proof.
  assert (Hfind : find (λ p, bool_decide (patient_phone p = Str.trim "0599123456"))
                       (st_patients (loggedIn "Reception"))
                  = Some (mkPatient "PT-101" "Ahmed Khaled" "0599123456"))
    by (by vm_compute).
  exact (proj1 (phone_in_use_shadows caseTables true
                  ticking (loggedIn "Reception") samePhoneForm
                  _ "0599123456" "AHM0599123456" Hfind)).
Defined.

(** X23 on the sample state: nobody is logged in, a technician is
    created and logs in. *)
Lemma createUser_then_login_witness :
  st_users (fst (Admin.createUser ticking loggedOut techForm))
    = [Admin.newUser ticking techForm]
  ∧ st_user (fst (Auth.login caseTables true
                    (fst (Admin.createUser ticking loggedOut techForm))
                    "staff"
                    (Auth.mkForm (user_id (Admin.newUser ticking techForm))
                                 "4321" "" "")))
      = Some (StaffSession (Admin.newUser ticking techForm)).
Proof.
  assert (Hname : Admin.new_user_name techForm ≠ "") by done.
  assert (Hemail : Admin.new_user_email techForm ≠ "") by done.
  assert (Hpin : (4 ≤ Str.length (Admin.new_user_pin techForm))%nat)
    by (vm_compute; lia).
  assert (Hfresh : ∀ u, u ∈ st_users loggedOut →
            user_id u ≠ user_id (Admin.newUser ticking techForm)).
  { intros u Hu. by apply elem_of_nil in Hu. }
  destruct (createUser_then_login caseTables true ticking loggedOut techForm
              Hname Hemail Hpin Hfresh) as (Hus & _ & _ & Hlogin).
  by split.
Defined.

(** X24 on the sample state: the new visit of PT-101. *)
Lemma new_visit_resolves_patient_witness :
  Patients.getPatient (fst (Reception.saveVisit ticking twoQueued visitForm))
                      (Helpers.generateIdAt ticking "VS" 0)
    = Some (mkPatient "PT-101" "Ahmed Khaled" "0599123456").
Proof.
  assert (Hperm : Rbac.hasPermission twoQueued "createVisit" = true)
    by (by vm_compute).
  assert (Hpatient : Reception.visit_patient_select visitForm ≠ "") by done.
  assert (Hdoctor : Reception.visit_assigned_doctor visitForm ≠ "") by done.
  assert (Hqueue : st_tempQueue twoQueued ≠ []) by done.
  assert (Hfresh : ∀ v, v ∈ st_visits twoQueued →
            visit_id v ≠ Helpers.generateIdAt ticking "VS" 0).
  { intros v Hv. apply list_elem_of_singleton in Hv as ->. by vm_compute. }
  assert (Hfind : find (λ q, bool_decide (patient_id q
                                = Reception.visit_patient_select visitForm))
                       (st_patients twoQueued)
                  = Some (mkPatient "PT-101" "Ahmed Khaled" "0599123456"))
    by (by vm_compute).
  exact (proj1 (new_visit_resolves_patient ticking twoQueued visitForm _
                  Hperm Hpatient Hdoctor Hqueue Hfresh Hfind)).
Defined.



(** X27 on the sample state: the report of ST-903 was viewable before
    the administrator touched the other studies. *)
Lemma client_never_publishes_witness :
  ∃ s0, st_studies withReported !! 0%nat = Some s0
        ∧ study_status s0 = "Reported".
Proof.
  assert (Hs : st_studies (Workflow.run withReported
                 [Workflow.StartScan "ST-902" true;
                  Workflow.CompleteScan "ST-902" true]) !! 0%nat
               = Some reportedStudy) by (by vm_compute).
  exact (proj1 (client_never_publishes withReported _ 0%nat reportedStudy
                  (Some "<p>Normal.</p>") Hs eq_refl)).
Defined.

End SamplesMore.
